(** * LN Markets smoke-test script: a shallow embedding of [testscript.py]

    The script fetches a ticker price, converts 5 USD into satoshis and
    places three buy orders through the LN Markets REST client, logging
    every step.  The embedding keeps the script's shape:

    - Python values are an inductive type; Python floats are IEEE binary64
      numbers, taken as Rocq's primitive floats, so [50010 * 1.01] is the
      very number the interpreter computes;
    - an exception is the [Raise] case of [result], and [try ... except
      Exception] is [try_except];
    - the REST client, [json.loads] and the string case of [float] live
      outside the repository and are parameters: every theorem holds for
      any behaviour of them;
    - calls to the client, sleeps and log records are appended to a trace,
      so that "no update call is made" or "a delay follows the order" are
      statements about that trace. *)

From Stdlib Require Import ZArith List String Bool Lia Floats.
Import ListNotations.

Local Open Scope string_scope.
Local Open Scope list_scope.
Local Open Scope Z_scope.

Set Warnings "-inexact-float,-register-all".

(** ** Python values and exceptions *)

(** The values that flow through the script: what a JSON document decodes
    to.  A [dict] is kept as an association list in insertion order, keyed
    by strings as JSON objects are. *)
Inductive value : Type :=
| PyNone
| PyBool (b : bool)
| PyInt (z : Z)
| PyFloat (f : float)
| PyStr (s : string)
| PyList (items : list value)
| PyDict (fields : list (string * value)).

(** The subclasses of [Exception] the script can meet.  [OtherError] stands
    for whatever else the client or the decoder raises (a transport error,
    [JSONDecodeError], ...). *)
Inductive exn : Type :=
| ZeroDivisionError
| OverflowError
| ValueError
| TypeError
| AttributeError
| KeyError
| OtherError (name : string).

Inductive result (A : Type) : Type :=
| Ok (a : A)
| Raise (e : exn).
Arguments Ok {A} a.
Arguments Raise {A} e.

Definition rbind {A B} (r : result A) (k : A -> result B) : result B :=
  match r with
  | Ok a => k a
  | Raise e => Raise e
  end.

(** ** Builtins *)

Module Py.

(** [isinstance(v, (dict, list))] *)
Definition is_dict_or_list (v : value) : bool :=
  match v with
  | PyList _ | PyDict _ => true
  | _ => false
  end.

(** Truth value of a float: every float but [0.0] and [-0.0] is true
    (NaN included). *)
Definition float_truthy (f : float) : bool := negb (PrimFloat.eqb f 0%float).

(** Truth value testing, as [if v:] does it. *)
Definition truthy (v : value) : bool :=
  match v with
  | PyNone => false
  | PyBool b => b
  | PyInt z => negb (z =? 0)
  | PyFloat f => float_truthy f
  | PyStr s => match s with EmptyString => false | _ => true end
  | PyList items => match items with [] => false | _ => true end
  | PyDict fields => match fields with [] => false | _ => true end
  end.

Fixpoint lookup (key : string) (fields : list (string * value)) : option value :=
  match fields with
  | [] => None
  | (k, v) :: rest => if String.eqb k key then Some v else lookup key rest
  end.

(** [d.get(key, default)]; only a dict has the method. *)
Definition get (d : value) (key : string) (default : value) : result value :=
  match d with
  | PyDict fields =>
      Ok (match lookup key fields with Some v => v | None => default end)
  | _ => Raise AttributeError
  end.

(** [d[key]] for a string key. *)
Definition getitem (d : value) (key : string) : result value :=
  match d with
  | PyDict fields =>
      match lookup key fields with Some v => Ok v | None => Raise KeyError end
  | _ => Raise TypeError
  end.

(** [d[key] = v] *)
Fixpoint setitem (key : string) (v : value) (fields : list (string * value))
  : list (string * value) :=
  match fields with
  | [] => [(key, v)]
  | (k, old) :: rest =>
      if String.eqb k key then (k, v) :: rest else (k, old) :: setitem key v rest
  end.

(** *** Numbers *)

(** The numeric tower of the script: [bool] counts as [int]. *)
Inductive number : Type :=
| NInt (z : Z)
| NFloat (f : float).

Definition as_number (v : value) : option number :=
  match v with
  | PyBool b => Some (NInt (if b then 1 else 0))
  | PyInt z => Some (NInt z)
  | PyFloat f => Some (NFloat f)
  | _ => None
  end.

(** A binary64 number or [OverflowError], from the correctly rounded
    value. *)
Definition finite_or_overflow (x : spec_float) : result float :=
  match x with
  | S754_infinity _ => Raise OverflowError
  | _ => Ok (SF2Prim x)
  end.

(** [float(z)] for an int: round to nearest, ties to even;
    [OverflowError] beyond the range of a double. *)
Definition float_of_int (z : Z) : result float :=
  finite_or_overflow (binary_normalize prec emax z 0 false).

Definition float_of_number (n : number) : result float :=
  match n with
  | NInt z => float_of_int z
  | NFloat f => Ok f
  end.

(** [x / y] on two ints with [y <> 0]: the quotient of the two integers,
    rounded once.  The dividend is scaled so that the integer quotient has
    more than 55 bits; its last bit then records whether the division was
    inexact. *)
Definition int_true_divide (x y : Z) : result float :=
  if y =? 0 then Raise ZeroDivisionError
  else if x =? 0 then Ok (if y <? 0 then (-0)%float else 0%float)
  else
    let a := Z.abs x in
    let d := Z.abs y in
    let k := Z.max 0 (Z.log2 d + 56 - Z.log2 a) in
    let q := (a * 2 ^ k) / d in
    let sticky := if (a * 2 ^ k) mod d =? 0 then 0 else 1 in
    let m := 2 * q + sticky in
    let neg := xorb (x <? 0) (y <? 0) in
    finite_or_overflow
      (binary_normalize prec emax (if neg then - m else m) (- k - 1) false).

(** [a / b] (true division): always a float. *)
Definition truediv (a b : value) : result float :=
  match as_number a, as_number b with
  | Some (NInt x), Some (NInt y) => int_true_divide x y
  | Some x, Some y =>
      rbind (float_of_number x) (fun fa =>
      rbind (float_of_number y) (fun fb =>
      if PrimFloat.eqb fb 0%float then Raise ZeroDivisionError
      else Ok (fa / fb)%float))
  | _, _ => Raise TypeError
  end.

(** [a * f] where the right operand is a float: a float for a number on
    the left, [TypeError] for anything else (a sequence cannot be
    repeated a float number of times). *)
Definition mul_float (a : value) (f : float) : result float :=
  match as_number a with
  | Some n => rbind (float_of_number n) (fun fa => Ok (fa * f)%float)
  | None => Raise TypeError
  end.

(** Round half to even of [m * 2^e], [m] being a natural number. *)
Definition round_half_even (m e : Z) : Z :=
  if 0 <=? e then m * 2 ^ e
  else
    let d := 2 ^ (- e) in
    let q := m / d in
    let r := m mod d in
    match (2 * r) ?= d with
    | Lt => q
    | Gt => q + 1
    | Eq => if Z.even q then q else q + 1
    end.

(** [round(f)] for a float, without [ndigits]: an int, ties going to the
    even neighbour; [OverflowError] for an infinity and [ValueError] for
    NaN. *)
Definition round (f : float) : result Z :=
  match Prim2SF f with
  | S754_zero _ => Ok 0
  | S754_infinity _ => Raise OverflowError
  | S754_nan => Raise ValueError
  | S754_finite s m e =>
      let n := round_half_even (Zpos m) e in
      Ok (if s then - n else n)
  end.

(** [int(n)] applied to an int is the identity. *)
Definition int (n : Z) : Z := n.

(** [v < 0], [v == 0] and "is a number", used to speak about prices. *)
Definition negative (v : value) : bool :=
  match as_number v with
  | Some (NInt z) => z <? 0
  | Some (NFloat f) => PrimFloat.ltb f 0%float
  | None => false
  end.

Definition is_zero (v : value) : bool :=
  match as_number v with
  | Some (NInt z) => z =? 0
  | Some (NFloat f) => PrimFloat.eqb f 0%float
  | None => false
  end.

Definition is_number (v : value) : bool :=
  match as_number v with Some _ => true | None => false end.

End Py.

(** What the interpreter provides and the repository does not define:
    [json.loads] and the parsing of a string by [float]. *)
Class Builtins : Type := {
  json_loads : value -> result value;
  float_of_str : string -> result float
}.

(** [float(v)] *)
Definition py_float `{Builtins} (v : value) : result float :=
  match v with
  | PyFloat f => Ok f
  | PyInt z => Py.float_of_int z
  | PyBool b => Ok (if b then 1%float else 0%float)
  | PyStr s => float_of_str s
  | PyNone | PyList _ | PyDict _ => Raise TypeError
  end.

(** ** Signs of floats *)

(** A float that is NaN or zero, or else has the sign [s]. *)
Definition sign_or_zero (s : bool) (x : spec_float) : Prop :=
  match x with
  | S754_nan | S754_zero _ => True
  | S754_infinity s' | S754_finite s' _ _ => s' = s
  end.

(** A float that is not zero and has the sign [s]. *)
Definition strict_sign (s : bool) (x : spec_float) : Prop :=
  match x with
  | S754_nan | S754_zero _ => False
  | S754_infinity s' | S754_finite s' _ _ => s' = s
  end.

(** ** The world of a run: the venue behind the client, and the trace *)

Inductive level : Type := DEBUG | INFO | ERROR.

(** An argument of a log record: a value, or the exception being reported. *)
Inductive logarg : Type :=
| AVal (v : value)
| AExn (e : exn).

(** What a run does that can be observed from outside. *)
Inductive event : Type :=
| EvLog (lvl : level) (fmt : string) (args : list logarg)
| EvSleep (seconds : float)
| EvGetTicker
| EvNewTrade (params : value)
| EvUpdateTrade (params : value).

(** The REST client [rest.LNMarketsRest]: each operation answers with a
    response or raises, and may change the state [St] of the venue. *)
Class LNMarketsRest (St : Type) : Type := {
  futures_get_ticker : St -> result value * St;
  futures_new_trade : value -> St -> result value * St;
  futures_update_trade : value -> St -> result value * St
}.

Record world (St : Type) : Type := World {
  venue : St;
  trace : list event
}.
Arguments World {St} venue trace.
Arguments venue {St} w.
Arguments trace {St} w.

(** A computation of the script: it may raise, and it threads the world. *)
Definition M (St A : Type) : Type := world St -> result A * world St.

Definition ret {St A} (a : A) : M St A := fun w => (Ok a, w).

Definition raise {St A} (e : exn) : M St A := fun w => (Raise e, w).

Definition bind {St A B} (c : M St A) (k : A -> M St B) : M St B :=
  fun w =>
    match c w with
    | (Ok a, w') => k a w'
    | (Raise e, w') => (Raise e, w')
    end.

(** [try: body  except Exception as e: handler e] *)
Definition try_except {St A} (body : M St A) (handler : exn -> M St A) : M St A :=
  fun w =>
    match body w with
    | (Ok a, w') => (Ok a, w')
    | (Raise e, w') => handler e w'
    end.

(** A builtin that may raise, run inside the script. *)
Definition lift {St A} (r : result A) : M St A := fun w => (r, w).

Definition emit {St} (e : event) : M St unit :=
  fun w => (Ok tt, World (venue w) (trace w ++ [e])).

Declare Scope script_scope.
Delimit Scope script_scope with script.
Notation "x <- c ;; k" := (bind c (fun x => k))
  (at level 61, c at next level, right associativity) : script_scope.
Notation "c ;; k" := (bind c (fun _ => k))
  (at level 61, right associativity) : script_scope.
Local Open Scope script_scope.

(** [logging.debug], [logging.info], [logging.error]: a record on the trace;
    the logging module never raises into its caller. *)
Definition logging {St} (lvl : level) (fmt : string) (args : list logarg) : M St unit :=
  emit (EvLog lvl fmt args).

(** [time.sleep(seconds)] *)
Definition sleep {St} (seconds : float) : M St unit := emit (EvSleep seconds).

(** A call of a client operation: the call is recorded, the venue moves on,
    and the response or the exception comes back. *)
Definition call {St} (ev : event) (op : St -> result value * St) : M St value :=
  fun w =>
    let (r, v') := op (venue w) in
    (r, World v' (trace w ++ [ev])).

(** ** Observations on a trace *)

(** The call-level events: client calls and sleeps, log records left out. *)
Definition is_call (e : event) : bool :=
  match e with
  | EvLog _ _ _ => false
  | _ => true
  end.

Definition calls (t : list event) : list event := filter is_call t.

(** Whether a sleep of [delay] seconds comes right after every order
    placement of a call sequence. *)
Fixpoint delay_after_every_order (delay : float) (cs : list event) : bool :=
  match cs with
  | [] => true
  | EvNewTrade _ :: rest =>
      match rest with
      | EvSleep seconds :: _ =>
          PrimFloat.eqb seconds delay && delay_after_every_order delay rest
      | _ => false
      end
  | _ :: rest => delay_after_every_order delay rest
  end.

(** The kinds of call-level events. *)
Definition is_new_trade (e : event) : bool :=
  match e with EvNewTrade _ => true | _ => false end.

Definition is_update_trade (e : event) : bool :=
  match e with EvUpdateTrade _ => true | _ => false end.

Definition is_get_ticker (e : event) : bool :=
  match e with EvGetTicker => true | _ => false end.

Definition is_sleep (e : event) : bool :=
  match e with EvSleep _ => true | _ => false end.

(** The error records. *)
Definition is_error (e : event) : bool :=
  match e with EvLog ERROR _ _ => true | _ => false end.

(** The world with some more events on its trace. *)
Definition extend {St} (w : world St) (evs : list event) : world St :=
  World (venue w) (trace w ++ evs).

(** The world right after a client call. *)
Definition after_call {St} (ev : event) (op : St -> result value * St)
    (w : world St) : world St :=
  World (snd (op (venue w))) (trace w ++ [ev]).

(** ** The script *)

(** Line 11. *)
Definition REQUEST_DELAY : float := 3%float.

(** Line 14. *)
Definition USE_DIRECT_TAKE_PROFIT : bool := true.

Section Script.

Context {St : Type} `{LNMarketsRest St} `{Builtins}.

(** Lines 65-73. *)
Definition parse_response (response : value) : M St value :=
  if Py.is_dict_or_list response then ret response
  else
    try_except
      (lift (json_loads response))
      (fun e =>
         logging ERROR "Fout bij parsen response: %s" [AExn e] ;;
         ret (PyDict [])).

(** Lines 75-81. *)
Definition usd_to_sats (usd_amount btc_price : value) : M St Z :=
  try_except
    (q <- lift (Py.truediv usd_amount btc_price) ;;
     n <- lift (Py.round (q * 1e8)%float) ;;
     ret (Py.int n))
    (fun e =>
       logging ERROR "Fout in usd_to_sats: %s" [AExn e] ;;
       ret 0).

(** Lines 83-94.  [None] is the failure sentinel. *)
Definition get_ticker : M St (option float) :=
  try_except
    (response <- call EvGetTicker futures_get_ticker ;;
     ticker <- parse_response response ;;
     last <- lift (Py.get ticker "lastPrice" (PyInt 0)) ;;
     price <- lift (py_float last) ;;
     if PrimFloat.leb price 0%float then raise ValueError
     else ret (Some price))
    (fun e =>
       logging ERROR "Fout bij ophalen ticker: %s" [AExn e] ;;
       ret None).

(** Lines 99-106 and 123-131: the request record, with [takeprofit] added
    when it is not [None]. *)
Definition with_takeprofit (fields : list (string * value)) (takeprofit : value)
  : value :=
  match takeprofit with
  | PyNone => PyDict fields
  | _ => PyDict (Py.setitem "takeprofit" takeprofit fields)
  end.

Definition market_params (margin_sats leverage takeprofit : value) : value :=
  with_takeprofit
    [("type", PyStr "m"); ("side", PyStr "b");
     ("margin", margin_sats); ("leverage", leverage)]
    takeprofit.

Definition limit_params (margin_sats leverage price takeprofit : value) : value :=
  with_takeprofit
    [("type", PyStr "l"); ("side", PyStr "b");
     ("margin", margin_sats); ("leverage", leverage); ("price", price)]
    takeprofit.

(** Lines 96-118. *)
Definition place_market_buy_order (margin_sats leverage takeprofit : value)
  : M St (option value) :=
  try_except
    (let params := market_params margin_sats leverage takeprofit in
     logging DEBUG "Orderparameters: %s" [AVal params] ;;
     response <- call (EvNewTrade params) (futures_new_trade params) ;;
     order <- parse_response response ;;
     id <- lift (Py.get order "id" PyNone) ;;
     if Py.truthy id then
       logging INFO "Order succesvol geplaatst: %s" [AVal order] ;;
       ret (Some order)
     else
       logging ERROR "Order mislukt: %s" [AVal order] ;;
       ret None)
    (fun e =>
       logging ERROR "Fout bij plaatsen order: %s" [AExn e] ;;
       ret None).

(** Lines 120-143. *)
Definition place_limit_buy_order (margin_sats leverage price takeprofit : value)
  : M St (option value) :=
  try_except
    (let params := limit_params margin_sats leverage price takeprofit in
     logging DEBUG "Orderparameters: %s" [AVal params] ;;
     response <- call (EvNewTrade params) (futures_new_trade params) ;;
     order <- parse_response response ;;
     id <- lift (Py.get order "id" PyNone) ;;
     if Py.truthy id then
       logging INFO "Limietorder succesvol geplaatst: %s" [AVal order] ;;
       ret (Some order)
     else
       logging ERROR "Limietorder mislukt: %s" [AVal order] ;;
       ret None)
    (fun e =>
       logging ERROR "Fout bij plaatsen limietorder: %s" [AExn e] ;;
       ret None).

(** Lines 148-152: the request of the update call. *)
Definition update_params (trade_id tp_price : value) : value :=
  PyDict [("id", trade_id); ("type", PyStr "takeprofit"); ("value", tp_price)].

(** Lines 145-161.  The function has no [return]: its result is [None],
    here [tt]. *)
Definition set_take_profit (trade_id tp_price : value) : M St unit :=
  try_except
    (let params := update_params trade_id tp_price in
     logging DEBUG "PUT request parameters voor take-profit: %s" [AVal params] ;;
     response <- call (EvUpdateTrade params) (futures_update_trade params) ;;
     updated_order <- parse_response response ;;
     id <- lift (Py.get updated_order "id" PyNone) ;;
     if Py.truthy id then
       logging INFO "Take-profit succesvol ingesteld: %s" [AVal updated_order]
     else
       logging ERROR "Take-profit instellen mislukt: %s" [AVal updated_order])
    (fun e => logging ERROR "Fout bij instellen take-profit: %s" [AExn e]).

(** [not x] for the result of an order placement: [None] and an empty
    record are false. *)
Definition order_truthy (order : option value) : bool :=
  match order with
  | None => false
  | Some o => Py.truthy o
  end.

(** [not market_price] for the result of [get_ticker]. *)
Definition price_truthy (price : option float) : bool :=
  match price with
  | None => false
  | Some p => Py.float_truthy p
  end.

(** [round(v * 1.01)]: the level one percent above [v]. *)
Definition one_percent_above (v : value) : result Z :=
  rbind (Py.mul_float v 1.01%float) Py.round.

(** Lines 213-228: the check of the second order, the delay and the limit
    order. *)
Definition main_limit_step (market_price : float) (margin_sats : Z)
    (second_order : option value) : M St unit :=
  if negb (order_truthy second_order) then
    logging ERROR "Tweede order mislukt. Script wordt beëindigd." []
  else
    sleep REQUEST_DELAY ;;
    logging INFO "Plaats test limiet kooporder voor $5 met hefboom 1" [] ;;
    limit_price <- lift (Py.round (market_price - 100)%float) ;;
    limit_take_profit <- lift (one_percent_above (PyInt limit_price)) ;;
    limit_order <- place_limit_buy_order (PyInt margin_sats) (PyInt 1)
                     (PyInt limit_price) (PyInt limit_take_profit) ;;
    if negb (order_truthy limit_order) then
      logging ERROR "Limietorder mislukt." []
    else
      logging INFO
        "Limietorder succesvol geplaatst op prijs %.0f met take-profit %.0f"
        [AVal (PyInt limit_price); AVal (PyInt limit_take_profit)].

(** Lines 192-200: take-profit passed with the order. *)
Definition second_order_direct (market_price : float) (margin_sats : Z)
  : M St (option value) :=
  tp_price <- lift (Py.round (market_price * 1.01)%float) ;;
  logging INFO
    "Take-profit direct ingesteld op %.0f (1%% boven geschatte marktprijs %.2f)"
    [AVal (PyInt tp_price); AVal (PyFloat market_price)] ;;
  second_order <- place_market_buy_order (PyInt margin_sats) (PyInt 1)
                    (PyInt tp_price) ;;
  if order_truthy second_order then
    match second_order with
    | Some order =>
        entry_price <- lift (Py.get order "entry_price" (PyFloat market_price)) ;;
        actual_tp_target <- lift (one_percent_above entry_price) ;;
        logging INFO
          "Werkelijke entry_price: %.2f, geschatte take-profit: %.0f, ideale take-profit: %.0f"
          [AVal entry_price; AVal (PyInt tp_price); AVal (PyInt actual_tp_target)] ;;
        ret second_order
    | None => ret second_order
    end
  else ret second_order.

(** Lines 202-211: take-profit set afterwards through the update call. *)
Definition second_order_deferred (margin_sats : Z) : M St (option value) :=
  second_order <- place_market_buy_order (PyInt margin_sats) (PyInt 1) PyNone ;;
  if order_truthy second_order then
    match second_order with
    | Some order =>
        entry_price <- lift (Py.get order "entry_price" PyNone) ;;
        if Py.truthy entry_price then
          tp_price <- lift (one_percent_above entry_price) ;;
          logging INFO "Take-profit ingesteld op %.0f (1%% boven entry_price %.2f)"
            [AVal (PyInt tp_price); AVal entry_price] ;;
          trade_id <- lift (Py.getitem order "id") ;;
          set_take_profit trade_id (PyInt tp_price) ;;
          ret second_order
        else
          logging ERROR "Entry_price niet gevonden voor tweede order." [] ;;
          ret second_order
    | None => ret second_order
    end
  else ret second_order.

(** The second order under the policy in force. *)
Definition second_order_step (direct : bool) (market_price : float)
    (margin_sats : Z) : M St (option value) :=
  if direct then second_order_direct market_price margin_sats
  else second_order_deferred margin_sats.

(** Lines 189-228: the second order and what follows it. *)
Definition main_from_second_order (direct : bool) (market_price : float)
    (margin_sats : Z) : M St unit :=
  second_order <- second_order_step direct market_price margin_sats ;;
  main_limit_step market_price margin_sats second_order.

(** Lines 181-228: the first order and what follows it. *)
Definition main_from_first_order (direct : bool) (market_price : float)
    (margin_sats : Z) : M St unit :=
  first_order <- place_market_buy_order (PyInt margin_sats) (PyInt 1) PyNone ;;
  if negb (order_truthy first_order) then
    logging ERROR "Eerste order mislukt. Script wordt beëindigd." []
  else
    sleep REQUEST_DELAY ;;
    logging INFO "Plaats tweede markt kooporder voor $5 met hefboom 1" [] ;;
    main_from_second_order direct market_price margin_sats.

(** Lines 164-228, with the module constant [USE_DIRECT_TAKE_PROFIT] as
    the argument [direct].  Each [return] of the source ends the
    computation at that point. *)
Definition main_with (direct : bool) : M St unit :=
  market_price <- get_ticker ;;
  if negb (price_truthy market_price) then
    logging ERROR "Kan marktprijs niet ophalen. Script wordt beëindigd." []
  else
    match market_price with
    | Some price =>
        let usd_amount := 5 in
        margin_sats <- usd_to_sats (PyInt usd_amount) (PyFloat price) ;;
        if margin_sats <=? 0 then
          logging ERROR "Ongeldige margin berekend. Script wordt beëindigd." []
        else
          logging INFO "Margin berekend: %d satoshis voor $%d bij prijs %.2f"
            [AVal (PyInt margin_sats); AVal (PyInt usd_amount);
             AVal (PyFloat price)] ;;
          logging INFO "Plaats eerste markt kooporder voor $5 met hefboom 1" [] ;;
          main_from_first_order direct price margin_sats
    | None => ret tt
    end.

Definition main : M St unit := main_with USE_DIRECT_TAKE_PROFIT.

(** *** Stages of a run *)

(** The run started in [w] gets to the first order placement in world
    [w2], with the ticker price [price] and the margin [margin]. *)
Definition reaches_first_order (w : world St) (price : float) (margin : Z)
    (w2 : world St) : Prop :=
  exists w1 wm,
    get_ticker w = (Ok (Some price), w1) /\
    usd_to_sats (PyInt 5) (PyFloat price) w1 = (Ok margin, wm) /\
    0 < margin /\
    w2 = extend wm
           [EvLog INFO "Margin berekend: %d satoshis voor $%d bij prijs %.2f"
              [AVal (PyInt margin); AVal (PyInt 5); AVal (PyFloat price)];
            EvLog INFO "Plaats eerste markt kooporder voor $5 met hefboom 1" []].

(** The first order was accepted, the delay is over, and the run is about
    to take the second order in world [w3]. *)
Definition reaches_second_order (w : world St) (price : float) (margin : Z)
    (w3 : world St) : Prop :=
  exists w2 first_order wf,
    reaches_first_order w price margin w2 /\
    place_market_buy_order (PyInt margin) (PyInt 1) PyNone w2
      = (Ok (Some first_order), wf) /\
    w3 = extend wf
           [EvSleep REQUEST_DELAY;
            EvLog INFO "Plaats tweede markt kooporder voor $5 met hefboom 1" []].

(** *** The identifier of an order record *)

(** The record has an ["id"] field whose value counts as true: it is not
    [None], not an empty string or collection, not zero or [False]. *)
Definition identified (order : value) : bool :=
  match order with
  | PyDict fields =>
      match Py.lookup "id" fields with
      | Some id => Py.truthy id
      | None => false
      end
  | _ => false
  end.

(** What the two placement functions promise in a world [w], [params]
    being the request they build: they never raise; they return a record
    exactly when the normalized response is [identified], and that record
    is the normalized response; every other outcome, a raising client
    included, is [None]. *)
Definition placement_contract (place : M St (option value)) (params : value)
    (w : world St) : Prop :=
  let answer := fst (futures_new_trade params (venue w)) in
  let w1 := after_call (EvNewTrade params) (futures_new_trade params)
              (extend w [EvLog DEBUG "Orderparameters: %s" [AVal params]]) in
  (exists o w', place w = (Ok o, w')) /\
  (forall o w', place w = (Ok (Some o), w') ->
     identified o = true /\
     exists resp w2, answer = Ok resp /\ parse_response resp w1 = (Ok o, w2)) /\
  (forall resp order w2,
     answer = Ok resp -> parse_response resp w1 = (Ok order, w2) ->
     identified order = true ->
     exists w', place w = (Ok (Some order), w')) /\
  (forall resp order w2,
     answer = Ok resp -> parse_response resp w1 = (Ok order, w2) ->
     identified order = false ->
     exists w', place w = (Ok None, w')) /\
  (forall e, answer = Raise e -> exists w', place w = (Ok None, w')).

(** *** The calls of a complete run *)

Definition direct_outline (margin tp limit_price limit_tp : Z) : list event :=
  [ EvGetTicker;
    EvNewTrade (market_params (PyInt margin) (PyInt 1) PyNone);
    EvSleep REQUEST_DELAY;
    EvNewTrade (market_params (PyInt margin) (PyInt 1) (PyInt tp));
    EvSleep REQUEST_DELAY;
    EvNewTrade (limit_params (PyInt margin) (PyInt 1) (PyInt limit_price)
                  (PyInt limit_tp)) ].

(** Under the deferred policy the update call is there when the second
    order carried a usable entry price. *)
Definition deferred_outline (margin : Z) (update : option value)
    (limit_price limit_tp : Z) : list event :=
  [ EvGetTicker;
    EvNewTrade (market_params (PyInt margin) (PyInt 1) PyNone);
    EvSleep REQUEST_DELAY;
    EvNewTrade (market_params (PyInt margin) (PyInt 1) PyNone) ]
  ++ match update with
     | Some params => [EvUpdateTrade params]
     | None => []
     end
  ++ [ EvSleep REQUEST_DELAY;
       EvNewTrade (limit_params (PyInt margin) (PyInt 1) (PyInt limit_price)
                     (PyInt limit_tp)) ].

End Script.

(** ** Startup and the whole script (lines 29-62 and 230-231)

    The code that runs when the module is loaded reads the configuration,
    picks the three credentials, builds the client and tries it once.  What
    it finds around it is a parameter: the outcome of opening and loading
    [configuration.yml], the environment, and the constructor of the
    client. *)

(** [a or b]: the first operand when it is true, the second otherwise. *)
Definition py_or (a b : value) : value := if Py.truthy a then a else b.

(** [all(items)] *)
Definition py_all (items : list value) : bool := forallb Py.truthy items.

Class Host (St : Type) : Type := {
  (** [open('configuration.yml')] followed by [yaml.load]. *)
  load_configuration : result value;
  (** [os.getenv(name)], in the environment as [load_dotenv] left it:
      [None] for a variable that is not set. *)
  getenv : string -> option string;
  (** [rest.LNMarketsRest( **options)] *)
  new_client : value -> result St
}.

(** What the loading of the module does: the events of a run, and the
    construction of the client. *)
Inductive boot_event : Type :=
| Boot (e : event)
| BootClient (options : value).

(** How the loading ends: [sys.exit(code)], an exception nobody catches,
    or a client ready for [main]. *)
Inductive boot_result (St : Type) : Type :=
| Exit (code : Z)
| Uncaught (e : exn)
| Ready (lnm : St).
Arguments Exit {St} code.
Arguments Uncaught {St} e.
Arguments Ready {St} lnm.

(** How the process ends: through [sys.exit(code)] or by running to its
    end (code 0), or in an exception nobody caught, which the interpreter
    reports before it ends the process. *)
Inductive process_end : Type :=
| Exited (code : Z)
| Traceback (e : exn).

Section Startup.

Context {St : Type} `{LNMarketsRest St} `{Host St} `{Builtins}.

Definition os_getenv (name : string) : value :=
  match getenv name with
  | Some s => PyStr s
  | None => PyNone
  end.

(** Lines 38-40: [config.get(key) or os.getenv(name)]. *)
Definition credential (config : value) (key name : string) : result value :=
  rbind (Py.get config key PyNone) (fun v => Ok (py_or v (os_getenv name))).

(** How a credential comes about for a configuration that is a record:
    the value of the configuration when it is there and true, and what the
    environment has under [name] otherwise. *)
Definition resolves (fields : list (string * value)) (key name : string)
    (v : value) : Prop :=
  match Py.lookup key fields with
  | Some c => if Py.truthy c then v = c else v = os_getenv name
  | None => v = os_getenv name
  end.

(** Lines 48-53. *)
Definition options_of (ln_key ln_secret ln_passphrase : value) : value :=
  PyDict [("key", ln_key); ("secret", ln_secret);
          ("passphrase", ln_passphrase); ("network", PyStr "mainnet")].

(** Lines 56-62: the client is built and tried with one ticker call. *)
Definition initialise (options : value) : list boot_event * boot_result St :=
  match new_client options with
  | Raise e =>
      ([BootClient options;
        Boot (EvLog ERROR "Fout bij initialiseren LN Markets client: %s" [AExn e])],
       Exit 1)
  | Ok lnm =>
      match futures_get_ticker lnm with
      | (Raise e, _) =>
          ([BootClient options; Boot EvGetTicker;
            Boot (EvLog ERROR "Fout bij initialiseren LN Markets client: %s"
                    [AExn e])],
           Exit 1)
      | (Ok test_response, lnm') =>
          ([BootClient options; Boot EvGetTicker;
            Boot (EvLog INFO "Verbinding met LN Markets gelukt. Ticker: %s"
                    [AVal test_response])],
           Ready lnm')
      end
  end.

(** Lines 29-62. *)
Definition startup : list boot_event * boot_result St :=
  match load_configuration with
  | Raise e =>
      ([Boot (EvLog ERROR "Fout bij laden van configuration.yml: %s" [AExn e])],
       Exit 1)
  | Ok config =>
      match credential config "key" "LN_KEY" with
      | Raise e => ([], Uncaught e)
      | Ok ln_key =>
          match credential config "secret" "LN_SECRET" with
          | Raise e => ([], Uncaught e)
          | Ok ln_secret =>
              match credential config "passphrase" "LN_PASSPHRASE" with
              | Raise e => ([], Uncaught e)
              | Ok ln_passphrase =>
                  if negb (py_all [ln_key; ln_secret; ln_passphrase]) then
                    ([Boot (EvLog ERROR
                              "API-sleutels ontbreken! Controleer configuration.yml of .env."
                              [])],
                     Exit 1)
                  else initialise (options_of ln_key ln_secret ln_passphrase)
              end
          end
      end
  end.

(** The whole file run as a script: the startup, then [main] with the
    client it made (lines 230-231); a script that runs to its end exits
    with status 0. *)
Definition script : list boot_event * process_end :=
  match startup with
  | (evs, Exit code) => (evs, Exited code)
  | (evs, Uncaught e) => (evs, Traceback e)
  | (evs, Ready lnm) =>
      let (r, w) := main (World lnm []) in
      (evs ++ map Boot (trace w),
       match r with
       | Ok _ => Exited 0
       | Raise e => Traceback e
       end)
  end.

(** The orders among the events of a script. *)
Definition is_order (e : boot_event) : bool :=
  match e with
  | Boot (EvNewTrade _) => true
  | _ => false
  end.

Definition is_ticker_call (e : boot_event) : bool :=
  match e with
  | Boot EvGetTicker => true
  | _ => false
  end.

End Startup.

(** ** Test doubles

    A scripted venue answers every call with the next canned reply and
    fails with a transport error once the script is exhausted. *)
Module Fixtures.

Definition scripted : Type := list (result value).

Definition next_reply (q : scripted) : result value * scripted :=
  match q with
  | [] => (Raise (OtherError "ConnectionError"), [])
  | r :: rest => (r, rest)
  end.

#[export] Instance scripted_client : LNMarketsRest scripted := {|
  futures_get_ticker := next_reply;
  futures_new_trade := fun _ => next_reply;
  futures_update_trade := fun _ => next_reply
|}.

(** A decoder that knows a table of documents and rejects every other
    string as malformed. *)
Fixpoint decode_from (docs : list (string * value)) (s : string) : result value :=
  match docs with
  | [] => Raise (OtherError "JSONDecodeError")
  | (doc, v) :: rest => if String.eqb doc s then Ok v else decode_from rest s
  end.

Definition table_json_loads (docs : list (string * value)) (v : value)
  : result value :=
  match v with
  | PyStr s => decode_from docs s
  | _ => Raise TypeError
  end.

(** The value of a string of decimal digits. *)
Fixpoint digits_value (acc : Z) (s : string) : option Z :=
  match s with
  | EmptyString => Some acc
  | String c rest =>
      let n := Z.of_nat (Ascii.nat_of_ascii c) in
      if (48 <=? n) && (n <=? 57) then digits_value (10 * acc + (n - 48)) rest
      else None
  end.

(** [float] on a plain decimal integer literal; any other string is
    refused. *)
Definition decimal_float_of_str (s : string) : result float :=
  match s with
  | EmptyString => Raise ValueError
  | _ =>
      match digits_value 0 s with
      | Some z => Py.float_of_int z
      | None => Raise ValueError
      end
  end.

Definition known_documents : list (string * value) :=
  [ ("{}", PyDict []);
    ("[]", PyList []);
    ("null", PyNone);
    ("50000", PyInt 50000) ].

#[export] Instance table_builtins : Builtins := {|
  json_loads := table_json_loads known_documents;
  float_of_str := decimal_float_of_str
|}.

Definition start (replies : scripted) : world scripted := World replies [].

Definition order (id : string) : value := PyDict [("id", PyStr id)].

(** The ticker answer with the price as a numeric string. *)
Definition ticker_50000 : result value :=
  Ok (PyDict [("lastPrice", PyStr "50000")]).

(** The end-to-end run of the specification: price 50000, three orders
    accepted, the second one filled at 50010. *)
Definition scenario : world scripted :=
  start
    [ ticker_50000;
      Ok (order "t-1");
      Ok (PyDict [("id", PyStr "t-2"); ("entry_price", PyInt 50010)]);
      Ok (order "t-3") ].

(** The venue is unreachable. *)
Definition offline : world scripted := start [].

(** The ticker reports a price of zero. *)
Definition zero_price : world scripted :=
  start [Ok (PyDict [("lastPrice", PyInt 0)])].

(** The ticker reports infinity: the margin rounds to zero. *)
Definition infinite_price : world scripted :=
  start [Ok (PyDict [("lastPrice", PyFloat infinity)])].

(** The first order is refused: the answer has fields, but no id. *)
Definition first_refused : world scripted :=
  start
    [ ticker_50000;
      Ok (PyDict [("message", PyStr "rejected"); ("margin", PyInt 10000)]) ].

(** The second order is refused. *)
Definition second_refused : world scripted :=
  start [ticker_50000; Ok (order "t-1"); Ok (PyDict [("id", PyStr EmptyString)])].

(** The limit order is refused. *)
Definition limit_refused : world scripted :=
  start
    [ ticker_50000; Ok (order "t-1"); Ok (order "t-2");
      Raise (OtherError "HTTPError") ].

(** Three accepted orders, the second without entry price. *)
Definition no_entry_price : world scripted :=
  start [ticker_50000; Ok (order "t-1"); Ok (order "t-2"); Ok (order "t-3")].

(** The second order is filled at 50010 and the update call fails. *)
Definition update_fails : world scripted :=
  start
    [ ticker_50000;
      Ok (order "t-1");
      Ok (PyDict [("id", PyStr "t-2"); ("entry_price", PyInt 50010)]);
      Raise (OtherError "HTTPError");
      Ok (order "t-3") ].

(** The worlds of a run at price 50000 just before the first and the
    second order. *)
Definition at_first_order (w : world scripted) : world scripted :=
  extend (snd (get_ticker w))
    [EvLog INFO "Margin berekend: %d satoshis voor $%d bij prijs %.2f"
       [AVal (PyInt 10000); AVal (PyInt 5); AVal (PyFloat 50000)];
     EvLog INFO "Plaats eerste markt kooporder voor $5 met hefboom 1" []].

Definition at_second_order (w : world scripted) : world scripted :=
  extend
    (snd (place_market_buy_order (PyInt 10000) (PyInt 1) PyNone (at_first_order w)))
    [EvSleep REQUEST_DELAY;
     EvLog INFO "Plaats tweede markt kooporder voor $5 met hefboom 1" []].

End Fixtures.

(** The surroundings of a scripted start: a configuration, an environment
    given as a table, and a constructor that hands out a scripted venue. *)
Module Hosts.

Import Fixtures.

Fixpoint env_lookup (env : list (string * string)) (name : string) : option string :=
  match env with
  | [] => None
  | (k, v) :: rest => if String.eqb k name then Some v else env_lookup rest name
  end.

Definition scripted_host (config : result value) (env : list (string * string))
    (replies : scripted) : Host scripted := {|
  load_configuration := config;
  getenv := env_lookup env;
  new_client := fun _ => Ok replies
|}.

(** A host whose constructor fails. *)
Definition unreachable_host (config : result value) (env : list (string * string))
  : Host scripted := {|
  load_configuration := config;
  getenv := env_lookup env;
  new_client := fun _ => Raise (OtherError "ConnectionError")
|}.

(** A complete configuration file. *)
Definition full_config : value :=
  PyDict [("key", PyStr "k-1"); ("secret", PyStr "s-1"); ("passphrase", PyStr "p-1")].

(** A configuration with an empty secret and no passphrase. *)
Definition partial_config : value :=
  PyDict [("key", PyStr "k-1"); ("secret", PyStr EmptyString)].

Definition full_env : list (string * string) :=
  [("LN_KEY", "k-env"); ("LN_SECRET", "s-env"); ("LN_PASSPHRASE", "p-env")].

(** The ticker answers NaN. *)
Definition nan_price : world scripted :=
  start [Ok (PyDict [("lastPrice", PyFloat nan)])].

(** The second order comes back with its entry price as a string. *)
Definition string_entry_price : world scripted :=
  start
    [ ticker_50000;
      Ok (order "t-1");
      Ok (PyDict [("id", PyStr "t-2"); ("entry_price", PyStr "50010")]);
      Ok (order "t-3") ].

(** The replies of a whole script: the ticker of the startup, then the
    end-to-end run. *)
Definition script_replies : scripted :=
  [ ticker_50000;
    ticker_50000;
    Ok (order "t-1");
    Ok (PyDict [("id", PyStr "t-2"); ("entry_price", PyInt 50010)]);
    Ok (order "t-3") ].

(** A host with a complete configuration and the replies above, one whose
    venue answers the startup and nothing else, and one without any
    credential. *)
Definition ready_host : Host scripted := scripted_host (Ok full_config) [] script_replies.

Definition short_host : Host scripted := scripted_host (Ok full_config) [] [ticker_50000].

Definition unconfigured_host : Host scripted :=
  scripted_host (Ok (PyDict [])) [] script_replies.

End Hosts.

(** * Properties *)

(** ** Traces and floats *)

Lemma calls_app (t u : list event) : calls (t ++ u) = calls t ++ calls u.
Proof. unfold calls. apply filter_app. Qed.

Lemma calls_log (t : list event) lvl fmt args :
  calls (t ++ [EvLog lvl fmt args]) = calls t.
Proof. rewrite calls_app. simpl. apply app_nil_r. Qed.

Lemma in_firstn {A} (n : nat) (l : list A) (x : A) :
  In x (firstn n l) -> In x l.
Proof.
  revert l. induction n as [| n IH]; intros [| y l]; simpl; try tauto.
  intros [-> | Hin]; [now left | right; now apply IH].
Qed.

Lemma extend_nil {St} (w : world St) : extend w [] = w.
Proof. destruct w. unfold extend. simpl. now rewrite app_nil_r. Qed.

Lemma extend_extend {St} (w : world St) (a b : list event) :
  extend (extend w a) b = extend w (a ++ b).
Proof. unfold extend. simpl. now rewrite app_assoc. Qed.

(** How the combinators of the script run. *)
Lemma bind_ret {St A B} (a : A) (k : A -> M St B) (w : world St) :
  bind (ret a) k w = k a w.
Proof. reflexivity. Qed.

Lemma bind_lift_ok {St A B} (a : A) (k : A -> M St B) (w : world St) :
  bind (lift (Ok a)) k w = k a w.
Proof. reflexivity. Qed.

Lemma bind_lift_raise {St A B} (e : exn) (k : A -> M St B) (w : world St) :
  bind (lift (Raise e)) k w = (Raise e, w).
Proof. reflexivity. Qed.

Lemma logging_run {St} lvl fmt args (w : world St) :
  logging lvl fmt args w = (Ok tt, extend w [EvLog lvl fmt args]).
Proof. reflexivity. Qed.

Lemma bind_logging {St B} lvl fmt args (k : unit -> M St B) (w : world St) :
  bind (logging lvl fmt args) k w = k tt (extend w [EvLog lvl fmt args]).
Proof. reflexivity. Qed.

Lemma bind_sleep {St B} seconds (k : unit -> M St B) (w : world St) :
  bind (sleep seconds) k w = k tt (extend w [EvSleep seconds]).
Proof. reflexivity. Qed.

Lemma bind_run {St A B} (c : M St A) (k : A -> M St B) (w w' : world St) (r : result A) :
  c w = (r, w') ->
  bind c k w = match r with Ok a => k a w' | Raise e => (Raise e, w') end.
Proof. intros E. unfold bind. rewrite E. now destruct r. Qed.

Lemma ret_run {St A} (a : A) (w : world St) : ret a w = (Ok a, w).
Proof. reflexivity. Qed.

Create Rewrite HintDb script.
#[local] Hint Rewrite @bind_ret @bind_lift_ok @bind_lift_raise @bind_logging
  @bind_sleep @logging_run @ret_run @extend_extend : script.

Ltac script_simpl := autorewrite with script; cbn [app].

(** A float above zero is not equal to zero. *)
Lemma float_positive_nonzero (f : float) :
  PrimFloat.ltb 0%float f = true -> PrimFloat.eqb f 0%float = false.
Proof.
  rewrite FloatAxioms.ltb_spec, FloatAxioms.eqb_spec.
  destruct (Prim2SF f) as [s | s | | s m e]; try destruct s; vm_compute; congruence.
Qed.

(** A float above zero is not below or equal to it. *)
Lemma float_positive_not_le (f : float) :
  PrimFloat.ltb 0%float f = true -> PrimFloat.leb f 0%float = false.
Proof.
  rewrite FloatAxioms.ltb_spec, FloatAxioms.leb_spec.
  destruct (Prim2SF f) as [s | s | | s m e]; try destruct s; vm_compute; congruence.
Qed.

(** A float that is not below or equal to zero is not zero: a price that
    passes the check of [get_ticker] is true in a condition. *)
Lemma float_not_le_nonzero (f : float) :
  PrimFloat.leb f 0%float = false -> PrimFloat.eqb f 0%float = false.
Proof.
  rewrite FloatAxioms.leb_spec, FloatAxioms.eqb_spec.
  destruct (Prim2SF f) as [s | s | | s m e]; try destruct s; vm_compute; congruence.
Qed.

(** A float below zero is not equal to zero. *)
Lemma float_negative_nonzero (f : float) :
  PrimFloat.ltb f 0%float = true -> PrimFloat.eqb f 0%float = false.
Proof.
  rewrite FloatAxioms.ltb_spec, FloatAxioms.eqb_spec.
  destruct (Prim2SF f) as [s | s | | s m e]; try destruct s; vm_compute; congruence.
Qed.

Lemma float_of_int_zero : Py.float_of_int 0 = Ok 0%float.
Proof. reflexivity. Qed.

(** Rounding half to even picks an integer within one half of [m * 2^e]:
    with [d = 2^(-e)], the distance [|n * d - m|] is at most [d / 2]. *)
Lemma round_half_even_near (m e : Z) :
  0 <= m -> e < 0 ->
  2 * Z.abs (Py.round_half_even m e * 2 ^ (- e) - m) <= 2 ^ (- e).
Proof.
  intros Hm He. unfold Py.round_half_even.
  destruct (0 <=? e) eqn:E; [apply Z.leb_le in E; lia |].
  assert (Hd : 0 < 2 ^ (- e)) by (apply Z.pow_pos_nonneg; lia).
  pose proof (Z.div_mod m (2 ^ (- e)) ltac:(lia)) as Hdm.
  pose proof (Z.mod_pos_bound m (2 ^ (- e)) Hd) as Hr.
  set (d := 2 ^ (- e)) in *. set (q := m / d) in *. set (r := m mod d) in *.
  clearbody q r. clearbody d.
  destruct (2 * r ?= d) eqn:C.
  - apply Z.compare_eq in C. destruct (Z.even q).
    + replace (q * d - m) with (- r) by (rewrite Hdm; ring). lia.
    + replace ((q + 1) * d - m) with (d - r) by (rewrite Hdm; ring). lia.
  - rewrite Z.compare_lt_iff in C.
    replace (q * d - m) with (- r) by (rewrite Hdm; ring). lia.
  - rewrite Z.compare_gt_iff in C.
    replace ((q + 1) * d - m) with (d - r) by (rewrite Hdm; ring). lia.
Qed.

(** On a tie the even neighbour is taken. *)
Lemma round_half_even_tie (m e : Z) :
  e < 0 -> 2 * (m mod 2 ^ (- e)) = 2 ^ (- e) ->
  Z.even (Py.round_half_even m e) = true.
Proof.
  intros He Htie. unfold Py.round_half_even.
  destruct (0 <=? e) eqn:E; [apply Z.leb_le in E; lia |].
  rewrite Htie, Z.compare_refl.
  destruct (Z.even (m / 2 ^ (- e))) eqn:Ev; [exact Ev |].
  rewrite Z.even_add, Ev. reflexivity.
Qed.

(** [round] of a finite float with a fractional part lands within one half
    of it. *)
Lemma round_near (f : float) (s : bool) (m : positive) (e n : Z) :
  Prim2SF f = S754_finite s m e -> e < 0 -> Py.round f = Ok n ->
  2 * Z.abs (Z.abs n * 2 ^ (- e) - Zpos m) <= 2 ^ (- e).
Proof.
  intros Hf He. unfold Py.round. rewrite Hf. intros [= <-].
  pose proof (round_half_even_near (Zpos m) e ltac:(lia) He) as Hnear.
  assert (Hpos : 0 <= Py.round_half_even (Zpos m) e).
  { unfold Py.round_half_even.
    destruct (0 <=? e) eqn:E; [apply Z.leb_le in E; lia |].
    assert (0 < 2 ^ (- e)) by (apply Z.pow_pos_nonneg; lia).
    assert (0 <= Zpos m / 2 ^ (- e)) by (apply Z.div_pos; lia).
    destruct (2 * (Zpos m mod 2 ^ (- e)) ?= 2 ^ (- e));
      try destruct (Z.even (Zpos m / 2 ^ (- e))); lia. }
  destruct s.
  - now rewrite Z.abs_opp, (Z.abs_eq _ Hpos).
  - now rewrite (Z.abs_eq _ Hpos).
Qed.

Section Properties.

Context {St : Type} `{LNMarketsRest St} `{Builtins}.

(** *** parse_response *)

Lemma parse_response_run (response : value) (w : world St) :
  exists v evs,
    parse_response response w = (Ok v, extend w evs) /\ calls evs = [].
Proof.
  unfold parse_response.
  destruct (Py.is_dict_or_list response).
  - exists response, []. now rewrite extend_nil.
  - unfold try_except, lift. destruct (json_loads response) as [v | e].
    + exists v, []. now rewrite extend_nil.
    + eexists _, [_]. split; reflexivity.
Qed.

(** C7.  [parse_response] never raises: a dict or a list comes back
    unchanged with nothing logged; any other input is handed to
    [json.loads], whose value is returned, and when the decoder raises,
    the error is logged and the empty dict is returned. *)
Theorem parse_response_never_raises (response : value) (w : world St) :
  (exists v w', parse_response response w = (Ok v, w')) /\
  (Py.is_dict_or_list response = true ->
     parse_response response w = (Ok response, w)) /\
  (Py.is_dict_or_list response = false ->
     forall v, json_loads response = Ok v ->
     parse_response response w = (Ok v, w)) /\
  (Py.is_dict_or_list response = false ->
     forall e, json_loads response = Raise e ->
     parse_response response w =
       (Ok (PyDict []),
        extend w [EvLog ERROR "Fout bij parsen response: %s" [AExn e]])).
Proof.
  unfold parse_response, try_except, lift, bind, logging, emit, ret, extend.
  repeat split.
  - destruct (Py.is_dict_or_list response); [eauto |].
    destruct (json_loads response); eauto.
  - intros ->. reflexivity.
  - intros -> v ->. reflexivity.
  - intros -> e ->. reflexivity.
Qed.

(** *** usd_to_sats *)

Lemma usd_to_sats_run (usd_amount btc_price : value) (w : world St) :
  exists n evs,
    usd_to_sats usd_amount btc_price w = (Ok n, extend w evs) /\ calls evs = [].
Proof.
  unfold usd_to_sats, try_except, bind, lift, ret.
  destruct (Py.truediv usd_amount btc_price) as [q | e].
  - destruct (Py.round (q * 1e8)) as [n | e].
    + exists (Py.int n), []. now rewrite extend_nil.
    + eexists 0, [_]. split; reflexivity.
  - eexists 0, [_]. split; reflexivity.
Qed.

Lemma truediv_not_numbers (a b : value) :
  Py.is_number a = false \/ Py.is_number b = false ->
  Py.truediv a b = Raise TypeError.
Proof.
  unfold Py.is_number, Py.truediv.
  intros [Ha | Hb].
  - destruct (Py.as_number a); [discriminate | reflexivity].
  - destruct (Py.as_number b); [discriminate |].
    destruct (Py.as_number a) as [[x | f] |]; reflexivity.
Qed.

Lemma truediv_nonzero_float (a : value) (f : float) :
  PrimFloat.ltb 0%float f = true \/ PrimFloat.ltb f 0%float = true ->
  Py.truediv a (PyFloat f) <> Raise ZeroDivisionError.
Proof.
  intros Hsign.
  assert (Hf : PrimFloat.eqb f 0%float = false).
  { destruct Hsign; [now apply float_positive_nonzero
                    | now apply float_negative_nonzero]. }
  unfold Py.truediv.
  destruct (Py.as_number a) as [[x | fa] |]; simpl; [| | discriminate].
  - unfold Py.float_of_int, Py.finite_or_overflow.
    destruct (binary_normalize prec emax x 0 false); simpl;
      try rewrite Hf; discriminate.
  - rewrite Hf. discriminate.
Qed.

Lemma truediv_nonzero_int (x y : Z) :
  y <> 0 -> Py.truediv (PyInt x) (PyInt y) <> Raise ZeroDivisionError.
Proof.
  intros Hy. unfold Py.truediv, Py.int_true_divide. simpl.
  destruct (y =? 0) eqn:E; [apply Z.eqb_eq in E; lia |].
  destruct (x =? 0); [discriminate |].
  unfold Py.finite_or_overflow.
  match goal with |- context [binary_normalize ?p ?q ?r ?s ?t] =>
    destruct (binary_normalize p q r s t) end; discriminate.
Qed.

Lemma truediv_zero (a b : value) :
  Py.is_zero b = true -> exists e, Py.truediv a b = Raise e.
Proof.
  unfold Py.is_zero, Py.truediv.
  destruct (Py.as_number b) as [[y | fb] |]; [| | discriminate].
  - intros ->%Z.eqb_eq.
    destruct (Py.as_number a) as [[x | fa] |].
    + unfold Py.int_true_divide. simpl. eauto.
    + exists ZeroDivisionError. reflexivity.
    + eauto.
  - intros E.
    destruct (Py.as_number a) as [[x | fa] |]; simpl; eauto.
    + destruct (Py.float_of_int x); simpl; [rewrite E |]; eauto.
    + rewrite E. eauto.
Qed.

(** C1, as the code has it.  Whenever [usd_amount / btc_price * 1e8] has
    a value that [round] accepts, [usd_to_sats] returns that rounded
    integer and logs nothing, whatever the sign of the price; a float
    price above zero, and one below zero as well, never makes the division
    fail on a zero divisor, nor does a non-zero int price under an int
    amount; a price equal to zero, or an operand that is not a number,
    gives 0 with the error logged; and no exception leaves the function. *)
Theorem usd_to_sats_rounds_or_zero (usd_amount btc_price : value) (w : world St) :
  (forall q n,
      Py.truediv usd_amount btc_price = Ok q ->
      Py.round (q * 1e8)%float = Ok n ->
      usd_to_sats usd_amount btc_price w = (Ok n, w)) /\
  (forall f,
      btc_price = PyFloat f ->
      PrimFloat.ltb 0%float f = true \/ PrimFloat.ltb f 0%float = true ->
      Py.truediv usd_amount btc_price <> Raise ZeroDivisionError) /\
  (forall x y,
      usd_amount = PyInt x -> btc_price = PyInt y -> y <> 0 ->
      Py.truediv usd_amount btc_price <> Raise ZeroDivisionError) /\
  (Py.is_zero btc_price = true ->
     exists e,
       usd_to_sats usd_amount btc_price w =
         (Ok 0, extend w [EvLog ERROR "Fout in usd_to_sats: %s" [AExn e]])) /\
  (Py.is_number usd_amount = false \/ Py.is_number btc_price = false ->
     usd_to_sats usd_amount btc_price w =
       (Ok 0, extend w [EvLog ERROR "Fout in usd_to_sats: %s" [AExn TypeError]])) /\
  (exists n w', usd_to_sats usd_amount btc_price w = (Ok n, w')).
Proof.
  repeat split.
  - intros q n Hq Hn.
    unfold usd_to_sats, try_except, bind, lift, ret. now rewrite Hq, Hn.
  - intros f -> Hf. now apply truediv_nonzero_float.
  - intros x y -> -> Hy. now apply truediv_nonzero_int.
  - intros Hz. destruct (truediv_zero usd_amount btc_price Hz) as [e He].
    exists e. unfold usd_to_sats, try_except, bind, lift, ret. now rewrite He.
  - intros Hn. apply truediv_not_numbers in Hn.
    unfold usd_to_sats, try_except, bind, lift, ret. now rewrite Hn.
  - destruct (usd_to_sats_run usd_amount btc_price w) as (n & evs & Hrun & _).
    eauto.
Qed.

(** *** get_ticker *)

Lemma call_run (ev : event) (op : St -> result value * St) (w : world St) :
  call ev op w = (fst (op (venue w)), after_call ev op w).
Proof. unfold call, after_call. now destruct (op (venue w)). Qed.

Lemma calls_after_call ev op (w : world St) :
  is_call ev = true ->
  calls (trace (after_call ev op w)) = calls (trace w) ++ [ev].
Proof. intros E. unfold after_call. simpl. rewrite calls_app. simpl. now rewrite E. Qed.

Lemma calls_extend (w : world St) (evs : list event) :
  calls (trace (extend w evs)) = calls (trace w) ++ calls evs.
Proof. unfold extend. simpl. apply calls_app. Qed.

Ltac run_script :=
  unfold try_except, bind, lift, ret, raise, logging, sleep, emit.

(** Computes the calls of a world built from known pieces. *)
Ltac calls_norm :=
  repeat progress
    (unfold extend, after_call; cbn [trace venue];
     repeat rewrite calls_app;
     repeat match goal with
            | E : calls ?t = _ |- context [calls ?t] => rewrite E
            end);
  cbn [calls filter is_call app];
  rewrite ?app_nil_r, <- ?app_assoc; cbn [app];
  try reflexivity.

Lemma get_ticker_run (w : world St) :
  exists o w',
    get_ticker w = (Ok o, w') /\
    calls (trace w') = calls (trace w) ++ [EvGetTicker] /\
    (forall p, o = Some p -> PrimFloat.leb p 0%float = false).
Proof.
  unfold get_ticker. run_script. rewrite call_run.
  destruct (fst (futures_get_ticker (venue w))) as [resp | e].
  - destruct (parse_response_run resp (after_call EvGetTicker futures_get_ticker w))
      as (ticker & evs & -> & Hevs).
    destruct (Py.get ticker "lastPrice" (PyInt 0)) as [last | e];
      [destruct (py_float last) as [price | e];
       [destruct (PrimFloat.leb price 0) eqn:E |] |].
    4: { eexists None, _. split; [reflexivity |]. split; [calls_norm | discriminate]. }
    3: { eexists None, _. split; [reflexivity |]. split; [calls_norm | discriminate]. }
    + eexists None, _. split; [reflexivity |]. split; [calls_norm | discriminate].
    + eexists (Some price), _. split; [reflexivity |]. split; [calls_norm |].
      now intros p [= <-].
  - eexists None, _. split; [reflexivity |]. split; [calls_norm | discriminate].
Qed.

(** C4.  [get_ticker] never raises.  When the normalized response has a
    [lastPrice] that [float] converts to a price above zero, that float is
    returned; a converted price of zero or below, a missing [lastPrice]
    (read as 0), a response that is not a record, a failed conversion and
    a raising client all give [None] with the error logged.  With a
    [float] that reads ["50000"] as [50000.0], the string price ["50000"]
    yields [50000.0]. *)
Theorem get_ticker_price_or_none (w : world St) :
  let answer := fst (futures_get_ticker (venue w)) in
  let w1 := after_call EvGetTicker futures_get_ticker w in
  let failed (w2 : world St) (e : exn) :=
    get_ticker w =
      (Ok None, extend w2 [EvLog ERROR "Fout bij ophalen ticker: %s" [AExn e]]) in
  (exists o w', get_ticker w = (Ok o, w')) /\
  (forall resp ticker w2 last price,
      answer = Ok resp -> parse_response resp w1 = (Ok ticker, w2) ->
      Py.get ticker "lastPrice" (PyInt 0) = Ok last ->
      py_float last = Ok price ->
      (PrimFloat.ltb 0%float price = true ->
         get_ticker w = (Ok (Some price), w2)) /\
      (PrimFloat.leb price 0%float = true -> failed w2 ValueError)) /\
  (forall resp fields w2,
      answer = Ok resp -> parse_response resp w1 = (Ok (PyDict fields), w2) ->
      Py.lookup "lastPrice" fields = None \/
      Py.lookup "lastPrice" fields = Some (PyInt 0) ->
      failed w2 ValueError) /\
  (forall resp ticker w2 e,
      answer = Ok resp -> parse_response resp w1 = (Ok ticker, w2) ->
      Py.get ticker "lastPrice" (PyInt 0) = Raise e \/
      (exists last, Py.get ticker "lastPrice" (PyInt 0) = Ok last /\
                    py_float last = Raise e) ->
      failed w2 e) /\
  (forall e, answer = Raise e -> failed w1 e) /\
  (float_of_str "50000" = Ok 50000%float ->
   forall resp fields w2,
      answer = Ok resp -> parse_response resp w1 = (Ok (PyDict fields), w2) ->
      Py.lookup "lastPrice" fields = Some (PyStr "50000") ->
      get_ticker w = (Ok (Some 50000%float), w2)).
Proof.
  cbv zeta. repeat split.
  - destruct (get_ticker_run w) as (o & w' & E & _). eauto.
  - intros Hpos. apply float_positive_not_le in Hpos.
    unfold get_ticker. run_script. rewrite call_run.
    rewrite H1, H2, H3, H4, Hpos. reflexivity.
  - intros Hle.
    unfold get_ticker. run_script. rewrite call_run.
    rewrite H1, H2, H3, H4, Hle. reflexivity.
  - intros resp fields w2 Ha Hp Hl.
    unfold get_ticker. run_script. rewrite call_run.
    rewrite Ha, Hp. unfold Py.get.
    destruct Hl as [-> | ->]; reflexivity.
  - intros resp ticker w2 e Ha Hp He.
    unfold get_ticker. run_script. rewrite call_run.
    rewrite Ha, Hp.
    destruct He as [-> | (last & -> & ->)]; reflexivity.
  - intros e Ha.
    unfold get_ticker. run_script. rewrite call_run.
    rewrite Ha. reflexivity.
  - intros Hfloat resp fields w2 Ha Hp Hl.
    unfold get_ticker. run_script. rewrite call_run.
    rewrite Ha, Hp. unfold Py.get. rewrite Hl. unfold py_float.
    rewrite Hfloat. reflexivity.
Qed.

(** *** Order placement *)

Lemma get_id_identified (order : value) :
  match Py.get order "id" PyNone with
  | Ok id => Py.truthy id = identified order
  | Raise _ => identified order = false
  end.
Proof.
  destruct order; simpl; try reflexivity.
  destruct (Py.lookup "id" fields); reflexivity.
Qed.

Lemma identified_truthy (order : value) :
  identified order = true -> Py.truthy order = true.
Proof.
  destruct order; simpl; try discriminate.
  destruct fields; [discriminate | reflexivity].
Qed.

Lemma identified_get (order : value) (key : string) (default : value) :
  identified order = true -> exists v, Py.get order key default = Ok v.
Proof. destruct order; simpl; try discriminate. eauto. Qed.

Lemma identified_getitem (order : value) :
  identified order = true -> exists id, Py.getitem order "id" = Ok id.
Proof.
  destruct order; simpl; try discriminate.
  destruct (Py.lookup "id" fields); [eauto | discriminate].
Qed.

(** The steps shared by the proofs about the three functions that send a
    request: run the call, normalize the answer, read its ["id"]. *)
Ltac send_request params op w :=
  run_script; rewrite call_run;
  match goal with
  | |- context [fst (op ?v)] => destruct (fst (op v)) as [resp | e]
  end;
  [ match goal with
    | |- context [parse_response ?r ?w1] =>
        let order := fresh "order" in
        let evs := fresh "evs" in
        let Hevs := fresh "Hevs" in
        let Hid := fresh "Hid" in
        destruct (parse_response_run r w1) as (order & evs & -> & Hevs);
        pose proof (get_id_identified order) as Hid;
        destruct (Py.get order "id" PyNone) as [id | e];
        [ destruct (Py.truthy id) | ]
    end
  | ].

Lemma place_market_buy_order_run (margin_sats leverage takeprofit : value)
    (w : world St) :
  exists o w',
    place_market_buy_order margin_sats leverage takeprofit w = (Ok o, w') /\
    calls (trace w') =
      calls (trace w) ++ [EvNewTrade (market_params margin_sats leverage takeprofit)] /\
    (forall order, o = Some order -> identified order = true).
Proof.
  unfold place_market_buy_order.
  set (params := market_params margin_sats leverage takeprofit).
  send_request params (futures_new_trade params) w.
  - eexists (Some order), _. split; [reflexivity |]. split; [calls_norm |].
    now intros ? [= <-].
  - eexists None, _. split; [reflexivity |]. split; [calls_norm | discriminate].
  - eexists None, _. split; [reflexivity |]. split; [calls_norm | discriminate].
  - eexists None, _. split; [reflexivity |]. split; [calls_norm | discriminate].
Qed.

Lemma place_limit_buy_order_run (margin_sats leverage price takeprofit : value)
    (w : world St) :
  exists o w',
    place_limit_buy_order margin_sats leverage price takeprofit w = (Ok o, w') /\
    calls (trace w') =
      calls (trace w)
      ++ [EvNewTrade (limit_params margin_sats leverage price takeprofit)] /\
    (forall order, o = Some order -> identified order = true).
Proof.
  unfold place_limit_buy_order.
  set (params := limit_params margin_sats leverage price takeprofit).
  send_request params (futures_new_trade params) w.
  - eexists (Some order), _. split; [reflexivity |]. split; [calls_norm |].
    now intros ? [= <-].
  - eexists None, _. split; [reflexivity |]. split; [calls_norm | discriminate].
  - eexists None, _. split; [reflexivity |]. split; [calls_norm | discriminate].
  - eexists None, _. split; [reflexivity |]. split; [calls_norm | discriminate].
Qed.

Lemma set_take_profit_run (trade_id tp_price : value) (w : world St) :
  exists w',
    set_take_profit trade_id tp_price w = (Ok tt, w') /\
    calls (trace w') =
      calls (trace w) ++ [EvUpdateTrade (update_params trade_id tp_price)].
Proof.
  unfold set_take_profit.
  set (params := update_params trade_id tp_price).
  send_request params (futures_update_trade params) w;
    eexists; (split; [reflexivity | calls_norm]).
Qed.

(** The contract of a placement function, from its unfolded body. *)
Ltac contract_after_answer P :=
  let o := fresh "o" in
  let w' := fresh "w'" in
  let E := fresh "E" in
  let E1 := fresh "E1" in
  let E2 := fresh "E2" in
  let Hi := fresh "Hi" in
  split; [eauto |];
  split;
    [ intros o w' E;
      first [ solve [inversion E]
            | inversion E; subst; split; [congruence | eauto] ] |];
  split;
    [ intros ? ? ? E1 E2 Hi; inversion E1; subst;
      rewrite P in E2;
      inversion E2; subst; first [congruence | eauto] |];
  split;
    [ intros ? ? ? E1 E2 Hi; inversion E1; subst;
      rewrite P in E2;
      inversion E2; subst; first [congruence | eauto] |];
  intros ? E; inversion E.

Ltac contract_no_answer :=
  let E := fresh "E" in
  split; [eauto |];
  split; [intros ? ? E; inversion E |];
  split; [intros ? ? ? E; inversion E |];
  split; [intros ? ? ? E; inversion E |];
  intros ? E; eauto.

Ltac prove_contract :=
  unfold placement_contract; cbv zeta; run_script; rewrite call_run;
  unfold extend, after_call; cbn [venue trace];
  match goal with
  | |- context [fst (?op ?v)] => destruct (fst (op v)) as [resp | e]
  end;
  [ match goal with
    | |- context [parse_response ?r ?w1] =>
        let order := fresh "order" in
        let evs := fresh "evs" in
        let P := fresh "P" in
        let Hid := fresh "Hid" in
        destruct (parse_response_run r w1) as (order & evs & P & _);
        rewrite P;
        pose proof (get_id_identified order) as Hid;
        destruct (Py.get order "id" PyNone) as [id | e];
        [ destruct (Py.truthy id) | ];
        contract_after_answer P
    end
  | contract_no_answer ].

Lemma place_market_buy_order_contract (margin_sats leverage takeprofit : value)
    (w : world St) :
  placement_contract
    (place_market_buy_order margin_sats leverage takeprofit)
    (market_params margin_sats leverage takeprofit) w.
Proof. unfold place_market_buy_order. prove_contract. Qed.

Lemma place_limit_buy_order_contract (margin_sats leverage price takeprofit : value)
    (w : world St) :
  placement_contract
    (place_limit_buy_order margin_sats leverage price takeprofit)
    (limit_params margin_sats leverage price takeprofit) w.
Proof. unfold place_limit_buy_order. prove_contract. Qed.

(** C2.  Both placement functions keep the contract: no exception leaves
    them, the normalized response is returned exactly when its ["id"] is
    present and counts as true, and [None] is returned in every other
    case, whatever other fields the response has. *)
Theorem order_placement_requires_id
    (margin_sats leverage price takeprofit : value) (w : world St) :
  placement_contract
    (place_market_buy_order margin_sats leverage takeprofit)
    (market_params margin_sats leverage takeprofit) w /\
  placement_contract
    (place_limit_buy_order margin_sats leverage price takeprofit)
    (limit_params margin_sats leverage price takeprofit) w.
Proof.
  split.
  - apply place_market_buy_order_contract.
  - apply place_limit_buy_order_contract.
Qed.

(** *** The stages of main *)

Lemma get_ticker_price_truthy (w w1 : world St) (price : float) :
  get_ticker w = (Ok (Some price), w1) -> Py.float_truthy price = true.
Proof.
  intros E. destruct (get_ticker_run w) as (o & w' & E' & _ & Hp).
  rewrite E in E'. injection E' as <- <-.
  unfold Py.float_truthy. now rewrite float_not_le_nonzero by now apply Hp.
Qed.

Lemma main_ticker_failed (direct : bool) (w w1 : world St) :
  get_ticker w = (Ok None, w1) ->
  main_with direct w =
    (Ok tt,
     extend w1
       [EvLog ERROR "Kan marktprijs niet ophalen. Script wordt beëindigd." []]).
Proof. intros E. unfold main_with, bind. rewrite E. reflexivity. Qed.

Lemma main_margin_invalid (direct : bool) (w w1 w2 : world St)
    (price : float) (margin : Z) :
  get_ticker w = (Ok (Some price), w1) ->
  usd_to_sats (PyInt 5) (PyFloat price) w1 = (Ok margin, w2) ->
  margin <= 0 ->
  main_with direct w =
    (Ok tt,
     extend w2
       [EvLog ERROR "Ongeldige margin berekend. Script wordt beëindigd." []]).
Proof.
  intros E Em Hm. unfold main_with, bind. rewrite E. simpl.
  rewrite (get_ticker_price_truthy w w1 price E). simpl. rewrite Em.
  destruct (margin <=? 0) eqn:C; [reflexivity | apply Z.leb_gt in C; lia].
Qed.

Lemma main_at_first_order (direct : bool) (w w2 : world St)
    (price : float) (margin : Z) :
  reaches_first_order w price margin w2 ->
  main_with direct w = main_from_first_order direct price margin w2.
Proof.
  intros (w1 & wm & E & Em & Hm & ->). unfold main_with, bind. rewrite E. simpl.
  rewrite (get_ticker_price_truthy w w1 price E). simpl. rewrite Em.
  destruct (margin <=? 0) eqn:C; [apply Z.leb_le in C; lia |].
  unfold logging, emit, extend. simpl. now rewrite <- app_assoc.
Qed.

Lemma main_at_second_order (direct : bool) (w w3 : world St)
    (price : float) (margin : Z) :
  reaches_second_order w price margin w3 ->
  main_with direct w = main_from_second_order direct price margin w3.
Proof.
  intros (w2 & first & wf & Hr & Ef & ->).
  rewrite (main_at_first_order direct w w2 price margin Hr).
  unfold main_from_first_order, bind. rewrite Ef.
  destruct (place_market_buy_order_run (PyInt margin) (PyInt 1) PyNone w2)
    as (o & w' & E' & _ & Hid).
  rewrite Ef in E'. injection E' as <- <-.
  simpl. rewrite (identified_truthy first) by now apply Hid.
  unfold sleep, logging, emit, extend. simpl. now rewrite <- app_assoc.
Qed.

Lemma main_limit_step_not_placed (price : float) (margin : Z) (w : world St) :
  main_limit_step price margin None w =
    (Ok tt,
     extend w [EvLog ERROR "Tweede order mislukt. Script wordt beëindigd." []]).
Proof. reflexivity. Qed.

(** With an accepted second order and a defined limit price, the limit
    step sleeps, places the limit order and ends. *)
Lemma main_limit_step_places (price : float) (margin lp ltp : Z)
    (order : value) (w : world St) :
  identified order = true ->
  Py.round (price - 100)%float = Ok lp ->
  one_percent_above (PyInt lp) = Ok ltp ->
  exists o w5 w',
    place_limit_buy_order (PyInt margin) (PyInt 1) (PyInt lp) (PyInt ltp)
      (extend w
         [EvSleep REQUEST_DELAY;
          EvLog INFO "Plaats test limiet kooporder voor $5 met hefboom 1" []])
      = (Ok o, w5) /\
    main_limit_step price margin (Some order) w = (Ok tt, w') /\
    calls (trace w') =
      calls (trace w)
      ++ [EvSleep REQUEST_DELAY;
          EvNewTrade (limit_params (PyInt margin) (PyInt 1) (PyInt lp) (PyInt ltp))] /\
    (o = None -> w' = extend w5 [EvLog ERROR "Limietorder mislukt." []]).
Proof.
  intros Hid Hlp Hltp. unfold main_limit_step. cbn [order_truthy].
  rewrite (identified_truthy order Hid). cbn [negb]. script_simpl.
  rewrite Hlp. script_simpl. rewrite Hltp. script_simpl.
  match goal with
  | |- context [place_limit_buy_order ?m ?l ?p ?t ?w0] =>
      destruct (place_limit_buy_order_run m l p t w0) as (o & w5 & E & Hc & Ho)
  end.
  exists o, w5. rewrite (bind_run _ _ _ _ _ E).
  destruct o as [ord |]; cbn [order_truthy].
  - rewrite (identified_truthy ord) by now apply Ho. cbn [negb]. script_simpl.
    eexists. split; [exact E |]. split; [reflexivity |].
    split; [| discriminate]. calls_norm.
  - cbn [negb]. script_simpl.
    eexists. split; [exact E |]. split; [reflexivity |].
    split; [| reflexivity]. calls_norm.
Qed.

(** *** The second order, direct policy (lines 192-200) *)

Lemma second_order_direct_no_target (price : float) (margin : Z) (w : world St)
    (e : exn) :
  Py.round (price * 1.01)%float = Raise e ->
  second_order_direct price margin w = (Raise e, w).
Proof. intros E. unfold second_order_direct. now rewrite E. Qed.

(** The world in which the second order is sent under the direct policy. *)
Lemma second_order_direct_places (price : float) (margin tp : Z) (w : world St) :
  Py.round (price * 1.01)%float = Ok tp ->
  second_order_direct price margin w =
    bind (place_market_buy_order (PyInt margin) (PyInt 1) (PyInt tp))
      (fun second_order =>
         if order_truthy second_order then
           match second_order with
           | Some order =>
               entry_price <- lift (Py.get order "entry_price" (PyFloat price)) ;;
               actual_tp_target <- lift (one_percent_above entry_price) ;;
               logging INFO
                 "Werkelijke entry_price: %.2f, geschatte take-profit: %.0f, ideale take-profit: %.0f"
                 [AVal entry_price; AVal (PyInt tp); AVal (PyInt actual_tp_target)] ;;
               ret second_order
           | None => ret second_order
           end
         else ret second_order)
      (extend w
         [EvLog INFO
            "Take-profit direct ingesteld op %.0f (1%% boven geschatte marktprijs %.2f)"
            [AVal (PyInt tp); AVal (PyFloat price)]]).
Proof. intros E. unfold second_order_direct. rewrite E. now script_simpl. Qed.

Lemma second_order_direct_rejected (price : float) (margin tp : Z)
    (w w4 : world St) :
  Py.round (price * 1.01)%float = Ok tp ->
  place_market_buy_order (PyInt margin) (PyInt 1) (PyInt tp)
    (extend w
       [EvLog INFO
          "Take-profit direct ingesteld op %.0f (1%% boven geschatte marktprijs %.2f)"
          [AVal (PyInt tp); AVal (PyFloat price)]])
    = (Ok None, w4) ->
  second_order_direct price margin w = (Ok None, w4).
Proof.
  intros E Ep. rewrite (second_order_direct_places _ _ _ _ E).
  now rewrite (bind_run _ _ _ _ _ Ep).
Qed.

Lemma second_order_direct_accepted (price : float) (margin tp : Z)
    (w w4 : world St) (order entry : value) :
  Py.round (price * 1.01)%float = Ok tp ->
  place_market_buy_order (PyInt margin) (PyInt 1) (PyInt tp)
    (extend w
       [EvLog INFO
          "Take-profit direct ingesteld op %.0f (1%% boven geschatte marktprijs %.2f)"
          [AVal (PyInt tp); AVal (PyFloat price)]])
    = (Ok (Some order), w4) ->
  Py.get order "entry_price" (PyFloat price) = Ok entry ->
  second_order_direct price margin w =
    match one_percent_above entry with
    | Ok target =>
        (Ok (Some order),
         extend w4
           [EvLog INFO
              "Werkelijke entry_price: %.2f, geschatte take-profit: %.0f, ideale take-profit: %.0f"
              [AVal entry; AVal (PyInt tp); AVal (PyInt target)]])
    | Raise e => (Raise e, w4)
    end.
Proof.
  intros E Ep Eg. rewrite (second_order_direct_places _ _ _ _ E).
  rewrite (bind_run _ _ _ _ _ Ep).
  match type of Ep with
  | ?place ?w0 = _ =>
      destruct (place_market_buy_order_run (PyInt margin) (PyInt 1) (PyInt tp) w0)
        as (o & w' & E' & _ & Hid)
  end.
  rewrite Ep in E'. injection E' as <- <-.
  cbn [order_truthy]. rewrite (identified_truthy order) by now apply Hid.
  rewrite Eg. script_simpl.
  destruct (one_percent_above entry); now script_simpl.
Qed.

Lemma second_order_direct_calls (price : float) (margin : Z) (w : world St) :
  exists r w' tp n,
    second_order_direct price margin w = (r, w') /\
    calls (trace w') =
      calls (trace w)
      ++ firstn n [EvNewTrade (market_params (PyInt margin) (PyInt 1) (PyInt tp))] /\
    (n <= 1)%nat /\
    (n = 1%nat -> Py.round (price * 1.01)%float = Ok tp) /\
    (forall o, r = Ok o ->
       n = 1%nat /\ forall order, o = Some order -> identified order = true).
Proof.
  destruct (Py.round (price * 1.01)%float) as [tp | e] eqn:E.
  - match type of (second_order_direct_places price margin tp w E) with
    | _ = bind (?place) _ ?w0 =>
        destruct (place_market_buy_order_run (PyInt margin) (PyInt 1) (PyInt tp) w0)
          as (o & w4 & Ep & Hc & Hid)
    end.
    destruct o as [order |].
    + destruct (identified_get order "entry_price" (PyFloat price))
        as [entry Eg]; [now apply Hid |].
      rewrite (second_order_direct_accepted _ _ _ _ _ _ _ E Ep Eg).
      destruct (one_percent_above entry) as [target | e].
      * eexists _, _, tp, 1%nat. split; [reflexivity |].
        split; [calls_norm |]. split; [lia |]. split; [reflexivity |].
        intros o [= <-]. split; [reflexivity | exact Hid].
      * eexists _, _, tp, 1%nat. split; [reflexivity |].
        split; [calls_norm |]. split; [lia |]. split; [reflexivity |].
        discriminate.
    + rewrite (second_order_direct_rejected _ _ _ _ _ E Ep).
      eexists _, _, tp, 1%nat. split; [reflexivity |].
      split; [calls_norm |]. split; [lia |]. split; [reflexivity |].
      intros o [= <-]. split; [reflexivity | discriminate].
  - rewrite (second_order_direct_no_target _ _ _ _ E).
    eexists _, _, 0, 0%nat. split; [reflexivity |].
    split; [calls_norm |]. split; [lia |]. split; discriminate.
Qed.

(** *** The second order, deferred policy (lines 202-211) *)

Lemma second_order_deferred_rejected (margin : Z) (w w4 : world St) :
  place_market_buy_order (PyInt margin) (PyInt 1) PyNone w = (Ok None, w4) ->
  second_order_deferred margin w = (Ok None, w4).
Proof.
  intros Ep. unfold second_order_deferred. now rewrite (bind_run _ _ _ _ _ Ep).
Qed.

Lemma second_order_deferred_accepted (margin : Z) (w w4 : world St)
    (order entry : value) :
  place_market_buy_order (PyInt margin) (PyInt 1) PyNone w
    = (Ok (Some order), w4) ->
  Py.get order "entry_price" PyNone = Ok entry ->
  second_order_deferred margin w =
    if Py.truthy entry then
      match one_percent_above entry with
      | Ok tp =>
          bind (trade_id <- lift (Py.getitem order "id") ;;
                set_take_profit trade_id (PyInt tp))
            (fun _ => ret (Some order))
            (extend w4
               [EvLog INFO
                  "Take-profit ingesteld op %.0f (1%% boven entry_price %.2f)"
                  [AVal (PyInt tp); AVal entry]])
      | Raise e => (Raise e, w4)
      end
    else
      (Ok (Some order),
       extend w4 [EvLog ERROR "Entry_price niet gevonden voor tweede order." []]).
Proof.
  intros Ep Eg. unfold second_order_deferred. rewrite (bind_run _ _ _ _ _ Ep).
  destruct (place_market_buy_order_run (PyInt margin) (PyInt 1) PyNone w)
    as (o & w' & E' & _ & Hid).
  rewrite Ep in E'. injection E' as <- <-.
  cbn [order_truthy]. rewrite (identified_truthy order) by now apply Hid.
  rewrite Eg. script_simpl.
  destruct (Py.truthy entry); [| now script_simpl].
  destruct (one_percent_above entry) as [tp | e]; [| now script_simpl].
  script_simpl. unfold bind, lift.
  destruct (Py.getitem order "id"); [| reflexivity].
  now destruct (set_take_profit _ _ _) as [[] ?].
Qed.

(** With a usable entry price the update call is made once, and the
    second order is handed on whatever the update call did. *)
Lemma second_order_deferred_updates (margin tp : Z) (w w4 : world St)
    (order entry : value) :
  place_market_buy_order (PyInt margin) (PyInt 1) PyNone w
    = (Ok (Some order), w4) ->
  Py.get order "entry_price" PyNone = Ok entry ->
  Py.truthy entry = true ->
  one_percent_above entry = Ok tp ->
  exists trade_id w5,
    Py.getitem order "id" = Ok trade_id /\
    set_take_profit trade_id (PyInt tp)
      (extend w4
         [EvLog INFO "Take-profit ingesteld op %.0f (1%% boven entry_price %.2f)"
            [AVal (PyInt tp); AVal entry]])
      = (Ok tt, w5) /\
    second_order_deferred margin w = (Ok (Some order), w5) /\
    calls (trace w5) =
      calls (trace w4) ++ [EvUpdateTrade (update_params trade_id (PyInt tp))].
Proof.
  intros Ep Eg Et Etp.
  rewrite (second_order_deferred_accepted _ _ _ _ _ Ep Eg), Et, Etp.
  destruct (place_market_buy_order_run (PyInt margin) (PyInt 1) PyNone w)
    as (o & w' & E' & _ & Hid).
  rewrite Ep in E'. injection E' as <- <-.
  destruct (identified_getitem order) as [trade_id Ei]; [now apply Hid |].
  match goal with
  | |- context [bind _ _ ?w0] =>
      destruct (set_take_profit_run trade_id (PyInt tp) w0) as (w5 & Es & Hc)
  end.
  exists trade_id, w5. split; [exact Ei |]. split; [exact Es |]. split.
  - unfold bind at 1. unfold bind at 1. rewrite Ei. unfold lift. now rewrite Es.
  - rewrite Hc. calls_norm.
Qed.

Lemma second_order_deferred_calls (margin : Z) (w : world St) :
  exists r w' update,
    second_order_deferred margin w = (r, w') /\
    calls (trace w') =
      calls (trace w)
      ++ EvNewTrade (market_params (PyInt margin) (PyInt 1) PyNone)
         :: match update with
            | Some params => [EvUpdateTrade params]
            | None => []
            end /\
    (forall o, r = Ok o -> forall order, o = Some order -> identified order = true).
Proof.
  destruct (place_market_buy_order_run (PyInt margin) (PyInt 1) PyNone w)
    as (o & w4 & Ep & Hc & Hid).
  destruct o as [order |].
  - destruct (identified_get order "entry_price" PyNone) as [entry Eg];
      [now apply Hid |].
    destruct (Py.truthy entry) eqn:Et.
    + destruct (one_percent_above entry) as [tp | e] eqn:Etp.
      * destruct (second_order_deferred_updates _ _ _ _ _ _ Ep Eg Et Etp)
          as (trade_id & w5 & _ & _ & -> & Hc5).
        eexists _, _, (Some _). split; [reflexivity |].
        split; [rewrite Hc5; calls_norm |].
        intros o [= <-]. exact Hid.
      * rewrite (second_order_deferred_accepted _ _ _ _ _ Ep Eg), Et, Etp.
        eexists _, _, None. split; [reflexivity |].
        split; [calls_norm | discriminate].
    + rewrite (second_order_deferred_accepted _ _ _ _ _ Ep Eg), Et.
      eexists _, _, None. split; [reflexivity |].
      split; [calls_norm |]. intros o [= <-]. exact Hid.
  - rewrite (second_order_deferred_rejected _ _ _ Ep).
    eexists _, _, None. split; [reflexivity |].
    split; [calls_norm |]. intros o [= <-]. discriminate.
Qed.

(** *** The limit step (lines 213-228) *)

Lemma main_limit_step_calls (price : float) (margin : Z) (o : option value)
    (w : world St) :
  (forall order, o = Some order -> identified order = true) ->
  exists r w' n lp ltp,
    main_limit_step price margin o w = (r, w') /\
    calls (trace w') =
      calls (trace w)
      ++ firstn n
           [EvSleep REQUEST_DELAY;
            EvNewTrade (limit_params (PyInt margin) (PyInt 1) (PyInt lp) (PyInt ltp))] /\
    (n <= 2)%nat /\
    (n = 2%nat ->
       Py.round (price - 100)%float = Ok lp /\
       one_percent_above (PyInt lp) = Ok ltp) /\
    (o = None -> n = 0%nat) /\
    (o <> None -> (1 <= n)%nat).
Proof.
  intros Hid. destruct o as [order |].
  - specialize (Hid order eq_refl).
    destruct (Py.round (price - 100)%float) as [lp | e] eqn:Elp;
      [destruct (one_percent_above (PyInt lp)) as [ltp | e] eqn:Eltp |].
    + destruct (main_limit_step_places price margin lp ltp order w Hid Elp Eltp)
        as (o & w5 & w' & _ & -> & Hc & _).
      eexists _, _, 2%nat, lp, ltp. split; [reflexivity |].
      split; [exact Hc |]. split; [lia |]. split; [now split |].
      split; [discriminate | lia].
    + unfold main_limit_step. cbn [order_truthy].
      rewrite (identified_truthy order Hid). cbn [negb]. script_simpl.
      rewrite Elp. script_simpl. rewrite Eltp. script_simpl.
      eexists _, _, 1%nat, 0, 0. split; [reflexivity |].
      split; [calls_norm |]. split; [lia |]. split; [discriminate |].
      split; [discriminate | lia].
    + unfold main_limit_step. cbn [order_truthy].
      rewrite (identified_truthy order Hid). cbn [negb]. script_simpl.
      rewrite Elp. script_simpl.
      eexists _, _, 1%nat, 0, 0. split; [reflexivity |].
      split; [calls_norm |]. split; [lia |]. split; [discriminate |].
      split; [discriminate | lia].
  - rewrite main_limit_step_not_placed.
    eexists _, _, 0%nat, 0, 0. split; [reflexivity |].
    split; [calls_norm |]. split; [lia |]. split; [discriminate |].
    split; [reflexivity | congruence].
Qed.

(** *** The calls of a whole run *)

(** A run either ends after the ticker call or gets to the first order. *)
Lemma main_first_stage (direct : bool) (w : world St) :
  (exists w',
      main_with direct w = (Ok tt, w') /\
      calls (trace w') = calls (trace w) ++ [EvGetTicker]) \/
  (exists price margin w2,
      reaches_first_order w price margin w2 /\
      calls (trace w2) = calls (trace w) ++ [EvGetTicker]).
Proof.
  destruct (get_ticker_run w) as (o & w1 & E & Hc & Hp).
  destruct o as [price |].
  - destruct (usd_to_sats_run (PyInt 5) (PyFloat price) w1)
      as (margin & evs & Em & Hevs).
    destruct (Z.leb_spec margin 0) as [Hm | Hm].
    + left. rewrite (main_margin_invalid direct w w1 _ price margin E Em Hm).
      eexists. split; [reflexivity | calls_norm].
    + right. eexists price, margin, _. split.
      * exists w1, (extend w1 evs). repeat split; eauto.
      * calls_norm.
  - left. rewrite (main_ticker_failed direct w w1 E).
    eexists. split; [reflexivity | calls_norm].
Qed.

(** From the first order a run either ends, or sleeps and gets to the
    second order. *)
Lemma main_second_stage (direct : bool) (w w2 : world St) (price : float)
    (margin : Z) :
  reaches_first_order w price margin w2 ->
  (exists w',
      main_with direct w = (Ok tt, w') /\
      calls (trace w') =
        calls (trace w2)
        ++ [EvNewTrade (market_params (PyInt margin) (PyInt 1) PyNone)]) \/
  (exists w3,
      reaches_second_order w price margin w3 /\
      calls (trace w3) =
        calls (trace w2)
        ++ [EvNewTrade (market_params (PyInt margin) (PyInt 1) PyNone);
            EvSleep REQUEST_DELAY]).
Proof.
  intros Hr.
  destruct (place_market_buy_order_run (PyInt margin) (PyInt 1) PyNone w2)
    as (o & wf & Ep & Hc & Hid).
  destruct o as [first |].
  - right. eexists. split.
    + exists w2, first, wf. repeat split; eauto.
    + calls_norm.
  - left. rewrite (main_at_first_order direct w w2 price margin Hr).
    unfold main_from_first_order. rewrite (bind_run _ _ _ _ _ Ep).
    cbn [order_truthy negb]. script_simpl.
    eexists. split; [reflexivity | calls_norm].
Qed.

Lemma reaches_first_order_price (w w2 : world St) (price : float) (margin : Z) :
  reaches_first_order w price margin w2 ->
  exists w1, get_ticker w = (Ok (Some price), w1).
Proof. intros (w1 & wm & E & _). eauto. Qed.

(** The calls of a run under the direct policy are an initial segment of
    [direct_outline]; from the second order on, the take-profit in it is
    the rounded price of the ticker times 1.01. *)
Ltac outline_norm :=
  cbn [snd]; unfold direct_outline, deferred_outline;
  cbn [firstn app Nat.add]; calls_norm.

Lemma main_direct_calls (w : world St) :
  exists n margin tp lp ltp,
    calls (trace (snd (main_with true w))) =
      calls (trace w) ++ firstn n (direct_outline margin tp lp ltp) /\
    (1 <= n)%nat /\
    ((4 <= n)%nat ->
       exists price w1,
         get_ticker w = (Ok (Some price), w1) /\
         Py.round (price * 1.01)%float = Ok tp /\
         ((6 <= n)%nat ->
            Py.round (price - 100)%float = Ok lp /\
            one_percent_above (PyInt lp) = Ok ltp)).
Proof.
  destruct (main_first_stage true w)
    as [(w' & -> & Hc) | (price & margin & w2 & Hr & Hc2)].
  { exists 1%nat, 0, 0, 0, 0. split; [outline_norm |]. split; lia. }
  destruct (main_second_stage true w w2 price margin Hr)
    as [(w' & -> & Hc) | (w3 & Hr3 & Hc3)].
  { exists 2%nat, margin, 0, 0, 0. split; [outline_norm |]. split; lia. }
  destruct (reaches_first_order_price _ _ _ _ Hr) as [w1 Eprice].
  rewrite (main_at_second_order true w w3 price margin Hr3).
  unfold main_from_second_order, second_order_step.
  destruct (second_order_direct_calls price margin w3)
    as (r & w4 & tp & k & E2 & Hc4 & Hk & Htp & Hr4).
  rewrite (bind_run _ _ _ _ _ E2).
  destruct r as [o |].
  - destruct (Hr4 o eq_refl) as [-> Hid]. specialize (Htp eq_refl).
    destruct (main_limit_step_calls price margin o w4 Hid)
      as (r & w5 & j & lp & ltp & -> & Hc5 & Hj & Hlp & _ & _).
    exists (4 + j)%nat, margin, tp, lp, ltp. split.
    + destruct j as [| [| [| j]]]; try lia; outline_norm.
    + split; [lia |]. intros _. exists price, w1.
      split; [exact Eprice |]. split; [exact Htp |].
      intros Hn. apply Hlp. lia.
  - exists (3 + k)%nat, margin, tp, 0, 0. split.
    + destruct k as [| [| k]]; try lia; outline_norm.
    + split; [lia |]. intros Hn.
      exists price, w1. split; [exact Eprice |].
      split; [apply Htp; lia | lia].
Qed.

(** Under the deferred policy the calls are an initial segment of
    [deferred_outline], with or without the update call. *)
Lemma main_deferred_calls (w : world St) :
  exists n margin update lp ltp,
    calls (trace (snd (main_with false w))) =
      calls (trace w) ++ firstn n (deferred_outline margin update lp ltp) /\
    (1 <= n)%nat.
Proof.
  destruct (main_first_stage false w)
    as [(w' & -> & Hc) | (price & margin & w2 & Hr & Hc2)].
  { exists 1%nat, 0, None, 0, 0. split; [outline_norm | lia]. }
  destruct (main_second_stage false w w2 price margin Hr)
    as [(w' & -> & Hc) | (w3 & Hr3 & Hc3)].
  { exists 2%nat, margin, None, 0, 0. split; [outline_norm | lia]. }
  rewrite (main_at_second_order false w w3 price margin Hr3).
  unfold main_from_second_order, second_order_step.
  destruct (second_order_deferred_calls margin w3)
    as (r & w4 & update & E2 & Hc4 & Hr4).
  rewrite (bind_run _ _ _ _ _ E2).
  destruct r as [o |].
  - destruct (main_limit_step_calls price margin o w4 (Hr4 o eq_refl))
      as (r & w5 & j & lp & ltp & -> & Hc5 & Hj & _).
    destruct update as [params |].
    + exists (5 + j)%nat, margin, (Some params), lp, ltp. split; [| lia].
      destruct j as [| [| [| j]]]; try lia; outline_norm.
    + exists (4 + j)%nat, margin, None, lp, ltp. split; [| lia].
      destruct j as [| [| [| j]]]; try lia; outline_norm.
  - destruct update as [params |].
    + exists 5%nat, margin, (Some params), 0, 0. split; [outline_norm | lia].
    + exists 4%nat, margin, None, 0, 0. split; [outline_norm | lia].
Qed.

(** *** Facts shared by the theorems on main *)

Lemma second_order_step_identified (direct : bool) (price : float) (margin : Z)
    (w w4 : world St) (order : value) :
  second_order_step direct price margin w = (Ok (Some order), w4) ->
  identified order = true.
Proof.
  unfold second_order_step. destruct direct; intros E.
  - destruct (second_order_direct_calls price margin w)
      as (r & w' & tp & n & E' & _ & _ & _ & Hr).
    rewrite E in E'. injection E' as <- <-.
    now apply (Hr (Some order) eq_refl).
  - destruct (second_order_deferred_calls margin w) as (r & w' & u & E' & _ & Hr).
    rewrite E in E'. injection E' as <- <-.
    now apply (Hr (Some order) eq_refl).
Qed.

Lemma reaches_first_order_calls (w w2 : world St) (price : float) (margin : Z) :
  reaches_first_order w price margin w2 ->
  calls (trace w2) = calls (trace w) ++ [EvGetTicker].
Proof.
  intros (w1 & wm & E & Em & _ & ->).
  destruct (get_ticker_run w) as (o & w1' & E' & Hc & _).
  rewrite E in E'. injection E' as <- <-.
  destruct (usd_to_sats_run (PyInt 5) (PyFloat price) w1) as (n & evs & Em' & Hevs).
  rewrite Em in Em'. injection Em' as <- ->. calls_norm.
Qed.

Lemma reaches_second_order_calls (w w3 : world St) (price : float) (margin : Z) :
  reaches_second_order w price margin w3 ->
  calls (trace w3) =
    calls (trace w)
    ++ [EvGetTicker;
        EvNewTrade (market_params (PyInt margin) (PyInt 1) PyNone);
        EvSleep REQUEST_DELAY].
Proof.
  intros (w2 & first & wf & Hr & Ep & ->).
  pose proof (reaches_first_order_calls _ _ _ _ Hr) as Hc2.
  destruct (place_market_buy_order_run (PyInt margin) (PyInt 1) PyNone w2)
    as (o & wf' & Ep' & Hc & _).
  rewrite Ep in Ep'. injection Ep' as <- <-. calls_norm.
Qed.

(** C3.  A step that returns its failure sentinel ends the run there:
    after a [None] price, a margin of zero or below, or a [None] order,
    [main] returns at once, and the world it leaves is the world of the
    failed step with one more error record: no later call, no second
    attempt.  A [None] from the placement of the second order is the
    [None] of the second step under either policy. *)
Theorem main_stops_at_failed_step (direct : bool) (w : world St) :
  (forall w1,
      get_ticker w = (Ok None, w1) ->
      main_with direct w =
        (Ok tt,
         extend w1
           [EvLog ERROR "Kan marktprijs niet ophalen. Script wordt beëindigd." []])) /\
  (forall price margin w1 w2,
      get_ticker w = (Ok (Some price), w1) ->
      usd_to_sats (PyInt 5) (PyFloat price) w1 = (Ok margin, w2) ->
      margin <= 0 ->
      main_with direct w =
        (Ok tt,
         extend w2
           [EvLog ERROR "Ongeldige margin berekend. Script wordt beëindigd." []])) /\
  (forall price margin w2 w3,
      reaches_first_order w price margin w2 ->
      place_market_buy_order (PyInt margin) (PyInt 1) PyNone w2 = (Ok None, w3) ->
      main_with direct w =
        (Ok tt,
         extend w3 [EvLog ERROR "Eerste order mislukt. Script wordt beëindigd." []])) /\
  (forall price margin w3 w4,
      reaches_second_order w price margin w3 ->
      second_order_step direct price margin w3 = (Ok None, w4) ->
      main_with direct w =
        (Ok tt,
         extend w4 [EvLog ERROR "Tweede order mislukt. Script wordt beëindigd." []])) /\
  (forall price margin tp w3 w4,
      Py.round (price * 1.01)%float = Ok tp ->
      place_market_buy_order (PyInt margin) (PyInt 1) (PyInt tp)
        (extend w3
           [EvLog INFO
              "Take-profit direct ingesteld op %.0f (1%% boven geschatte marktprijs %.2f)"
              [AVal (PyInt tp); AVal (PyFloat price)]])
        = (Ok None, w4) ->
      second_order_step true price margin w3 = (Ok None, w4)) /\
  (forall price margin w3 w4,
      place_market_buy_order (PyInt margin) (PyInt 1) PyNone w3 = (Ok None, w4) ->
      second_order_step false price margin w3 = (Ok None, w4)) /\
  (forall price margin order lp ltp w3 w4 w5,
      reaches_second_order w price margin w3 ->
      second_order_step direct price margin w3 = (Ok (Some order), w4) ->
      Py.round (price - 100)%float = Ok lp ->
      one_percent_above (PyInt lp) = Ok ltp ->
      place_limit_buy_order (PyInt margin) (PyInt 1) (PyInt lp) (PyInt ltp)
        (extend w4
           [EvSleep REQUEST_DELAY;
            EvLog INFO "Plaats test limiet kooporder voor $5 met hefboom 1" []])
        = (Ok None, w5) ->
      main_with direct w =
        (Ok tt, extend w5 [EvLog ERROR "Limietorder mislukt." []])).
Proof.
  split; [| split; [| split; [| split; [| split; [| split]]]]].
  - intros w1 E. now apply main_ticker_failed.
  - intros price margin w1 w2 E Em Hm. now apply main_margin_invalid with w1 price margin.
  - intros price margin w2 w3 Hr Ep.
    rewrite (main_at_first_order direct w w2 price margin Hr).
    unfold main_from_first_order. now rewrite (bind_run _ _ _ _ _ Ep).
  - intros price margin w3 w4 Hr E2.
    rewrite (main_at_second_order direct w w3 price margin Hr).
    unfold main_from_second_order. now rewrite (bind_run _ _ _ _ _ E2).
  - intros price margin tp w3 w4 Etp Ep.
    now apply second_order_direct_rejected with tp.
  - intros price margin w3 w4 Ep. now apply second_order_deferred_rejected.
  - intros price margin order lp ltp w3 w4 w5 Hr E2 Elp Eltp Ep.
    rewrite (main_at_second_order direct w w3 price margin Hr).
    unfold main_from_second_order. rewrite (bind_run _ _ _ _ _ E2).
    pose proof (second_order_step_identified _ _ _ _ _ _ E2) as Hid.
    destruct (main_limit_step_places price margin lp ltp order w4 Hid Elp Eltp)
      as (o & w5' & w' & Ep' & -> & _ & Hnone).
    rewrite Ep in Ep'. injection Ep' as <- <-.
    now rewrite (Hnone eq_refl).
Qed.

(** A value that is no number has no level one percent above it. *)
Lemma one_percent_above_not_number (v : value) :
  Py.is_number v = false -> one_percent_above v = Raise TypeError.
Proof.
  unfold Py.is_number, one_percent_above, Py.mul_float.
  destruct (Py.as_number v); [discriminate | reflexivity].
Qed.

(** Under the direct policy, what a run that got to the second order does
    next: without a rounded target it raises before any order; with one it
    sends the second order with that target, and what follows is at most
    the delay and the limit order. *)
Lemma main_direct_from_second_order (w w3 : world St) (price : float)
    (margin : Z) :
  reaches_second_order w price margin w3 ->
  match Py.round (price * 1.01)%float with
  | Raise e => main_with true w = (Raise e, w3)
  | Ok tp =>
      exists o w4 k lp ltp,
        place_market_buy_order (PyInt margin) (PyInt 1) (PyInt tp)
          (extend w3
             [EvLog INFO
                "Take-profit direct ingesteld op %.0f (1%% boven geschatte marktprijs %.2f)"
                [AVal (PyInt tp); AVal (PyFloat price)]])
          = (Ok o, w4) /\
        calls (trace w4) =
          calls (trace w)
          ++ [EvGetTicker;
              EvNewTrade (market_params (PyInt margin) (PyInt 1) PyNone);
              EvSleep REQUEST_DELAY;
              EvNewTrade (market_params (PyInt margin) (PyInt 1) (PyInt tp))] /\
        calls (trace (snd (main_with true w))) =
          calls (trace w4)
          ++ firstn k
               [EvSleep REQUEST_DELAY;
                EvNewTrade (limit_params (PyInt margin) (PyInt 1)
                              (PyInt lp) (PyInt ltp))] /\
        (o = None ->
           main_with true w =
             (Ok tt,
              extend w4
                [EvLog ERROR "Tweede order mislukt. Script wordt beëindigd." []])) /\
        (forall order,
            o = Some order ->
            exists entry,
              Py.get order "entry_price" (PyFloat price) = Ok entry /\
              match one_percent_above entry with
              | Ok target =>
                  (1 <= k)%nat /\
                  main_with true w =
                    main_limit_step price margin (Some order)
                      (extend w4
                         [EvLog INFO
                            "Werkelijke entry_price: %.2f, geschatte take-profit: %.0f, ideale take-profit: %.0f"
                            [AVal entry; AVal (PyInt tp); AVal (PyInt target)]])
              | Raise e => k = 0%nat /\ main_with true w = (Raise e, w4)
              end)
  end.
Proof.
  intros Hr. pose proof (reaches_second_order_calls _ _ _ _ Hr) as Hc3.
  rewrite (main_at_second_order true w w3 price margin Hr).
  unfold main_from_second_order, second_order_step.
  destruct (Py.round (price * 1.01)%float) as [tp | e] eqn:Etp.
  - match type of (second_order_direct_places price margin tp w3 Etp) with
    | _ = bind _ _ ?w0 =>
        destruct (place_market_buy_order_run (PyInt margin) (PyInt 1) (PyInt tp) w0)
          as (o & w4 & Ep & Hc & Hid)
    end.
    assert (Hc4 : calls (trace w4) =
                  calls (trace w)
                  ++ [EvGetTicker;
                      EvNewTrade (market_params (PyInt margin) (PyInt 1) PyNone);
                      EvSleep REQUEST_DELAY;
                      EvNewTrade (market_params (PyInt margin) (PyInt 1) (PyInt tp))]).
    { rewrite Hc. calls_norm. }
    destruct o as [order |].
    + destruct (identified_get order "entry_price" (PyFloat price))
        as [entry Eg]; [now apply Hid |].
      pose proof (second_order_direct_accepted price margin tp w3 w4 order entry
                    Etp Ep Eg) as E2.
      destruct (one_percent_above entry) as [target | e] eqn:Eone.
      * rewrite (bind_run _ _ _ _ _ E2).
        match goal with
        | |- context [main_limit_step price margin (Some order) ?w0] =>
            destruct (main_limit_step_calls price margin (Some order) w0)
              as (r & w5 & j & lp & ltp & El & Hc5 & Hj & _ & _ & Hpos)
        end.
        { intros ? [= <-]. now apply Hid. }
        exists (Some order), w4, j, lp, ltp.
        split; [exact Ep |]. split; [exact Hc4 |]. split.
        { rewrite El. cbn [snd]. rewrite Hc5. calls_norm. }
        split; [discriminate |].
        intros order' [= <-]. exists entry. split; [exact Eg |].
        rewrite Eone. split; [apply Hpos; discriminate | reflexivity].
      * rewrite (bind_run _ _ _ _ _ E2).
        exists (Some order), w4, 0%nat, 0, 0.
        split; [exact Ep |]. split; [exact Hc4 |]. split.
        { cbn [snd firstn]. now rewrite app_nil_r. }
        split; [discriminate |].
        intros order' [= <-]. exists entry. split; [exact Eg |].
        rewrite Eone. now split.
    + rewrite (bind_run _ _ _ _ _ (second_order_direct_rejected _ _ _ _ _ Etp Ep)).
      rewrite main_limit_step_not_placed.
      exists None, w4, 0%nat, 0, 0.
      split; [exact Ep |]. split; [exact Hc4 |]. split.
      { cbn [snd firstn]. rewrite app_nil_r. calls_norm. }
      split; [reflexivity | discriminate].
  - now rewrite (bind_run _ _ _ _ _ (second_order_direct_no_target _ _ _ _ Etp)).
Qed.

(** C5.  Under the direct policy, which is the one [main] runs, the calls
    of a run are an initial segment, never empty, of: ticker, first order,
    delay, second order, delay, limit order; no update call is among them.
    A run that gets to the second order sends it with [takeprofit] equal
    to the rounded product of the ticker price and 1.01 (50500 for a price
    of 50000); the only way out before that call is that this rounding has
    no value, and then [main] raises.  After the second order a run makes
    no call but the delay and the limit order: when the order is accepted,
    the target computed from the entry price of the response goes into one
    log record and [main] goes on with the limit step; when that target
    has no value [main] raises; when the order is refused [main] ends. *)
Theorem direct_take_profit_from_ticker_price (w : world St) :
  (exists n margin tp lp ltp,
      calls (trace (snd (main w))) =
        calls (trace w) ++ firstn n (direct_outline margin tp lp ltp) /\
      (1 <= n)%nat /\
      (forall params, ~ In (EvUpdateTrade params)
                          (firstn n (direct_outline margin tp lp ltp))) /\
      Py.get (market_params (PyInt margin) (PyInt 1) (PyInt tp)) "takeprofit" PyNone
        = Ok (PyInt tp) /\
      ((4 <= n)%nat ->
         exists price w1,
           get_ticker w = (Ok (Some price), w1) /\
           Py.round (price * 1.01)%float = Ok tp)) /\
  Py.round (50000 * 1.01)%float = Ok 50500 /\
  (forall price margin w3,
      reaches_second_order w price margin w3 ->
      match Py.round (price * 1.01)%float with
      | Raise e => main w = (Raise e, w3)
      | Ok tp =>
          let request := market_params (PyInt margin) (PyInt 1) (PyInt tp) in
          exists o w4 rest,
            place_market_buy_order (PyInt margin) (PyInt 1) (PyInt tp)
              (extend w3
                 [EvLog INFO
                    "Take-profit direct ingesteld op %.0f (1%% boven geschatte marktprijs %.2f)"
                    [AVal (PyInt tp); AVal (PyFloat price)]])
              = (Ok o, w4) /\
            Py.get request "takeprofit" PyNone = Ok (PyInt tp) /\
            calls (trace w4) =
              calls (trace w)
              ++ [EvGetTicker;
                  EvNewTrade (market_params (PyInt margin) (PyInt 1) PyNone);
                  EvSleep REQUEST_DELAY;
                  EvNewTrade request] /\
            calls (trace (snd (main w))) = calls (trace w4) ++ rest /\
            (forall e, In e rest -> is_update_trade e = false /\
                                    (is_new_trade e = true ->
                                     exists lp ltp,
                                       e = EvNewTrade
                                             (limit_params (PyInt margin) (PyInt 1)
                                                (PyInt lp) (PyInt ltp)))) /\
            (o = None ->
               main w =
                 (Ok tt,
                  extend w4
                    [EvLog ERROR "Tweede order mislukt. Script wordt beëindigd." []])) /\
            (forall order,
                o = Some order ->
                exists entry,
                  Py.get order "entry_price" (PyFloat price) = Ok entry /\
                  match one_percent_above entry with
                  | Ok target =>
                      main w =
                        main_limit_step price margin (Some order)
                          (extend w4
                             [EvLog INFO
                                "Werkelijke entry_price: %.2f, geschatte take-profit: %.0f, ideale take-profit: %.0f"
                                [AVal entry; AVal (PyInt tp); AVal (PyInt target)]])
                  | Raise e => rest = [] /\ main w = (Raise e, w4)
                  end)
      end) /\
  (forall price margin tp w3 w4 order entry target,
      Py.round (price * 1.01)%float = Ok tp ->
      place_market_buy_order (PyInt margin) (PyInt 1) (PyInt tp)
        (extend w3
           [EvLog INFO
              "Take-profit direct ingesteld op %.0f (1%% boven geschatte marktprijs %.2f)"
              [AVal (PyInt tp); AVal (PyFloat price)]])
        = (Ok (Some order), w4) ->
      Py.get order "entry_price" (PyFloat price) = Ok entry ->
      one_percent_above entry = Ok target ->
      second_order_direct price margin w3 =
        (Ok (Some order),
         extend w4
           [EvLog INFO
              "Werkelijke entry_price: %.2f, geschatte take-profit: %.0f, ideale take-profit: %.0f"
              [AVal entry; AVal (PyInt tp); AVal (PyInt target)]])).
Proof.
  split; [| split; [| split]].
  - destruct (main_direct_calls w) as (n & margin & tp & lp & ltp & Hc & Hn & Htp).
    exists n, margin, tp, lp, ltp. split; [exact Hc |]. split; [exact Hn |].
    split; [| split].
    + intros params Hin. apply in_firstn in Hin.
      unfold direct_outline in Hin. simpl in Hin.
      repeat destruct Hin as [Hin | Hin]; try discriminate Hin; exact Hin.
    + reflexivity.
    + intros H4. destruct (Htp H4) as (price & w1 & E & Er & _). eauto.
  - vm_compute. reflexivity.
  - intros price margin w3 Hr.
    pose proof (main_direct_from_second_order w w3 price margin Hr) as T.
    change (main w) with (main_with true w).
    destruct (Py.round (price * 1.01)%float) as [tp | e]; [| exact T].
    destruct T as (o & w4 & k & lp & ltp & Ep & Hc4 & Hc & Hnone & Hsome).
    cbv zeta. eexists o, w4, _.
    split; [exact Ep |]. split; [reflexivity |]. split; [exact Hc4 |].
    split; [exact Hc |]. split; [| split; [exact Hnone |]].
    + intros e Hin. apply in_firstn in Hin.
      destruct Hin as [<- | [<- | []]].
      * split; [reflexivity | discriminate].
      * split; [reflexivity |]. intros _. now exists lp, ltp.
    + intros order Eo. destruct (Hsome order Eo) as (entry & Eg & Hm).
      exists entry. split; [exact Eg |].
      destruct (one_percent_above entry) as [target | e].
      * exact (proj2 Hm).
      * destruct Hm as [-> Hm]. now split.
  - intros price margin tp w3 w4 order entry target Etp Ep Eg Et.
    rewrite (second_order_direct_accepted _ _ _ _ _ _ _ Etp Ep Eg). now rewrite Et.
Qed.

(** C6.  Under the deferred policy, when the second order is accepted and
    its record has no ["entry_price"], the error is logged and the second
    step is over: the run goes on to the limit step from that world, and
    its calls are an initial segment of the outline without update call. *)
Theorem deferred_skips_update_without_entry_price
    (w w3 w4 : world St) (price : float) (margin : Z)
    (fields : list (string * value)) :
  reaches_second_order w price margin w3 ->
  place_market_buy_order (PyInt margin) (PyInt 1) PyNone w3
    = (Ok (Some (PyDict fields)), w4) ->
  Py.lookup "entry_price" fields = None ->
  let w4' := extend w4
               [EvLog ERROR "Entry_price niet gevonden voor tweede order." []] in
  second_order_deferred margin w3 = (Ok (Some (PyDict fields)), w4') /\
  main_with false w = main_limit_step price margin (Some (PyDict fields)) w4' /\
  (exists n lp ltp,
      calls (trace (snd (main_with false w))) =
        calls (trace w) ++ firstn n (deferred_outline margin None lp ltp) /\
      (5 <= n)%nat) /\
  (forall n lp ltp params,
      ~ In (EvUpdateTrade params) (firstn n (deferred_outline margin None lp ltp))).
Proof.
  intros Hr Ep Hl w4'.
  assert (E2 : second_order_deferred margin w3 = (Ok (Some (PyDict fields)), w4')).
  { rewrite (second_order_deferred_accepted _ _ _ _ PyNone Ep).
    - reflexivity.
    - unfold Py.get. now rewrite Hl. }
  assert (Em : main_with false w
               = main_limit_step price margin (Some (PyDict fields)) w4').
  { rewrite (main_at_second_order false w w3 price margin Hr).
    unfold main_from_second_order, second_order_step.
    now rewrite (bind_run _ _ _ _ _ E2). }
  split; [exact E2 |]. split; [exact Em |]. split.
  - rewrite Em.
    pose proof (reaches_second_order_calls _ _ _ _ Hr) as Hc3.
    destruct (place_market_buy_order_run (PyInt margin) (PyInt 1) PyNone w3)
      as (o & w' & Ep' & Hc4 & Hid).
    rewrite Ep in Ep'. injection Ep' as <- <-.
    destruct (main_limit_step_calls price margin (Some (PyDict fields)) w4' Hid)
      as (r & w5 & j & lp & ltp & -> & Hc5 & Hj & _ & _ & Hpos).
    assert (1 <= j)%nat by (apply Hpos; discriminate).
    exists (4 + j)%nat, lp, ltp. split; [| lia].
    subst w4'. destruct j as [| [| [| j]]]; try lia; outline_norm.
  - intros n lp ltp params Hin. apply in_firstn in Hin.
    unfold deferred_outline in Hin. simpl in Hin.
    repeat destruct Hin as [Hin | Hin]; try discriminate Hin; exact Hin.
Qed.

(** C10.  [set_take_profit] never raises and returns nothing, whatever the
    client does with the update call.  Under the deferred policy, once the
    second order is accepted with a usable entry price, the update call is
    made and the run goes on to the limit step from the world the update
    left, without looking at its outcome; with a defined limit price the
    delay and the limit order follow. *)
Theorem failed_take_profit_does_not_abort (w : world St) :
  (forall trade_id tp_price w0,
      exists w',
        set_take_profit trade_id tp_price w0 = (Ok tt, w') /\
        calls (trace w') =
          calls (trace w0) ++ [EvUpdateTrade (update_params trade_id tp_price)]) /\
  (forall price margin tp w3 w4 order entry,
      reaches_second_order w price margin w3 ->
      place_market_buy_order (PyInt margin) (PyInt 1) PyNone w3
        = (Ok (Some order), w4) ->
      Py.get order "entry_price" PyNone = Ok entry ->
      Py.truthy entry = true ->
      one_percent_above entry = Ok tp ->
      exists trade_id w5,
        Py.getitem order "id" = Ok trade_id /\
        set_take_profit trade_id (PyInt tp)
          (extend w4
             [EvLog INFO "Take-profit ingesteld op %.0f (1%% boven entry_price %.2f)"
                [AVal (PyInt tp); AVal entry]])
          = (Ok tt, w5) /\
        main_with false w = main_limit_step price margin (Some order) w5 /\
        (forall lp ltp,
            Py.round (price - 100)%float = Ok lp ->
            one_percent_above (PyInt lp) = Ok ltp ->
            exists w',
              main_with false w = (Ok tt, w') /\
              calls (trace w') =
                calls (trace w5)
                ++ [EvSleep REQUEST_DELAY;
                    EvNewTrade (limit_params (PyInt margin) (PyInt 1)
                                  (PyInt lp) (PyInt ltp))])).
Proof.
  split.
  - intros trade_id tp_price w0. apply set_take_profit_run.
  - intros price margin tp w3 w4 order entry Hr Ep Eg Et Etp.
    destruct (second_order_deferred_updates _ _ _ _ _ _ Ep Eg Et Etp)
      as (trade_id & w5 & Ei & Es & E2 & _).
    assert (Em : main_with false w = main_limit_step price margin (Some order) w5).
    { rewrite (main_at_second_order false w w3 price margin Hr).
      unfold main_from_second_order, second_order_step.
      now rewrite (bind_run _ _ _ _ _ E2). }
    exists trade_id, w5. split; [exact Ei |]. split; [exact Es |].
    split; [exact Em |].
    intros lp ltp Elp Eltp.
    assert (Hid : identified order = true).
    { destruct (place_market_buy_order_run (PyInt margin) (PyInt 1) PyNone w3)
        as (o & w' & Ep' & _ & Hid).
      rewrite Ep in Ep'. injection Ep' as <- <-. now apply Hid. }
    destruct (main_limit_step_places price margin lp ltp order w5 Hid Elp Eltp)
      as (o & w6 & w' & _ & El & Hc & _).
    exists w'. split; [now rewrite Em | exact Hc].
Qed.

(** C9, as the code has it.  The delay is [REQUEST_DELAY], 3.0 seconds.
    The calls of every run are an initial segment, never empty, of the
    outline of its policy, so a delay is what comes after the first order and after the
    second order (after its update call under the deferred policy), and
    the limit order, the last entry of either outline, is followed by
    nothing.  When the first order is accepted the run sleeps and goes on
    with the second.  When the second order is accepted, what follows
    depends on one field of its record, the entry price, and on nothing
    else: under the direct policy the delay follows when the level one
    percent above the entry price (the ticker price when the field is
    missing) has a value; under the deferred policy the delay follows when
    the entry price is missing or false, and after the update call when
    its level has a value.  When that level has no value, as for an entry
    price that is no number, [main] raises in the world the second order
    left, the run has slept once and no delay follows the second order.
    After a refused first or second order the run makes no further call
    and does not sleep. *)
Theorem delay_follows_accepted_orders (direct : bool) (w : world St) :
  REQUEST_DELAY = 3%float /\
  (exists n margin tp update lp ltp,
      (1 <= n)%nat /\
      calls (trace (snd (main_with direct w))) =
        calls (trace w)
        ++ firstn n (if direct then direct_outline margin tp lp ltp
                     else deferred_outline margin update lp ltp)) /\
  (forall margin tp update lp ltp,
      let limit := EvNewTrade (limit_params (PyInt margin) (PyInt 1)
                                 (PyInt lp) (PyInt ltp)) in
      last (direct_outline margin tp lp ltp) EvGetTicker = limit /\
      last (deferred_outline margin update lp ltp) EvGetTicker = limit) /\
  (forall price margin w2 order wf,
      reaches_first_order w price margin w2 ->
      place_market_buy_order (PyInt margin) (PyInt 1) PyNone w2
        = (Ok (Some order), wf) ->
      main_with direct w =
        main_from_second_order direct price margin
          (extend wf
             [EvSleep REQUEST_DELAY;
              EvLog INFO "Plaats tweede markt kooporder voor $5 met hefboom 1" []])) /\
  (forall price margin w3 order w4,
      reaches_second_order w price margin w3 ->
      second_order_step direct price margin w3 = (Ok (Some order), w4) ->
      exists r w' rest,
        main_with direct w = (r, w') /\
        calls (trace w') = calls (trace w4) ++ EvSleep REQUEST_DELAY :: rest) /\
  (forall price margin w2 w3,
      reaches_first_order w price margin w2 ->
      place_market_buy_order (PyInt margin) (PyInt 1) PyNone w2 = (Ok None, w3) ->
      calls (trace (snd (main_with direct w))) = calls (trace w3)) /\
  (forall price margin w3 w4,
      reaches_second_order w price margin w3 ->
      second_order_step direct price margin w3 = (Ok None, w4) ->
      calls (trace (snd (main_with direct w))) = calls (trace w4)) /\
  (forall price margin tp w3 order w4,
      reaches_second_order w price margin w3 ->
      Py.round (price * 1.01)%float = Ok tp ->
      place_market_buy_order (PyInt margin) (PyInt 1) (PyInt tp)
        (extend w3
           [EvLog INFO
              "Take-profit direct ingesteld op %.0f (1%% boven geschatte marktprijs %.2f)"
              [AVal (PyInt tp); AVal (PyFloat price)]])
        = (Ok (Some order), w4) ->
      exists entry,
        Py.get order "entry_price" (PyFloat price) = Ok entry /\
        match one_percent_above entry with
        | Ok target =>
            exists r w' rest,
              main_with true w = (r, w') /\
              calls (trace w') = calls (trace w4) ++ EvSleep REQUEST_DELAY :: rest
        | Raise e =>
            main_with true w = (Raise e, w4) /\
            calls (trace w4) =
              calls (trace w)
              ++ [EvGetTicker;
                  EvNewTrade (market_params (PyInt margin) (PyInt 1) PyNone);
                  EvSleep REQUEST_DELAY;
                  EvNewTrade (market_params (PyInt margin) (PyInt 1) (PyInt tp))]
        end) /\
  (forall price margin w3 order w4,
      reaches_second_order w price margin w3 ->
      place_market_buy_order (PyInt margin) (PyInt 1) PyNone w3
        = (Ok (Some order), w4) ->
      exists entry trade_id,
        Py.get order "entry_price" PyNone = Ok entry /\
        Py.getitem order "id" = Ok trade_id /\
        if Py.truthy entry then
          match one_percent_above entry with
          | Ok tp =>
              exists r w' rest,
                main_with false w = (r, w') /\
                calls (trace w') =
                  calls (trace w4)
                  ++ EvUpdateTrade (update_params trade_id (PyInt tp))
                     :: EvSleep REQUEST_DELAY :: rest
          | Raise e =>
              main_with false w = (Raise e, w4) /\
              calls (trace w4) =
                calls (trace w)
                ++ [EvGetTicker;
                    EvNewTrade (market_params (PyInt margin) (PyInt 1) PyNone);
                    EvSleep REQUEST_DELAY;
                    EvNewTrade (market_params (PyInt margin) (PyInt 1) PyNone)]
          end
        else
          exists r w' rest,
            main_with false w = (r, w') /\
            calls (trace w') = calls (trace w4) ++ EvSleep REQUEST_DELAY :: rest) /\
  (forall entry,
      Py.is_number entry = false -> one_percent_above entry = Raise TypeError).
Proof.
  split; [reflexivity |].
  split; [| split; [| split; [| split; [| split; [| split; [| split; [| split]]]]]]].
  - destruct direct.
    + destruct (main_direct_calls w) as (n & margin & tp & lp & ltp & Hc & Hn & _).
      exists n, margin, tp, None, lp, ltp. split; [exact Hn | exact Hc].
    + destruct (main_deferred_calls w) as (n & margin & u & lp & ltp & Hc & Hn).
      exists n, margin, 0, u, lp, ltp. split; [exact Hn | exact Hc].
  - intros margin tp update lp ltp. split; [reflexivity |].
    destruct update; reflexivity.
  - intros price margin w2 order wf Hr Ep.
    apply main_at_second_order. exists w2, order, wf. now repeat split.
  - intros price margin w3 order w4 Hr E2.
    rewrite (main_at_second_order direct w w3 price margin Hr).
    unfold main_from_second_order. rewrite (bind_run _ _ _ _ _ E2).
    pose proof (second_order_step_identified _ _ _ _ _ _ E2) as Hid.
    destruct (main_limit_step_calls price margin (Some order) w4)
      as (r & w5 & j & lp & ltp & -> & Hc5 & Hj & _ & _ & Hpos).
    { now intros ? [= <-]. }
    assert (1 <= j)%nat by (apply Hpos; discriminate).
    exists r, w5. destruct j as [| [| [| j]]]; try lia.
    + exists []. split; [reflexivity | exact Hc5].
    + eexists [_]. split; [reflexivity | exact Hc5].
  - intros price margin w2 w3 Hr Ep.
    rewrite (main_at_first_order direct w w2 price margin Hr).
    unfold main_from_first_order. rewrite (bind_run _ _ _ _ _ Ep).
    cbn [order_truthy negb]. script_simpl. cbn [snd]. calls_norm.
  - intros price margin w3 w4 Hr E2.
    rewrite (main_at_second_order direct w w3 price margin Hr).
    unfold main_from_second_order. rewrite (bind_run _ _ _ _ _ E2).
    rewrite main_limit_step_not_placed. cbn [snd]. calls_norm.
  - intros price margin tp w3 order w4 Hr Etp Ep.
    pose proof (main_direct_from_second_order w w3 price margin Hr) as T.
    rewrite Etp in T.
    destruct T as (o & w4' & k & lp & ltp & Ep' & Hc4 & Hc & _ & Hsome).
    rewrite Ep in Ep'. injection Ep' as <- <-.
    destruct (Hsome order eq_refl) as (entry & Eg & Hm).
    exists entry. split; [exact Eg |].
    destruct (one_percent_above entry) as [target | e].
    + destruct Hm as [Hk _].
      exists (fst (main_with true w)), (snd (main_with true w)).
      destruct k as [| k]; [lia |]. cbn [firstn] in Hc.
      eexists. split; [apply surjective_pairing | exact Hc].
    + destruct Hm as [_ Hm]. split; [exact Hm | exact Hc4].
  - intros price margin w3 order w4 Hr Ep.
    pose proof (reaches_second_order_calls _ _ _ _ Hr) as Hc3.
    destruct (place_market_buy_order_run (PyInt margin) (PyInt 1) PyNone w3)
      as (o & w4' & Ep' & Hc & Hid).
    rewrite Ep in Ep'. injection Ep' as <- <-.
    specialize (Hid order eq_refl).
    destruct (identified_get order "entry_price" PyNone Hid) as [entry Eg].
    destruct (identified_getitem order Hid) as [trade_id Ei].
    exists entry, trade_id. split; [exact Eg |]. split; [exact Ei |].
    rewrite (main_at_second_order false w w3 price margin Hr).
    unfold main_from_second_order, second_order_step.
    destruct (Py.truthy entry) eqn:Et;
      [destruct (one_percent_above entry) as [tp | e] eqn:Eone |].
    + destruct (second_order_deferred_updates _ _ _ _ _ _ Ep Eg Et Eone)
        as (trade_id' & w5 & Ei' & _ & E2 & Hc5).
      rewrite Ei in Ei'. injection Ei' as <-.
      rewrite (bind_run _ _ _ _ _ E2).
      destruct (main_limit_step_calls price margin (Some order) w5)
        as (r & w6 & j & lp & ltp & -> & Hc6 & Hj & _ & _ & Hpos).
      { now intros ? [= <-]. }
      assert (1 <= j)%nat by (apply Hpos; discriminate).
      exists r, w6. destruct j as [| [| [| j]]]; try lia.
      * exists []. split; [reflexivity |]. rewrite Hc6, Hc5.
        now rewrite <- app_assoc.
      * eexists [_]. split; [reflexivity |]. rewrite Hc6, Hc5.
        now rewrite <- app_assoc.
    + pose proof (second_order_deferred_accepted margin w3 w4 order entry Ep Eg)
        as E2.
      rewrite Et, Eone in E2. rewrite (bind_run _ _ _ _ _ E2).
      split; [reflexivity |]. rewrite Hc. calls_norm.
    + pose proof (second_order_deferred_accepted margin w3 w4 order entry Ep Eg)
        as E2.
      rewrite Et in E2. rewrite (bind_run _ _ _ _ _ E2).
      match goal with
      | |- context [main_limit_step price margin (Some order) ?w0] =>
          destruct (main_limit_step_calls price margin (Some order) w0)
            as (r & w6 & j & lp & ltp & -> & Hc6 & Hj & _ & _ & Hpos)
      end.
      { now intros ? [= <-]. }
      assert (1 <= j)%nat by (apply Hpos; discriminate).
      exists r, w6. destruct j as [| [| [| j]]]; try lia.
      * exists []. split; [reflexivity |]. rewrite Hc6. calls_norm.
      * eexists [_]. split; [reflexivity |]. rewrite Hc6. calls_norm.
  - apply one_percent_above_not_number.
Qed.

(** C8, as the code has it.  With the price 50000 and 5 USD the margin is
    10000 satoshis; the second order asks for a take-profit of 50500; an
    entry price of 50010 gives the logged target 50510, the order itself
    keeping 50500; the limit price is 49900 and its take-profit 50399.  A
    run that gets to the second order at that price, and whose second
    order is accepted with the entry price 50010, logs those three
    numbers, ends normally and has made exactly the calls of the direct
    outline with these values. *)
Theorem end_to_end_numbers (w : world St) :
  (forall w1 : world St,
      usd_to_sats (PyInt 5) (PyFloat 50000) w1 = (Ok 10000, w1)) /\
  Py.round (50000 * 1.01)%float = Ok 50500 /\
  one_percent_above (PyInt 50010) = Ok 50510 /\
  Py.round (50000 - 100)%float = Ok 49900 /\
  one_percent_above (PyInt 49900) = Ok 50399 /\
  (forall w3 w4 fields,
      reaches_second_order w 50000 10000 w3 ->
      place_market_buy_order (PyInt 10000) (PyInt 1) (PyInt 50500)
        (extend w3
           [EvLog INFO
              "Take-profit direct ingesteld op %.0f (1%% boven geschatte marktprijs %.2f)"
              [AVal (PyInt 50500); AVal (PyFloat 50000)]])
        = (Ok (Some (PyDict fields)), w4) ->
      Py.lookup "entry_price" fields = Some (PyInt 50010) ->
      second_order_direct 50000 10000 w3 =
        (Ok (Some (PyDict fields)),
         extend w4
           [EvLog INFO
              "Werkelijke entry_price: %.2f, geschatte take-profit: %.0f, ideale take-profit: %.0f"
              [AVal (PyInt 50010); AVal (PyInt 50500); AVal (PyInt 50510)]]) /\
      exists w',
        main w = (Ok tt, w') /\
        calls (trace w') =
          calls (trace w) ++ direct_outline 10000 50500 49900 50399).
Proof.
  assert (Etp : Py.round (50000 * 1.01)%float = Ok 50500) by (vm_compute; reflexivity).
  assert (Eideal : one_percent_above (PyInt 50010) = Ok 50510)
    by (vm_compute; reflexivity).
  assert (Elp : Py.round (50000 - 100)%float = Ok 49900) by (vm_compute; reflexivity).
  assert (Eltp : one_percent_above (PyInt 49900) = Ok 50399)
    by (vm_compute; reflexivity).
  split; [| split; [exact Etp | split; [exact Eideal | split; [exact Elp
                                                       | split; [exact Eltp |]]]]].
  - intros w1. unfold usd_to_sats, try_except, bind, lift, ret.
    replace (Py.truediv (PyInt 5) (PyFloat 50000)) with (Ok 0.0001%float : result float)
      by (vm_compute; reflexivity).
    replace (Py.round (0.0001 * 1e8)%float) with (Ok 10000 : result Z)
      by (vm_compute; reflexivity).
    reflexivity.
  - intros w3 w4 fields Hr Ep Hl.
    assert (Eg : Py.get (PyDict fields) "entry_price" (PyFloat 50000)
                 = Ok (PyInt 50010)) by (unfold Py.get; now rewrite Hl).
    pose proof (second_order_direct_accepted 50000%float 10000 50500 w3 w4
                  (PyDict fields) (PyInt 50010) Etp Ep Eg) as E2.
    rewrite Eideal in E2. split; [exact E2 |].
    unfold main, USE_DIRECT_TAKE_PROFIT.
    rewrite (main_at_second_order true w w3 50000%float 10000 Hr).
    unfold main_from_second_order, second_order_step.
    rewrite (bind_run _ _ _ _ _ E2).
    assert (Hid : identified (PyDict fields) = true).
    { match type of Ep with
      | _ ?w0 = _ =>
          destruct (place_market_buy_order_run (PyInt 10000) (PyInt 1) (PyInt 50500) w0)
            as (o & w' & Ep' & _ & Hid)
      end.
      rewrite Ep in Ep'. injection Ep' as <- <-. now apply Hid. }
    destruct (main_limit_step_places 50000%float 10000 49900 50399 (PyDict fields)
                (extend w4
                   [EvLog INFO
                      "Werkelijke entry_price: %.2f, geschatte take-profit: %.0f, ideale take-profit: %.0f"
                      [AVal (PyInt 50010); AVal (PyInt 50500); AVal (PyInt 50510)]])
                Hid Elp Eltp)
      as (o & w5 & w' & _ & -> & Hc & _).
    exists w'. split; [reflexivity |].
    pose proof (reaches_second_order_calls _ _ _ _ Hr) as Hc3.
    match type of Ep with
    | _ ?w0 = _ =>
        destruct (place_market_buy_order_run (PyInt 10000) (PyInt 1) (PyInt 50500) w0)
          as (o' & w'' & Ep' & Hc4 & _)
    end.
    rewrite Ep in Ep'. injection Ep' as <- <-.
    rewrite Hc. outline_norm.
Qed.

(** ** Signs, prices that are no numbers, requests *)

Lemma binary_round_aux_sign (s : bool) (m e : Z) (l : location) :
  sign_or_zero s (binary_round_aux prec emax s m e l).
Proof.
  unfold binary_round_aux.
  destruct (shr_fexp prec emax m e l) as [mrs' e'].
  destruct (shr_fexp prec emax _ e' loc_Exact) as [mrs'' e''].
  destruct (shr_m mrs''); cbn [sign_or_zero]; trivial.
  match goal with
  | |- context [if ?c then _ else _] => destruct c
  end; reflexivity.
Qed.

Lemma SFdiv_sign (sa sp : bool) (a p : spec_float) :
  sign_or_zero sa a -> strict_sign sp p ->
  sign_or_zero (xorb sa sp) (SFdiv prec emax a p).
Proof.
  destruct a as [s1 | s1 | | s1 m1 e1], p as [s2 | s2 | | s2 m2 e2];
    cbn [sign_or_zero strict_sign SFdiv]; intros Ha Hp;
    try tauto; subst; try reflexivity.
  destruct (SFdiv_core_binary prec emax (Z.pos m1) e1 (Z.pos m2) e2) as [[mz ez] lz].
  apply binary_round_aux_sign.
Qed.

Lemma SFmul_sign (sa sp : bool) (a p : spec_float) :
  sign_or_zero sa a -> strict_sign sp p ->
  sign_or_zero (xorb sa sp) (SFmul prec emax a p).
Proof.
  destruct a as [s1 | s1 | | s1 m1 e1], p as [s2 | s2 | | s2 m2 e2];
    cbn [sign_or_zero strict_sign SFmul]; intros Ha Hp;
    try tauto; subst; try reflexivity.
  apply binary_round_aux_sign.
Qed.

Lemma float_nonneg_sign (a : float) :
  PrimFloat.leb 0%float a = true -> sign_or_zero false (Prim2SF a).
Proof.
  rewrite FloatAxioms.leb_spec.
  destruct (Prim2SF a) as [s | s | | s m e]; simpl; trivial;
    destruct s; vm_compute; congruence.
Qed.

Lemma float_positive_sign (p : float) :
  PrimFloat.ltb 0%float p = true -> strict_sign false (Prim2SF p).
Proof.
  rewrite FloatAxioms.ltb_spec.
  destruct (Prim2SF p) as [s | s | | s m e]; simpl;
    try destruct s; vm_compute; congruence.
Qed.

Lemma float_negative_sign (p : float) :
  PrimFloat.ltb p 0%float = true -> strict_sign true (Prim2SF p).
Proof.
  rewrite FloatAxioms.ltb_spec.
  destruct (Prim2SF p) as [s | s | | s m e]; simpl;
    try destruct s; vm_compute; congruence.
Qed.

Lemma round_half_even_nonneg (m : positive) (e : Z) :
  0 <= Py.round_half_even (Zpos m) e.
Proof.
  unfold Py.round_half_even.
  destruct (0 <=? e) eqn:E.
  - apply Z.leb_le in E. apply Z.mul_nonneg_nonneg; [lia |].
    now apply Z.pow_nonneg.
  - apply Z.leb_gt in E.
    assert (0 < 2 ^ (- e)) by (apply Z.pow_pos_nonneg; lia).
    assert (0 <= Zpos m / 2 ^ (- e)) by (apply Z.div_pos; lia).
    destruct (2 * (Zpos m mod 2 ^ (- e)) ?= 2 ^ (- e));
      try destruct (Z.even (Zpos m / 2 ^ (- e))); lia.
Qed.

Lemma round_sign (f : float) (s : bool) (n : Z) :
  sign_or_zero s (Prim2SF f) -> Py.round f = Ok n ->
  if s then n <= 0 else 0 <= n.
Proof.
  unfold Py.round.
  destruct (Prim2SF f) as [s' | s' | | s' m e]; simpl; try discriminate.
  - intros _ [= <-]. destruct s; lia.
  - intros -> [= <-]. pose proof (round_half_even_nonneg m e).
    destruct s; lia.
Qed.

(** The quotient times 1e8 keeps the sign that amount and price give it. *)
Lemma scaled_quotient_sign (a p : float) (sp : bool) :
  PrimFloat.leb 0%float a = true -> strict_sign sp (Prim2SF p) ->
  sign_or_zero sp (Prim2SF (a / p * 1e8)%float).
Proof.
  intros Ha Hp.
  rewrite FloatAxioms.mul_spec, FloatAxioms.div_spec.
  replace sp with (xorb (xorb false sp) false) at 1 by now destruct sp.
  apply SFmul_sign.
  - apply SFdiv_sign; [now apply float_nonneg_sign | exact Hp].
  - vm_compute. reflexivity.
Qed.

(** X1.  For an amount that is a number of value [a >= 0] and a float
    price, the result of [usd_to_sats] is never negative when the price is
    above zero and never positive when the price is below zero: a caller
    that refuses a margin [<= 0], as [main] does, refuses every negative
    price. *)
Theorem usd_to_sats_sign (usd_amount : value) (num : Py.number) (a p : float)
    (w w' : world St) (n : Z) :
  Py.as_number usd_amount = Some num ->
  Py.float_of_number num = Ok a ->
  PrimFloat.leb 0%float a = true ->
  usd_to_sats usd_amount (PyFloat p) w = (Ok n, w') ->
  (PrimFloat.ltb 0%float p = true -> 0 <= n) /\
  (PrimFloat.ltb p 0%float = true -> n <= 0).
Proof.
  intros Hnum Ha Hpos Hrun.
  assert (Hdiv : forall sp, strict_sign sp (Prim2SF p) ->
                 if sp then n <= 0 else 0 <= n).
  { intros sp Hp.
    assert (Hz : PrimFloat.eqb p 0%float = false).
    { rewrite FloatAxioms.eqb_spec.
      destruct (Prim2SF p) as [s | s | | s m e]; simpl in Hp; try tauto;
        destruct s; reflexivity. }
    assert (Hq : Py.truediv usd_amount (PyFloat p) = Ok (a / p)%float).
    { unfold Py.truediv. rewrite Hnum. simpl.
      destruct num as [z | f]; simpl in Ha |- *.
      - rewrite Ha. simpl. now rewrite Hz.
      - injection Ha as ->. now rewrite Hz. }
    unfold usd_to_sats, try_except, bind, lift, ret in Hrun.
    rewrite Hq in Hrun.
    destruct (Py.round (a / p * 1e8)%float) as [k | e] eqn:Hk.
    - injection Hrun as <- _.
      apply (round_sign _ sp k (scaled_quotient_sign a p sp Hpos Hp) Hk).
    - unfold logging, emit in Hrun. injection Hrun as <- _. destruct sp; lia. }
  split; intros Hp.
  - apply (Hdiv false). now apply float_positive_sign.
  - apply (Hdiv true). now apply float_negative_sign.
Qed.

(** A price that passed the check of [get_ticker] is NaN, plus infinity or
    a finite float above zero. *)
Lemma float_not_le_shape (p : float) :
  PrimFloat.leb p 0%float = false ->
  Prim2SF p = S754_nan \/ Prim2SF p = S754_infinity false \/
  exists m e, Prim2SF p = S754_finite false m e.
Proof.
  rewrite FloatAxioms.leb_spec.
  destruct (Prim2SF p) as [s | s | | s m e]; try destruct s;
    vm_compute; try congruence; eauto.
Qed.

(** With a NaN or an infinite price the margin is zero. *)
Lemma usd_to_sats_no_margin (p : float) (w : world St) :
  Prim2SF p = S754_nan \/ Prim2SF p = S754_infinity false ->
  exists w', usd_to_sats (PyInt 5) (PyFloat p) w = (Ok 0, w') /\
             calls (trace w') = calls (trace w).
Proof.
  intros Hp.
  assert (Hz : PrimFloat.eqb p 0%float = false).
  { rewrite FloatAxioms.eqb_spec. destruct Hp as [-> | ->]; reflexivity. }
  assert (Hq : Py.truediv (PyInt 5) (PyFloat p) = Ok (5 / p)%float).
  { unfold Py.truediv. simpl.
    replace (Py.float_of_int 5) with (Ok 5%float : result float) by reflexivity.
    simpl. now rewrite Hz. }
  unfold usd_to_sats, try_except, bind, lift, ret. rewrite Hq.
  unfold Py.round. rewrite FloatAxioms.mul_spec, FloatAxioms.div_spec.
  destruct Hp as [-> | ->].
  - eexists. split; [reflexivity | calls_norm].
  - eexists. split; [reflexivity | calls_norm].
Qed.

(** X2.  A run gets to the first order only with a ticker price that is a
    finite float above zero: NaN and infinity pass the check of
    [get_ticker], but give a margin of zero. *)
Theorem first_order_needs_finite_price (w w2 : world St) (price : float)
    (margin : Z) :
  reaches_first_order w price margin w2 ->
  exists m e, Prim2SF price = S754_finite false m e.
Proof.
  intros (w1 & wm & E & Em & Hm & _).
  destruct (get_ticker_run w) as (o & w1' & E' & _ & Hp).
  rewrite E in E'. injection E' as <- <-.
  destruct (float_not_le_shape price (Hp price eq_refl)) as [Hn | [Hi | Hf]];
    [| | exact Hf].
  - destruct (usd_to_sats_no_margin price w1 (or_introl Hn)) as (w' & E0 & _).
    rewrite Em in E0. injection E0 as -> _. lia.
  - destruct (usd_to_sats_no_margin price w1 (or_intror Hi)) as (w' & E0 & _).
    rewrite Em in E0. injection E0 as -> _. lia.
Qed.

(** X3.  [get_ticker] returns the converted price exactly when the test
    [price <= 0] is false, which it is for NaN too: a [lastPrice] of NaN is
    returned as the price, and [main] then stops at the margin check
    without any order. *)
Theorem nan_price_passes_get_ticker (direct : bool) (w : world St) :
  let answer := fst (futures_get_ticker (venue w)) in
  let w1 := after_call EvGetTicker futures_get_ticker w in
  forall resp ticker w2 last price,
    answer = Ok resp -> parse_response resp w1 = (Ok ticker, w2) ->
    Py.get ticker "lastPrice" (PyInt 0) = Ok last ->
    py_float last = Ok price ->
    (PrimFloat.leb price 0%float = false ->
       get_ticker w = (Ok (Some price), w2)) /\
    (Prim2SF price = S754_nan ->
       get_ticker w = (Ok (Some price), w2) /\
       main_with direct w =
         (Ok tt,
          extend w2
            [EvLog ERROR "Fout in usd_to_sats: %s" [AExn ValueError];
             EvLog ERROR "Ongeldige margin berekend. Script wordt beëindigd." []])).
Proof.
  cbv zeta. intros resp ticker w2 last price Ha Hparse Hl Hf.
  assert (Hget : PrimFloat.leb price 0 = false ->
                 get_ticker w = (Ok (Some price), w2)).
  { intros Hle. unfold get_ticker. run_script. rewrite call_run.
    rewrite Ha, Hparse, Hl, Hf, Hle. reflexivity. }
  split; [exact Hget |].
  intros Hn.
  assert (Hle : PrimFloat.leb price 0 = false).
  { rewrite FloatAxioms.leb_spec, Hn. reflexivity. }
  split; [now apply Hget |].
  assert (Hz : PrimFloat.eqb price 0%float = false).
  { rewrite FloatAxioms.eqb_spec, Hn. reflexivity. }
  assert (Em : usd_to_sats (PyInt 5) (PyFloat price) w2 =
               (Ok 0, extend w2 [EvLog ERROR "Fout in usd_to_sats: %s"
                                   [AExn ValueError]])).
  { unfold usd_to_sats, try_except, bind, lift, ret.
    assert (Hq : Py.truediv (PyInt 5) (PyFloat price) = Ok (5 / price)%float).
    { unfold Py.truediv. simpl.
      replace (Py.float_of_int 5) with (Ok 5%float : result float) by reflexivity.
      simpl. now rewrite Hz. }
    rewrite Hq. unfold Py.round.
    rewrite FloatAxioms.mul_spec, FloatAxioms.div_spec, Hn. reflexivity. }
  rewrite (main_margin_invalid direct w w2 _ price 0 (Hget Hle) Em ltac:(lia)).
  now rewrite extend_extend.
Qed.

(** The calls of a run under either policy, with the margin of its orders
    and the prices of its limit order: an initial segment of the outline of
    the policy, a margin above zero as soon as an order is among them, and
    a limit price and take-profit computed from the ticker price when the
    outline is complete. *)
Lemma main_calls_with_margin (direct : bool) (w : world St) :
  exists n margin tp update lp ltp,
    let outline := if direct then direct_outline margin tp lp ltp
                   else deferred_outline margin update lp ltp in
    calls (trace (snd (main_with direct w))) =
      calls (trace w) ++ firstn n outline /\
    (1 <= n)%nat /\
    ((2 <= n)%nat -> 0 < margin) /\
    ((List.length outline <= n)%nat ->
       exists price w1,
         get_ticker w = (Ok (Some price), w1) /\
         Py.round (price - 100)%float = Ok lp /\
         one_percent_above (PyInt lp) = Ok ltp).
Proof.
  cbv zeta.
  destruct (main_first_stage direct w)
    as [(w' & -> & Hc) | (price & margin & w2 & Hr & Hc2)].
  { exists 1%nat, 0, 0, None, 0, 0.
    split; [destruct direct; outline_norm |]. split; [lia |]. split; [lia |].
    destruct direct; cbn; lia. }
  assert (Hm : 0 < margin) by (destruct Hr as (? & ? & _ & _ & Hm & _); exact Hm).
  destruct (reaches_first_order_price _ _ _ _ Hr) as [w1 Eprice].
  destruct (main_second_stage direct w w2 price margin Hr)
    as [(w' & -> & Hc) | (w3 & Hr3 & Hc3)].
  { exists 2%nat, margin, 0, None, 0, 0.
    split; [destruct direct; outline_norm |]. split; [lia |].
    split; [intros _; exact Hm |]. destruct direct; cbn; lia. }
  rewrite (main_at_second_order direct w w3 price margin Hr3).
  unfold main_from_second_order, second_order_step.
  destruct direct.
  - destruct (second_order_direct_calls price margin w3)
      as (r & w4 & tp & k & E2 & Hc4 & Hk & Htp & Hr4).
    rewrite (bind_run _ _ _ _ _ E2).
    destruct r as [o |].
    + destruct (Hr4 o eq_refl) as [-> Hid].
      destruct (main_limit_step_calls price margin o w4 Hid)
        as (r & w5 & j & lp & ltp & -> & Hc5 & Hj & Hlp & _).
      exists (4 + j)%nat, margin, tp, None, lp, ltp. split.
      * destruct j as [| [| [| j]]]; try lia; outline_norm.
      * split; [lia |]. split; [intros _; exact Hm |].
        cbn. intros Hn. exists price, w1. split; [exact Eprice |].
        apply Hlp. lia.
    + exists (3 + k)%nat, margin, tp, None, 0, 0. split.
      * destruct k as [| [| k]]; try lia; outline_norm.
      * split; [lia |]. split; [intros _; exact Hm |]. cbn. lia.
  - destruct (second_order_deferred_calls margin w3)
      as (r & w4 & update & E2 & Hc4 & Hr4).
    rewrite (bind_run _ _ _ _ _ E2).
    destruct r as [o |].
    + destruct (main_limit_step_calls price margin o w4 (Hr4 o eq_refl))
        as (r & w5 & j & lp & ltp & -> & Hc5 & Hj & Hlp & _).
      destruct update as [params |].
      * exists (5 + j)%nat, margin, 0, (Some params), lp, ltp.
        split; [| split; [lia | split; [intros _; exact Hm |]]].
        -- destruct j as [| [| [| j]]]; try lia; outline_norm.
        -- cbn. intros Hn. exists price, w1. split; [exact Eprice |].
           apply Hlp. lia.
      * exists (4 + j)%nat, margin, 0, None, lp, ltp.
        split; [| split; [lia | split; [intros _; exact Hm |]]].
        -- destruct j as [| [| [| j]]]; try lia; outline_norm.
        -- cbn. intros Hn. exists price, w1. split; [exact Eprice |].
           apply Hlp. lia.
    + destruct update as [params |].
      * exists 5%nat, margin, 0, (Some params), 0, 0.
        split; [outline_norm | split; [lia | split; [intros _; exact Hm |]]].
        cbn. lia.
      * exists 4%nat, margin, 0, None, 0, 0.
        split; [outline_norm | split; [lia | split; [intros _; exact Hm |]]].
        cbn. lia.
Qed.

(** X4.  Every order a run sends, under either policy, is a buy order with
    leverage 1 and one and the same margin, an integer above zero: [main]
    never sends an order with a margin of zero or below. *)
Theorem every_order_has_positive_margin (direct : bool) (w : world St) :
  exists done margin,
    calls (trace (snd (main_with direct w))) = calls (trace w) ++ done /\
    0 < margin /\
    forall params,
      In (EvNewTrade params) done ->
      Py.get params "margin" PyNone = Ok (PyInt margin) /\
      Py.get params "leverage" PyNone = Ok (PyInt 1) /\
      Py.get params "side" PyNone = Ok (PyStr "b") /\
      (Py.get params "type" PyNone = Ok (PyStr "m") \/
       Py.get params "type" PyNone = Ok (PyStr "l")).
Proof.
  destruct (main_calls_with_margin direct w)
    as (n & margin & tp & update & lp & ltp & Hc & Hn & Hm & _).
  destruct (Nat.le_gt_cases 2 n) as [H2 | H2].
  - eexists _, margin. split; [exact Hc |]. split; [now apply Hm |].
    intros params Hin. apply in_firstn in Hin.
    destruct direct.
    + unfold direct_outline in Hin. simpl in Hin.
      repeat destruct Hin as [Hin | Hin]; try discriminate Hin; try tauto;
        injection Hin as <-; cbn; auto.
    + unfold deferred_outline in Hin. destruct update; simpl in Hin;
        repeat destruct Hin as [Hin | Hin]; try discriminate Hin; try tauto;
        injection Hin as <-; cbn; auto.
  - assert (n = 1%nat) as -> by lia.
    eexists _, 1. split; [exact Hc |]. split; [lia |].
    intros params Hin. exfalso.
    destruct direct; [| destruct update]; simpl in Hin;
      destruct Hin as [Hin | []]; discriminate Hin.
Qed.

(** A run asks for the ticker once, before anything else. *)
Lemma main_one_ticker_call (direct : bool) (w : world St) :
  exists done,
    calls (trace (snd (main_with direct w))) = calls (trace w) ++ done /\
    List.length (filter is_get_ticker done) = 1%nat.
Proof.
  destruct (main_calls_with_margin direct w)
    as (n & margin & tp & update & lp & ltp & Hc & Hn & _).
  cbv zeta in Hc. eexists. split; [exact Hc |].
  destruct n as [| n]; [lia |].
  destruct direct; [| destruct update];
    do 7 (destruct n as [| n]; [reflexivity |]); reflexivity.
Qed.

(** X5.  What a run can do at most: its first call is the one ticker call
    it makes, it places at most three orders and sleeps at most twice, it
    makes at most one update call, and none under the direct policy. *)
Theorem main_call_budget (direct : bool) (w : world St) :
  exists done,
    calls (trace (snd (main_with direct w))) = calls (trace w) ++ done /\
    hd_error done = Some EvGetTicker /\
    List.length (filter is_get_ticker done) = 1%nat /\
    (List.length (filter is_new_trade done) <= 3)%nat /\
    (List.length (filter is_sleep done) <= 2)%nat /\
    (List.length (filter is_update_trade done) <= if direct then 0 else 1)%nat.
Proof.
  destruct (main_calls_with_margin direct w)
    as (n & margin & tp & update & lp & ltp & Hc & Hn & _).
  cbv zeta in Hc. eexists. split; [exact Hc |].
  destruct n as [| n]; [lia |].
  destruct direct.
  - do 6 (destruct n as [| n]; [cbn; repeat split; lia |]).
    cbn. repeat split; lia.
  - destruct update;
      do 7 (destruct n as [| n]; [cbn; repeat split; lia |]);
      cbn; repeat split; lia.
Qed.

Lemma lookup_setitem_same (key : string) (v : value)
    (fields : list (string * value)) :
  Py.lookup key (Py.setitem key v fields) = Some v.
Proof.
  induction fields as [| [k old] rest IH]; simpl.
  - now rewrite String.eqb_refl.
  - destruct (String.eqb k key) eqn:E; simpl; rewrite E; [reflexivity | exact IH].
Qed.

Lemma lookup_setitem_other (key other : string) (v : value)
    (fields : list (string * value)) :
  other <> key ->
  Py.lookup other (Py.setitem key v fields) = Py.lookup other fields.
Proof.
  intros Hne. induction fields as [| [k old] rest IH]; simpl.
  - destruct (String.eqb key other) eqn:E; [| reflexivity].
    apply String.eqb_eq in E. congruence.
  - destruct (String.eqb k key) eqn:E; simpl.
    + apply String.eqb_eq in E. subst k.
      destruct (String.eqb key other) eqn:E'; [| reflexivity].
      apply String.eqb_eq in E'. congruence.
    + now rewrite IH.
Qed.

(** X6.  The request of a placement carries [takeprofit] exactly when the
    argument is not [None], and then with the value given: a missing
    take-profit is left out of the request, not sent as a null.  The other
    fields are the same with and without it, and a limit request differs
    from a market request by its type and its price. *)
Theorem request_fields (margin_sats leverage price takeprofit : value) :
  exists market limit,
    market_params margin_sats leverage takeprofit = PyDict market /\
    limit_params margin_sats leverage price takeprofit = PyDict limit /\
    Py.lookup "takeprofit" market =
      match takeprofit with PyNone => None | _ => Some takeprofit end /\
    Py.lookup "takeprofit" limit =
      match takeprofit with PyNone => None | _ => Some takeprofit end /\
    (forall key,
        key <> "takeprofit" ->
        Py.lookup key market =
          Py.lookup key
            [("type", PyStr "m"); ("side", PyStr "b");
             ("margin", margin_sats); ("leverage", leverage)] /\
        Py.lookup key limit =
          Py.lookup key
            [("type", PyStr "l"); ("side", PyStr "b");
             ("margin", margin_sats); ("leverage", leverage); ("price", price)]).
Proof.
  unfold market_params, limit_params, with_takeprofit.
  destruct takeprofit; eexists _, _;
    (split; [reflexivity |]); (split; [reflexivity |]);
    (split; [first [reflexivity | apply lookup_setitem_same] |]);
    (split; [first [reflexivity | apply lookup_setitem_same] |]);
    intros key Hkey;
    split; first [reflexivity | now apply lookup_setitem_other].
Qed.

(** X7.  Under the direct policy, when the accepted second order has no
    ["entry_price"], the pre-trade price stands in for it: the target
    logged as ideal is the very take-profit that was sent, and nothing is
    raised. *)
Theorem direct_without_entry_price (price : float) (margin tp : Z)
    (w3 w4 : world St) (fields : list (string * value)) :
  Py.round (price * 1.01)%float = Ok tp ->
  place_market_buy_order (PyInt margin) (PyInt 1) (PyInt tp)
    (extend w3
       [EvLog INFO
          "Take-profit direct ingesteld op %.0f (1%% boven geschatte marktprijs %.2f)"
          [AVal (PyInt tp); AVal (PyFloat price)]])
    = (Ok (Some (PyDict fields)), w4) ->
  Py.lookup "entry_price" fields = None ->
  second_order_direct price margin w3 =
    (Ok (Some (PyDict fields)),
     extend w4
       [EvLog INFO
          "Werkelijke entry_price: %.2f, geschatte take-profit: %.0f, ideale take-profit: %.0f"
          [AVal (PyFloat price); AVal (PyInt tp); AVal (PyInt tp)]]).
Proof.
  intros Etp Ep Hl.
  assert (Eg : Py.get (PyDict fields) "entry_price" (PyFloat price)
               = Ok (PyFloat price)) by (unfold Py.get; now rewrite Hl).
  rewrite (second_order_direct_accepted price margin tp w3 w4 _ _ Etp Ep Eg).
  unfold one_percent_above, Py.mul_float. simpl. now rewrite Etp.
Qed.

(** X8.  [main] is not free of exceptions.  Under either policy, a second
    order accepted with an ["entry_price"] that is no number (a string, a
    null under the direct policy) makes [main] raise [TypeError] in the
    world that order left: the order is placed, and no delay, no update
    call and no limit order follow. *)
Theorem entry_price_not_a_number_escapes (w w3 w4 : world St) (price : float)
    (margin : Z) (order entry : value) :
  reaches_second_order w price margin w3 ->
  Py.is_number entry = false ->
  (forall tp,
      Py.round (price * 1.01)%float = Ok tp ->
      place_market_buy_order (PyInt margin) (PyInt 1) (PyInt tp)
        (extend w3
           [EvLog INFO
              "Take-profit direct ingesteld op %.0f (1%% boven geschatte marktprijs %.2f)"
              [AVal (PyInt tp); AVal (PyFloat price)]])
        = (Ok (Some order), w4) ->
      Py.get order "entry_price" (PyFloat price) = Ok entry ->
      main_with true w = (Raise TypeError, w4)) /\
  (place_market_buy_order (PyInt margin) (PyInt 1) PyNone w3
     = (Ok (Some order), w4) ->
   Py.get order "entry_price" PyNone = Ok entry ->
   Py.truthy entry = true ->
   main_with false w = (Raise TypeError, w4)).
Proof.
  intros Hr Hnum. pose proof (one_percent_above_not_number entry Hnum) as Eone.
  split.
  - intros tp Etp Ep Eg.
    rewrite (main_at_second_order true w w3 price margin Hr).
    unfold main_from_second_order, second_order_step.
    pose proof (second_order_direct_accepted price margin tp w3 w4 order entry
                  Etp Ep Eg) as E2.
    rewrite Eone in E2. now rewrite (bind_run _ _ _ _ _ E2).
  - intros Ep Eg Et.
    rewrite (main_at_second_order false w w3 price margin Hr).
    unfold main_from_second_order, second_order_step.
    pose proof (second_order_deferred_accepted margin w3 w4 order entry Ep Eg) as E2.
    rewrite Et, Eone in E2. now rewrite (bind_run _ _ _ _ _ E2).
Qed.

(** What [parse_response] adds to the trace: nothing, or one error record
    together with the empty record as its result. *)
Lemma parse_response_log (response : value) (w : world St) :
  exists v evs,
    parse_response response w = (Ok v, extend w evs) /\
    (evs = [] \/
     (v = PyDict [] /\ exists e, evs = [EvLog ERROR "Fout bij parsen response: %s"
                                        [AExn e]])).
Proof.
  unfold parse_response.
  destruct (Py.is_dict_or_list response).
  - exists response, []. rewrite extend_nil. auto.
  - unfold try_except, lift. destruct (json_loads response) as [v | e].
    + exists v, []. rewrite extend_nil. auto.
    + eexists _, [_]. split; [reflexivity |]. right. eauto.
Qed.

Ltac trace_norm :=
  unfold extend, after_call; cbn [trace venue];
  rewrite <- ?app_assoc; cbn [app]; try reflexivity.

(** X14.  Failure and error record go together in the helpers: the result
    of [get_ticker] and of the two placement functions is [None] exactly
    when the call added an error record to the log, and [usd_to_sats] adds
    one only when it returns 0.  Each of them only adds to the trace. *)
Theorem failure_is_logged (w : world St) :
  (forall o w',
      get_ticker w = (Ok o, w') ->
      exists evs,
        trace w' = trace w ++ evs /\
        existsb is_error evs = match o with None => true | Some _ => false end) /\
  (forall margin_sats leverage takeprofit o w',
      place_market_buy_order margin_sats leverage takeprofit w = (Ok o, w') ->
      exists evs,
        trace w' = trace w ++ evs /\
        existsb is_error evs = match o with None => true | Some _ => false end) /\
  (forall margin_sats leverage price takeprofit o w',
      place_limit_buy_order margin_sats leverage price takeprofit w = (Ok o, w') ->
      exists evs,
        trace w' = trace w ++ evs /\
        existsb is_error evs = match o with None => true | Some _ => false end) /\
  (forall usd_amount btc_price n w',
      usd_to_sats usd_amount btc_price w = (Ok n, w') ->
      exists evs,
        trace w' = trace w ++ evs /\
        (existsb is_error evs = true -> n = 0) /\
        (n <> 0 -> evs = [])).
Proof.
  split; [| split; [| split]].
  - intros o w'. unfold get_ticker. run_script. rewrite call_run.
    destruct (fst (futures_get_ticker (venue w))) as [resp | e].
    + destruct (parse_response_log resp (after_call EvGetTicker futures_get_ticker w))
        as (ticker & evs & -> & Hevs).
      destruct Hevs as [-> | (-> & e & ->)].
      * destruct (Py.get ticker "lastPrice" (PyInt 0)) as [last | e];
          [destruct (py_float last) as [price | e];
           [destruct (PrimFloat.leb price 0) |] |];
          intros [= <- <-]; eexists; (split; [trace_norm | reflexivity]).
      * simpl. replace (py_float (PyInt 0)) with (Ok 0%float : result float)
          by reflexivity.
        replace (PrimFloat.leb 0 0) with true by reflexivity.
        intros [= <- <-]. eexists. split; [trace_norm | reflexivity].
    + intros [= <- <-]. eexists. split; [trace_norm | reflexivity].
  - intros margin_sats leverage takeprofit o w'.
    unfold place_market_buy_order. run_script. rewrite call_run.
    match goal with
    | |- context [fst (?op ?v)] => destruct (fst (op v)) as [resp | e]
    end.
    + match goal with
      | |- context [parse_response resp ?w1] =>
          destruct (parse_response_log resp w1) as (order & evs & -> & Hevs)
      end.
      destruct Hevs as [-> | (-> & e & ->)].
      * destruct (Py.get order "id" PyNone) as [id | e];
          [destruct (Py.truthy id) |];
          intros [= <- <-]; eexists; (split; [trace_norm | reflexivity]).
      * simpl. intros [= <- <-]. eexists. split; [trace_norm | reflexivity].
    + intros [= <- <-]. eexists. split; [trace_norm | reflexivity].
  - intros margin_sats leverage price takeprofit o w'.
    unfold place_limit_buy_order. run_script. rewrite call_run.
    match goal with
    | |- context [fst (?op ?v)] => destruct (fst (op v)) as [resp | e]
    end.
    + match goal with
      | |- context [parse_response resp ?w1] =>
          destruct (parse_response_log resp w1) as (order & evs & -> & Hevs)
      end.
      destruct Hevs as [-> | (-> & e & ->)].
      * destruct (Py.get order "id" PyNone) as [id | e];
          [destruct (Py.truthy id) |];
          intros [= <- <-]; eexists; (split; [trace_norm | reflexivity]).
      * simpl. intros [= <- <-]. eexists. split; [trace_norm | reflexivity].
    + intros [= <- <-]. eexists. split; [trace_norm | reflexivity].
  - intros usd_amount btc_price n w'.
    unfold usd_to_sats. run_script.
    destruct (Py.truediv usd_amount btc_price) as [q | e];
      [destruct (Py.round (q * 1e8)) as [k | e] |];
      intros [= <- <-].
    + exists []. split; [now rewrite app_nil_r |]. split; [discriminate | reflexivity].
    + eexists. split; [reflexivity |]. split; [reflexivity | congruence].
    + eexists. split; [reflexivity |]. split; [reflexivity | congruence].
Qed.

(** X15.  What the helpers ask of the venue: [get_ticker] makes one ticker
    call, each placement function one order call with the request it
    built, whatever the answer; [parse_response] and [usd_to_sats] make no
    call and leave the venue as it is. *)
Theorem helper_calls (w : world St) :
  (exists o w',
      get_ticker w = (Ok o, w') /\
      calls (trace w') = calls (trace w) ++ [EvGetTicker]) /\
  (forall margin_sats leverage takeprofit,
      exists o w',
        place_market_buy_order margin_sats leverage takeprofit w = (Ok o, w') /\
        calls (trace w') =
          calls (trace w)
          ++ [EvNewTrade (market_params margin_sats leverage takeprofit)]) /\
  (forall margin_sats leverage price takeprofit,
      exists o w',
        place_limit_buy_order margin_sats leverage price takeprofit w = (Ok o, w') /\
        calls (trace w') =
          calls (trace w)
          ++ [EvNewTrade (limit_params margin_sats leverage price takeprofit)]) /\
  (forall response,
      exists v w',
        parse_response response w = (Ok v, w') /\
        venue w' = venue w /\ calls (trace w') = calls (trace w)) /\
  (forall usd_amount btc_price,
      exists n w',
        usd_to_sats usd_amount btc_price w = (Ok n, w') /\
        venue w' = venue w /\ calls (trace w') = calls (trace w)).
Proof.
  split; [| split; [| split; [| split]]].
  - destruct (get_ticker_run w) as (o & w' & E & Hc & _). eauto.
  - intros m l tp.
    destruct (place_market_buy_order_run m l tp w) as (o & w' & E & Hc & _). eauto.
  - intros m l pr tp.
    destruct (place_limit_buy_order_run m l pr tp w) as (o & w' & E & Hc & _). eauto.
  - intros response.
    destruct (parse_response_run response w) as (v & evs & E & Hevs).
    eexists _, _. split; [exact E |]. split; [reflexivity | calls_norm].
  - intros usd_amount btc_price.
    destruct (usd_to_sats_run usd_amount btc_price w) as (n & evs & E & Hevs).
    eexists _, _. split; [exact E |]. split; [reflexivity | calls_norm].
Qed.

(** X16.  Whenever a run places its limit order, under either policy, the
    price of that order is the rounded ticker price less 100 and its
    take-profit the rounded 1.01-fold of that limit price, both integers.
    The first order never carries a take-profit, and under the deferred
    policy the second carries none either. *)
Theorem limit_order_prices (direct : bool) (w : world St) :
  exists n margin tp update lp ltp,
    let outline := if direct then direct_outline margin tp lp ltp
                   else deferred_outline margin update lp ltp in
    calls (trace (snd (main_with direct w))) =
      calls (trace w) ++ firstn n outline /\
    ((List.length outline <= n)%nat ->
       exists price w1,
         get_ticker w = (Ok (Some price), w1) /\
         Py.round (price - 100)%float = Ok lp /\
         one_percent_above (PyInt lp) = Ok ltp /\
         last outline EvGetTicker =
           EvNewTrade
             (PyDict [("type", PyStr "l"); ("side", PyStr "b");
                      ("margin", PyInt margin); ("leverage", PyInt 1);
                      ("price", PyInt lp); ("takeprofit", PyInt ltp)])) /\
    nth_error outline 1 =
      Some (EvNewTrade
              (PyDict [("type", PyStr "m"); ("side", PyStr "b");
                       ("margin", PyInt margin); ("leverage", PyInt 1)])) /\
    (direct = false ->
     nth_error outline 3 =
       Some (EvNewTrade
               (PyDict [("type", PyStr "m"); ("side", PyStr "b");
                        ("margin", PyInt margin); ("leverage", PyInt 1)]))).
Proof.
  destruct (main_calls_with_margin direct w)
    as (n & margin & tp & update & lp & ltp & Hc & _ & _ & Hlimit).
  cbv zeta in Hc, Hlimit.
  exists n, margin, tp, update, lp, ltp. cbv zeta.
  split; [exact Hc |]. split; [| split].
  - intros Hn. destruct (Hlimit Hn) as (price & w1 & E & Elp & Eltp).
    exists price, w1. repeat split; try assumption.
    destruct direct; [| destruct update]; reflexivity.
  - destruct direct; reflexivity.
  - intros ->. reflexivity.
Qed.

End Properties.

(** ** Startup and the whole script *)

Lemma filter_ticker_calls (t : list event) :
  List.length (filter is_ticker_call (map Boot t)) =
  List.length (filter is_get_ticker (calls t)).
Proof.
  induction t as [| e t IH]; [reflexivity |].
  destruct e; simpl; try exact IH. now rewrite IH.
Qed.

Section StartupProperties.

Context {St : Type} `{LNMarketsRest St} `{Host St} `{Builtins}.

Lemma credential_resolves (fields : list (string * value)) (key name : string)
    (v : value) :
  resolves fields key name v -> credential (PyDict fields) key name = Ok v.
Proof.
  unfold resolves, credential, py_or. simpl.
  destruct (Py.lookup key fields) as [c |]; simpl.
  - destruct (Py.truthy c); now intros ->.
  - now intros ->.
Qed.

(** X9.  For a configuration that is a record, each of the three
    credentials is the value of the configuration when that is there and
    true, and the value of the environment variable otherwise.  With three
    true credentials the client is built from them and the network
    ["mainnet"]; as soon as one is missing on both sides the startup logs
    the error and exits with status 1 without building a client. *)
Theorem startup_credentials (fields : list (string * value))
    (ln_key ln_secret ln_passphrase : value) :
  load_configuration = Ok (PyDict fields) ->
  resolves fields "key" "LN_KEY" ln_key ->
  resolves fields "secret" "LN_SECRET" ln_secret ->
  resolves fields "passphrase" "LN_PASSPHRASE" ln_passphrase ->
  (Py.truthy ln_key = true -> Py.truthy ln_secret = true ->
   Py.truthy ln_passphrase = true ->
   startup = initialise (options_of ln_key ln_secret ln_passphrase)) /\
  (Py.truthy ln_key = false \/ Py.truthy ln_secret = false \/
   Py.truthy ln_passphrase = false ->
   startup =
     ([Boot (EvLog ERROR
               "API-sleutels ontbreken! Controleer configuration.yml of .env." [])],
      Exit 1)).
Proof.
  intros Hload Hk Hs Hp. unfold startup. rewrite Hload.
  rewrite (credential_resolves _ _ _ _ Hk), (credential_resolves _ _ _ _ Hs),
    (credential_resolves _ _ _ _ Hp).
  unfold py_all. simpl. split.
  - intros -> -> ->. reflexivity.
  - intros [-> | [-> | ->]]; simpl; rewrite ?andb_false_r; reflexivity.
Qed.

(** X10.  Only the loading of the file is guarded: a configuration that
    loads but is no record (an empty file gives [None], a YAML list gives a
    list) makes the startup end in an uncaught [AttributeError], with no
    error record and no client. *)
Theorem startup_config_not_a_record (config : value) :
  load_configuration = Ok config ->
  (forall fields, config <> PyDict fields) ->
  startup = ([], Uncaught AttributeError).
Proof.
  intros Hload Hrec. unfold startup. rewrite Hload.
  destruct config; try reflexivity. now elim (Hrec fields).
Qed.

(** The events of a startup that succeeded. *)
Lemma startup_ready_events (evs : list boot_event) (lnm : St) :
  startup = (evs, Ready lnm) ->
  exists options test_response,
    evs = [BootClient options; Boot EvGetTicker;
           Boot (EvLog INFO "Verbinding met LN Markets gelukt. Ticker: %s"
                   [AVal test_response])].
Proof.
  unfold startup, initialise.
  destruct load_configuration as [config | e]; [| discriminate].
  destruct (credential config "key" "LN_KEY") as [k | e]; [| discriminate].
  destruct (credential config "secret" "LN_SECRET") as [s | e]; [| discriminate].
  destruct (credential config "passphrase" "LN_PASSPHRASE") as [p | e];
    [| discriminate].
  destruct (negb (py_all [k; s; p])); [discriminate |].
  destruct (new_client (options_of k s p)) as [lnm0 | e]; [| discriminate].
  destruct (futures_get_ticker lnm0) as [[resp | e] lnm']; [| discriminate].
  intros [= <- <-]. now eexists _, _.
Qed.

(** X11.  A startup that hands a client to [main] has loaded a
    configuration, found three true credentials, built the client once
    from them and ["mainnet"], and made one ticker call that answered: its
    events are the construction, the call and one info record. *)
Theorem startup_ready (evs : list boot_event) (lnm : St) :
  startup = (evs, Ready lnm) ->
  exists config ln_key ln_secret ln_passphrase lnm0 test_response,
    load_configuration = Ok config /\
    credential config "key" "LN_KEY" = Ok ln_key /\
    credential config "secret" "LN_SECRET" = Ok ln_secret /\
    credential config "passphrase" "LN_PASSPHRASE" = Ok ln_passphrase /\
    Py.truthy ln_key = true /\ Py.truthy ln_secret = true /\
    Py.truthy ln_passphrase = true /\
    new_client (options_of ln_key ln_secret ln_passphrase) = Ok lnm0 /\
    futures_get_ticker lnm0 = (Ok test_response, lnm) /\
    evs = [BootClient (options_of ln_key ln_secret ln_passphrase);
           Boot EvGetTicker;
           Boot (EvLog INFO "Verbinding met LN Markets gelukt. Ticker: %s"
                   [AVal test_response])].
Proof.
  unfold startup, initialise.
  destruct load_configuration as [config | e] eqn:Hload; [| discriminate].
  destruct (credential config "key" "LN_KEY") as [k | e] eqn:Ek; [| discriminate].
  destruct (credential config "secret" "LN_SECRET") as [s | e] eqn:Es;
    [| discriminate].
  destruct (credential config "passphrase" "LN_PASSPHRASE") as [p | e] eqn:Ep;
    [| discriminate].
  destruct (py_all [k; s; p]) eqn:Hall; [| discriminate]. simpl.
  destruct (new_client (options_of k s p)) as [lnm0 | e] eqn:Hnew; [| discriminate].
  destruct (futures_get_ticker lnm0) as [[resp | e] lnm'] eqn:Ht; [| discriminate].
  intros [= <- <-].
  unfold py_all in Hall. simpl in Hall.
  apply andb_prop in Hall as [Hk Hall]. apply andb_prop in Hall as [Hs Hall].
  apply andb_prop in Hall as [Hp _].
  exists config, k, s, p, lnm0, resp. repeat split; assumption || reflexivity.
Qed.

(** A startup that exits does so with status 1 and has placed no order;
    so has one that ends in an uncaught exception. *)
Lemma startup_exit (evs : list boot_event) (code : Z) :
  startup = (evs, Exit code) -> code = 1 /\ existsb is_order evs = false.
Proof.
  unfold startup, initialise.
  destruct load_configuration as [config | e]; [| now intros [= <- <-]].
  destruct (credential config "key" "LN_KEY") as [k | e]; [| discriminate].
  destruct (credential config "secret" "LN_SECRET") as [s | e]; [| discriminate].
  destruct (credential config "passphrase" "LN_PASSPHRASE") as [p | e];
    [| discriminate].
  destruct (negb (py_all [k; s; p])); [now intros [= <- <-] |].
  destruct (new_client (options_of k s p)) as [lnm0 | e]; [| now intros [= <- <-]].
  destruct (futures_get_ticker lnm0) as [[resp | e] lnm']; [discriminate |].
  now intros [= <- <-].
Qed.

Lemma startup_uncaught (evs : list boot_event) (e : exn) :
  startup = (evs, Uncaught e) -> evs = [].
Proof.
  unfold startup, initialise.
  destruct load_configuration as [config | e0]; [| discriminate].
  destruct (credential config "key" "LN_KEY") as [k | e1]; [| now intros [= <- _]].
  destruct (credential config "secret" "LN_SECRET") as [s | e2];
    [| now intros [= <- _]].
  destruct (credential config "passphrase" "LN_PASSPHRASE") as [p | e3];
    [| now intros [= <- _]].
  destruct (negb (py_all [k; s; p])); [discriminate |].
  destruct (new_client (options_of k s p)) as [lnm0 | e4]; [| discriminate].
  destruct (futures_get_ticker lnm0) as [[resp | e5] lnm']; discriminate.
Qed.

(** X12.  The script ends through [sys.exit] only in the startup, always
    with status 1 and before any order is placed.  Once the startup has
    handed a client to [main] and [main] returns, the script runs to its
    end with status 0, whether [main] placed its orders or stopped at a
    failed step: the exit status does not tell the two apart. *)
Theorem script_exit_status (evs : list boot_event) (code : Z) :
  script = (evs, Exited code) ->
  (code = 1 /\ startup = (evs, Exit 1) /\ existsb is_order evs = false) \/
  (code = 0 /\
   exists sevs lnm w,
     startup = (sevs, Ready lnm) /\
     main (World lnm []) = (Ok tt, w) /\
     evs = sevs ++ map Boot (trace w)).
Proof.
  unfold script.
  destruct startup as [sevs [c | e | lnm]] eqn:Hs.
  - intros [= <- <-]. destruct (startup_exit sevs c Hs) as [-> Hno].
    left. now repeat split.
  - discriminate.
  - destruct (main (World lnm [])) as [[[] | e] w] eqn:Hm; [| discriminate].
    intros [= <- <-]. right. split; [reflexivity |].
    exists sevs, lnm, w. now repeat split.
Qed.

(** X13.  An order among the events of the script means that the startup
    succeeded; and a script whose startup succeeded calls the ticker
    exactly twice, once to try the client and once in [main], the first
    time before anything else is asked of the venue. *)
Theorem script_orders_need_startup (evs : list boot_event) (e : process_end) :
  script = (evs, e) ->
  (existsb is_order evs = true ->
   exists sevs lnm, startup = (sevs, Ready lnm)) /\
  (forall sevs lnm,
      startup = (sevs, Ready lnm) ->
      List.length (filter is_ticker_call evs) = 2%nat /\
      exists options rest,
        evs = BootClient options :: Boot EvGetTicker :: rest).
Proof.
  unfold script.
  destruct startup as [sevs [c | e0 | lnm]] eqn:Hs.
  - intros [= <- <-]. split.
    + destruct (startup_exit sevs c Hs) as [_ Hno]. congruence.
    + discriminate.
  - intros [= <- <-]. split; [| discriminate].
    rewrite (startup_uncaught sevs e0 Hs). discriminate.
  - destruct (main (World lnm [])) as [r w] eqn:Hm.
    intros [= <- <-]. split; [eauto |].
    intros sevs' lnm' [= <- <-].
    destruct (startup_ready_events sevs lnm Hs) as (options & resp & ->).
    split; [| eexists _, _; reflexivity].
    rewrite filter_app, length_app. simpl.
    rewrite filter_ticker_calls.
    destruct (main_one_ticker_call USE_DIRECT_TAKE_PROFIT (World lnm []))
      as (done & Hc & Hone).
    fold (@main St _ _) in Hc. rewrite Hm in Hc. simpl in Hc.
    now rewrite Hc, Hone.
Qed.

End StartupProperties.

(** * The theorems at work on the scripted venue *)

Import Fixtures.

(** A serialized document the decoder knows is decoded, a list comes back
    as it is, and a malformed string becomes the empty record. *)
Lemma parse_response_never_raises_witness :
  parse_response (PyList [PyInt 1]) offline = (Ok (PyList [PyInt 1]), offline) /\
  parse_response (PyStr "{}") offline = (Ok (PyDict []), offline) /\
  parse_response (PyStr "<html>") offline =
    (Ok (PyDict []),
     extend offline
       [EvLog ERROR "Fout bij parsen response: %s" [AExn (OtherError "JSONDecodeError")]]).
Proof.
  split; [| split].
  - apply (proj1 (proj2 (parse_response_never_raises (PyList [PyInt 1]) offline))).
    reflexivity.
  - apply (proj1 (proj2 (proj2 (parse_response_never_raises (PyStr "{}") offline))));
      reflexivity.
  - apply (proj2 (proj2 (proj2 (parse_response_never_raises (PyStr "<html>") offline))));
      reflexivity.
Defined.

(** 5 USD at 50000: 10000 satoshis; at a price of zero, and for a price
    that is no number: 0 and a logged error. *)
Lemma usd_to_sats_rounds_or_zero_witness :
  usd_to_sats (PyInt 5) (PyFloat 50000) offline = (Ok 10000, offline) /\
  Py.truediv (PyInt 5) (PyFloat 50000) <> Raise ZeroDivisionError /\
  Py.truediv (PyInt 5) (PyInt 50000) <> Raise ZeroDivisionError /\
  (exists e,
      usd_to_sats (PyInt 5) (PyFloat 0) offline =
        (Ok 0, extend offline [EvLog ERROR "Fout in usd_to_sats: %s" [AExn e]])) /\
  usd_to_sats (PyInt 5) (PyStr "50000") offline =
    (Ok 0, extend offline [EvLog ERROR "Fout in usd_to_sats: %s" [AExn TypeError]]).
Proof.
  split; [| split; [| split; [| split]]].
  - apply (proj1 (usd_to_sats_rounds_or_zero (PyInt 5) (PyFloat 50000) offline)
             0.0001%float 10000); vm_compute; reflexivity.
  - apply (proj1 (proj2 (usd_to_sats_rounds_or_zero (PyInt 5) (PyFloat 50000) offline))
             50000%float); [reflexivity | left; reflexivity].
  - apply (proj1 (proj2 (proj2
             (usd_to_sats_rounds_or_zero (PyInt 5) (PyInt 50000) offline)))
             5 50000); [reflexivity | reflexivity | lia].
  - apply (proj1 (proj2 (proj2 (proj2
             (usd_to_sats_rounds_or_zero (PyInt 5) (PyFloat 0) offline))))).
    reflexivity.
  - apply (proj1 (proj2 (proj2 (proj2 (proj2
             (usd_to_sats_rounds_or_zero (PyInt 5) (PyStr "50000") offline)))))).
    right. reflexivity.
Defined.

(** C1 as stated fails for a negative price: the division raises nothing,
    and 5 USD at -50000 come out as -10000, not 0. *)
Lemma usd_to_sats_negative_price :
  Py.negative (PyFloat (-50000)) = true /\
  usd_to_sats (PyInt 5) (PyFloat (-50000)) offline = (Ok (-10000), offline) /\
  fst (usd_to_sats (PyInt 5) (PyFloat (-50000)) offline) <> Ok 0.
Proof.
  split; [reflexivity |]. split; [vm_compute; reflexivity |].
  vm_compute. discriminate.
Qed.

(** Every scripted run whose ticker answers 50000 gets to the first order
    with a margin of 10000, and to the second order when the first one is
    accepted. *)
Lemma scripted_reaches_first_order (rest : scripted) :
  reaches_first_order (start (ticker_50000 :: rest)) 50000 10000
    (at_first_order (start (ticker_50000 :: rest))).
Proof.
  exists (snd (get_ticker (start (ticker_50000 :: rest)))),
         (snd (get_ticker (start (ticker_50000 :: rest)))).
  split; [reflexivity |]. split; [vm_compute; reflexivity |].
  split; [reflexivity | reflexivity].
Defined.

Lemma scripted_reaches_second_order (rest : scripted) :
  reaches_second_order (start (ticker_50000 :: Ok (order "t-1") :: rest)) 50000 10000
    (at_second_order (start (ticker_50000 :: Ok (order "t-1") :: rest))).
Proof.
  exists (at_first_order (start (ticker_50000 :: Ok (order "t-1") :: rest))),
         (order "t-1"),
         (snd (place_market_buy_order (PyInt 10000) (PyInt 1) PyNone
                 (at_first_order (start (ticker_50000 :: Ok (order "t-1") :: rest))))).
  split; [apply scripted_reaches_first_order |].
  split; [vm_compute; reflexivity | reflexivity].
Defined.

(** The string price ["50000"] is returned as [50000.0]; a price of zero
    and an unreachable venue give [None]. *)
Lemma get_ticker_price_or_none_witness :
  get_ticker scenario =
    (Ok (Some 50000%float), after_call EvGetTicker futures_get_ticker scenario) /\
  get_ticker zero_price =
    (Ok None,
     extend (after_call EvGetTicker futures_get_ticker zero_price)
       [EvLog ERROR "Fout bij ophalen ticker: %s" [AExn ValueError]]) /\
  get_ticker offline =
    (Ok None,
     extend (after_call EvGetTicker futures_get_ticker offline)
       [EvLog ERROR "Fout bij ophalen ticker: %s"
          [AExn (OtherError "ConnectionError")]]).
Proof.
  split; [| split].
  - pose proof (get_ticker_price_or_none scenario) as T. cbv zeta in T.
    destruct T as (_ & _ & _ & _ & _ & T).
    apply (T eq_refl (PyDict [("lastPrice", PyStr "50000")])
             [("lastPrice", PyStr "50000")]); reflexivity.
  - pose proof (get_ticker_price_or_none zero_price) as T. cbv zeta in T.
    destruct T as (_ & _ & T & _).
    apply (T (PyDict [("lastPrice", PyInt 0)]) [("lastPrice", PyInt 0)]);
      [reflexivity | reflexivity | right; reflexivity].
  - pose proof (get_ticker_price_or_none offline) as T. cbv zeta in T.
    destruct T as (_ & _ & _ & _ & T & _).
    apply T. reflexivity.
Defined.

(** An answer with an id is returned; an answer with other fields and no
    id, and a failing client, give [None]. *)
Lemma order_placement_requires_id_witness :
  (exists w',
      place_market_buy_order (PyInt 10000) (PyInt 1) PyNone
        (start [Ok (order "t-1")])
      = (Ok (Some (order "t-1")), w')) /\
  (exists w',
      place_limit_buy_order (PyInt 10000) (PyInt 1) (PyInt 49900) (PyInt 50399)
        (start [Ok (PyDict [("message", PyStr "rejected"); ("margin", PyInt 10000)])])
      = (Ok None, w')) /\
  (exists w',
      place_limit_buy_order (PyInt 10000) (PyInt 1) (PyInt 49900) (PyInt 50399) offline
      = (Ok None, w')).
Proof.
  split; [| split].
  - pose proof (proj1 (order_placement_requires_id (PyInt 10000) (PyInt 1) PyNone PyNone
                         (start [Ok (order "t-1")]))) as T.
    unfold placement_contract in T. cbv zeta in T.
    destruct T as (_ & _ & T & _).
    eapply (T (order "t-1") (order "t-1")); reflexivity.
  - pose proof (proj2 (order_placement_requires_id (PyInt 10000) (PyInt 1)
                         (PyInt 49900) (PyInt 50399)
                         (start [Ok (PyDict [("message", PyStr "rejected");
                                             ("margin", PyInt 10000)])]))) as T.
    unfold placement_contract in T. cbv zeta in T.
    destruct T as (_ & _ & _ & T & _).
    eapply (T (PyDict [("message", PyStr "rejected"); ("margin", PyInt 10000)])
              (PyDict [("message", PyStr "rejected"); ("margin", PyInt 10000)]));
      reflexivity.
  - pose proof (proj2 (order_placement_requires_id (PyInt 10000) (PyInt 1)
                         (PyInt 49900) (PyInt 50399) offline)) as T.
    unfold placement_contract in T. cbv zeta in T.
    destruct T as (_ & _ & _ & _ & T).
    eapply T. reflexivity.
Defined.

(** Each failing step ends the run on the scripted venue: no ticker, a
    margin of zero, a refused first, second and limit order. *)
Lemma main_stops_at_failed_step_witness :
  main offline =
    (Ok tt,
     extend (snd (get_ticker offline))
       [EvLog ERROR "Kan marktprijs niet ophalen. Script wordt beëindigd." []]) /\
  main infinite_price =
    (Ok tt,
     extend (snd (get_ticker infinite_price))
       [EvLog ERROR "Ongeldige margin berekend. Script wordt beëindigd." []]) /\
  main first_refused =
    (Ok tt,
     extend
       (snd (place_market_buy_order (PyInt 10000) (PyInt 1) PyNone
               (at_first_order first_refused)))
       [EvLog ERROR "Eerste order mislukt. Script wordt beëindigd." []]) /\
  main second_refused =
    (Ok tt,
     extend
       (snd (second_order_step true 50000 10000 (at_second_order second_refused)))
       [EvLog ERROR "Tweede order mislukt. Script wordt beëindigd." []]) /\
  second_order_step false 50000 10000 (at_second_order second_refused) =
    (Ok None,
     snd (place_market_buy_order (PyInt 10000) (PyInt 1) PyNone
            (at_second_order second_refused))) /\
  main limit_refused =
    (Ok tt,
     extend
       (snd (place_limit_buy_order (PyInt 10000) (PyInt 1) (PyInt 49900) (PyInt 50399)
               (extend
                  (snd (second_order_step true 50000 10000
                          (at_second_order limit_refused)))
                  [EvSleep REQUEST_DELAY;
                   EvLog INFO "Plaats test limiet kooporder voor $5 met hefboom 1" []])))
       [EvLog ERROR "Limietorder mislukt." []]).
Proof.
  split; [| split; [| split; [| split; [| split]]]].
  - apply (proj1 (main_stops_at_failed_step true offline)). reflexivity.
  - destruct (main_stops_at_failed_step true infinite_price) as (_ & T & _).
    apply (T infinity 0 (snd (get_ticker infinite_price))).
    + reflexivity.
    + vm_compute. reflexivity.
    + lia.
  - destruct (main_stops_at_failed_step true first_refused) as (_ & _ & T & _).
    apply (T 50000%float 10000 (at_first_order first_refused)).
    + apply scripted_reaches_first_order.
    + vm_compute. reflexivity.
  - destruct (main_stops_at_failed_step true second_refused) as (_ & _ & _ & T & T5 & _).
    apply (T 50000%float 10000 (at_second_order second_refused)
             (snd (second_order_step true 50000 10000 (at_second_order second_refused)))).
    + apply scripted_reaches_second_order.
    + apply (T5 50000%float 10000 50500 (at_second_order second_refused)
               (snd (second_order_step true 50000 10000
                       (at_second_order second_refused))));
        vm_compute; reflexivity.
  - destruct (main_stops_at_failed_step false second_refused)
      as (_ & _ & _ & _ & _ & T & _).
    apply T. vm_compute. reflexivity.
  - destruct (main_stops_at_failed_step true limit_refused)
      as (_ & _ & _ & _ & _ & _ & T).
    apply (T 50000%float 10000 (order "t-2") 49900 50399
             (at_second_order limit_refused)
             (snd (second_order_step true 50000 10000 (at_second_order limit_refused)))).
    + apply scripted_reaches_second_order.
    + vm_compute. reflexivity.
    + vm_compute. reflexivity.
    + vm_compute. reflexivity.
    + vm_compute. reflexivity.
Defined.

(** In the end-to-end run the second order is the fourth call and carries
    50500, no update call follows it, and the target from the entry price
    50010 is logged as 50510. *)
Lemma direct_take_profit_from_ticker_price_witness :
  (exists (w4 : world scripted) rest,
      calls (trace w4) =
        [EvGetTicker;
         EvNewTrade (market_params (PyInt 10000) (PyInt 1) PyNone);
         EvSleep REQUEST_DELAY;
         EvNewTrade (market_params (PyInt 10000) (PyInt 1) (PyInt 50500))] /\
      calls (trace (snd (main scenario))) = calls (trace w4) ++ rest /\
      (forall e, In e rest -> is_update_trade e = false)) /\
  second_order_direct 50000 10000 (at_second_order scenario) =
    (Ok (Some (PyDict [("id", PyStr "t-2"); ("entry_price", PyInt 50010)])),
     extend
       (snd (place_market_buy_order (PyInt 10000) (PyInt 1) (PyInt 50500)
               (extend (at_second_order scenario)
                  [EvLog INFO
                     "Take-profit direct ingesteld op %.0f (1%% boven geschatte marktprijs %.2f)"
                     [AVal (PyInt 50500); AVal (PyFloat 50000)]])))
       [EvLog INFO
          "Werkelijke entry_price: %.2f, geschatte take-profit: %.0f, ideale take-profit: %.0f"
          [AVal (PyInt 50010); AVal (PyInt 50500); AVal (PyInt 50510)]]).
Proof.
  destruct (direct_take_profit_from_ticker_price scenario) as (_ & _ & T3 & T4).
  split.
  - specialize (T3 50000%float 10000 (at_second_order scenario)
                  (scripted_reaches_second_order _)).
    destruct (Py.round (50000 * 1.01)%float) as [tp | e] eqn:E;
      vm_compute in E; [| discriminate E].
    injection E as <-. cbv zeta in T3.
    destruct T3 as (o & w4 & rest & _ & _ & Hc4 & Hc & Hrest & _).
    exists w4, rest. split; [exact Hc4 |]. split; [exact Hc |].
    intros e Hin. exact (proj1 (Hrest e Hin)).
  - apply (T4 50000%float 10000 50500 (at_second_order scenario) _ _ (PyInt 50010) 50510);
      vm_compute; reflexivity.
Defined.

(** Without entry price the deferred policy logs the error and hands the
    order on. *)
Lemma deferred_skips_update_without_entry_price_witness :
  second_order_deferred 10000 (at_second_order no_entry_price) =
    (Ok (Some (order "t-2")),
     extend
       (snd (place_market_buy_order (PyInt 10000) (PyInt 1) PyNone
               (at_second_order no_entry_price)))
       [EvLog ERROR "Entry_price niet gevonden voor tweede order." []]).
Proof.
  refine (proj1 (deferred_skips_update_without_entry_price
                   no_entry_price (at_second_order no_entry_price)
                   (snd (place_market_buy_order (PyInt 10000) (PyInt 1) PyNone
                           (at_second_order no_entry_price)))
                   50000%float 10000 [("id", PyStr "t-2")] _ _ _)).
  - apply scripted_reaches_second_order.
  - vm_compute. reflexivity.
  - reflexivity.
Defined.

(** The update call fails on the scripted venue, and the run still sleeps
    and places the limit order. *)
Lemma failed_take_profit_does_not_abort_witness :
  exists trade_id w5 w',
    set_take_profit trade_id (PyInt 50510)
      (extend
         (snd (place_market_buy_order (PyInt 10000) (PyInt 1) PyNone
                 (at_second_order update_fails)))
         [EvLog INFO "Take-profit ingesteld op %.0f (1%% boven entry_price %.2f)"
            [AVal (PyInt 50510); AVal (PyInt 50010)]])
      = (Ok tt, w5) /\
    main_with false update_fails = (Ok tt, w') /\
    calls (trace w') =
      calls (trace w5)
      ++ [EvSleep REQUEST_DELAY;
          EvNewTrade (limit_params (PyInt 10000) (PyInt 1) (PyInt 49900)
                        (PyInt 50399))].
Proof.
  pose proof (proj2 (failed_take_profit_does_not_abort update_fails)
                50000%float 10000 50510 (at_second_order update_fails)
                (snd (place_market_buy_order (PyInt 10000) (PyInt 1) PyNone
                        (at_second_order update_fails)))
                (PyDict [("id", PyStr "t-2"); ("entry_price", PyInt 50010)])
                (PyInt 50010)) as T.
  destruct T as (trade_id & w5 & _ & Es & _ & T).
  - apply scripted_reaches_second_order.
  - vm_compute. reflexivity.
  - reflexivity.
  - reflexivity.
  - vm_compute. reflexivity.
  - destruct (T 49900 50399) as (w' & Em & Hc).
    + vm_compute. reflexivity.
    + vm_compute. reflexivity.
    + exists trade_id, w5, w'. split; [exact Es |]. split; [exact Em | exact Hc].
Defined.

(** In the end-to-end run the delay follows the first and the second
    order.  Under the deferred policy it follows the update call, and the
    second order at once when that order has no entry price.  With the
    entry price as a string the run raises in the world the second order
    left, under either policy. *)
Lemma delay_follows_accepted_orders_witness :
  main_with true scenario =
    main_from_second_order true 50000 10000 (at_second_order scenario) /\
  (exists r w' rest,
      main_with true scenario = (r, w') /\
      calls (trace w') =
        calls (trace (snd (second_order_step true 50000 10000
                             (at_second_order scenario))))
        ++ EvSleep REQUEST_DELAY :: rest) /\
  (exists r w' rest,
      main_with true scenario = (r, w') /\
      calls (trace w') =
        calls (trace (snd (place_market_buy_order (PyInt 10000) (PyInt 1)
                             (PyInt 50500)
                             (extend (at_second_order scenario)
                                [EvLog INFO
                                   "Take-profit direct ingesteld op %.0f (1%% boven geschatte marktprijs %.2f)"
                                   [AVal (PyInt 50500); AVal (PyFloat 50000)]]))))
        ++ EvSleep REQUEST_DELAY :: rest) /\
  main_with true Hosts.string_entry_price =
    (Raise TypeError,
     snd (place_market_buy_order (PyInt 10000) (PyInt 1) (PyInt 50500)
            (extend (at_second_order Hosts.string_entry_price)
               [EvLog INFO
                  "Take-profit direct ingesteld op %.0f (1%% boven geschatte marktprijs %.2f)"
                  [AVal (PyInt 50500); AVal (PyFloat 50000)]]))) /\
  (exists r w' rest,
      main_with false update_fails = (r, w') /\
      calls (trace w') =
        calls (trace (snd (place_market_buy_order (PyInt 10000) (PyInt 1) PyNone
                             (at_second_order update_fails))))
        ++ EvUpdateTrade (update_params (PyStr "t-2") (PyInt 50510))
           :: EvSleep REQUEST_DELAY :: rest) /\
  (exists r w' rest,
      main_with false no_entry_price = (r, w') /\
      calls (trace w') =
        calls (trace (snd (place_market_buy_order (PyInt 10000) (PyInt 1) PyNone
                             (at_second_order no_entry_price))))
        ++ EvSleep REQUEST_DELAY :: rest) /\
  main_with false Hosts.string_entry_price =
    (Raise TypeError,
     snd (place_market_buy_order (PyInt 10000) (PyInt 1) PyNone
            (at_second_order Hosts.string_entry_price))).
Proof.
  split; [| split; [| split; [| split; [| split; [| split]]]]].
  - destruct (delay_follows_accepted_orders true scenario) as (_ & _ & _ & T & _).
    apply (T 50000%float 10000 (at_first_order scenario) (order "t-1")).
    + apply scripted_reaches_first_order.
    + vm_compute. reflexivity.
  - destruct (delay_follows_accepted_orders true scenario)
      as (_ & _ & _ & _ & T & _).
    apply (T 50000%float 10000 (at_second_order scenario)
             (PyDict [("id", PyStr "t-2"); ("entry_price", PyInt 50010)])).
    + apply scripted_reaches_second_order.
    + vm_compute. reflexivity.
  - destruct (delay_follows_accepted_orders true scenario)
      as (_ & _ & _ & _ & _ & _ & _ & T & _).
    destruct (T 50000%float 10000 50500 (at_second_order scenario)
                (PyDict [("id", PyStr "t-2"); ("entry_price", PyInt 50010)]) _
                (scripted_reaches_second_order _)
                ltac:(vm_compute; reflexivity) ltac:(vm_compute; reflexivity))
      as (entry & Eg & Hm).
    vm_compute in Eg. injection Eg as <-.
    destruct (one_percent_above (PyInt 50010)) as [target | e] eqn:E;
      vm_compute in E; [exact Hm | discriminate E].
  - destruct (delay_follows_accepted_orders true Hosts.string_entry_price)
      as (_ & _ & _ & _ & _ & _ & _ & T & _).
    destruct (T 50000%float 10000 50500 (at_second_order Hosts.string_entry_price)
                (PyDict [("id", PyStr "t-2"); ("entry_price", PyStr "50010")]) _
                (scripted_reaches_second_order _)
                ltac:(vm_compute; reflexivity) ltac:(vm_compute; reflexivity))
      as (entry & Eg & Hm).
    vm_compute in Eg. injection Eg as <-.
    destruct (one_percent_above (PyStr "50010")) as [target | e] eqn:E;
      vm_compute in E; [discriminate E |].
    injection E as <-. exact (proj1 Hm).
  - destruct (delay_follows_accepted_orders false update_fails)
      as (_ & _ & _ & _ & _ & _ & _ & _ & T & _).
    destruct (T 50000%float 10000 (at_second_order update_fails)
                (PyDict [("id", PyStr "t-2"); ("entry_price", PyInt 50010)]) _
                (scripted_reaches_second_order _) ltac:(vm_compute; reflexivity))
      as (entry & trade_id & Eg & Ei & Hm).
    vm_compute in Eg. injection Eg as <-. vm_compute in Ei. injection Ei as <-.
    change (Py.truthy (PyInt 50010)) with true in Hm. cbv iota in Hm.
    destruct (one_percent_above (PyInt 50010)) as [target | e] eqn:E;
      vm_compute in E; [| discriminate E].
    injection E as <-. exact Hm.
  - destruct (delay_follows_accepted_orders false no_entry_price)
      as (_ & _ & _ & _ & _ & _ & _ & _ & T & _).
    destruct (T 50000%float 10000 (at_second_order no_entry_price)
                (order "t-2") _
                (scripted_reaches_second_order _) ltac:(vm_compute; reflexivity))
      as (entry & trade_id & Eg & Ei & Hm).
    vm_compute in Eg. injection Eg as <-.
    change (Py.truthy PyNone) with false in Hm. cbv iota in Hm. exact Hm.
  - destruct (delay_follows_accepted_orders false Hosts.string_entry_price)
      as (_ & _ & _ & _ & _ & _ & _ & _ & T & _).
    destruct (T 50000%float 10000 (at_second_order Hosts.string_entry_price)
                (PyDict [("id", PyStr "t-2"); ("entry_price", PyStr "50010")]) _
                (scripted_reaches_second_order _) ltac:(vm_compute; reflexivity))
      as (entry & trade_id & Eg & Ei & Hm).
    vm_compute in Eg. injection Eg as <-.
    change (Py.truthy (PyStr "50010")) with true in Hm. cbv iota in Hm.
    destruct (one_percent_above (PyStr "50010")) as [target | e] eqn:E;
      vm_compute in E; [discriminate E |].
    injection E as <-. exact (proj1 Hm).
Defined.

(** C9 as stated fails: in the end-to-end run the limit order is the last
    call, with no delay after it. *)
Lemma no_delay_after_limit_order :
  delay_after_every_order REQUEST_DELAY (calls (trace (snd (main scenario)))) = false /\
  last (calls (trace (snd (main scenario)))) EvGetTicker =
    EvNewTrade (limit_params (PyInt 10000) (PyInt 1) (PyInt 49900) (PyInt 50399)).
Proof. split; vm_compute; reflexivity. Qed.

(** The end-to-end run makes the six calls of the outline with margin
    10000, take-profit 50500, limit price 49900 and limit take-profit
    50399. *)
Lemma end_to_end_numbers_witness :
  exists w',
    main scenario = (Ok tt, w') /\
    calls (trace w') =
      calls (trace scenario) ++ direct_outline 10000 50500 49900 50399.
Proof.
  destruct (end_to_end_numbers scenario) as (_ & _ & _ & _ & _ & T).
  apply (T (at_second_order scenario)
           (snd (place_market_buy_order (PyInt 10000) (PyInt 1) (PyInt 50500)
                   (extend (at_second_order scenario)
                      [EvLog INFO
                         "Take-profit direct ingesteld op %.0f (1%% boven geschatte marktprijs %.2f)"
                         [AVal (PyInt 50500); AVal (PyFloat 50000)]])))
           [("id", PyStr "t-2"); ("entry_price", PyInt 50010)]).
  - apply scripted_reaches_second_order.
  - vm_compute. reflexivity.
  - reflexivity.
Defined.

(** C8 as stated fails on one number: with the entry price 50010 the
    logged target is 50510, and 50560 is not what [round(50010 * 1.01)]
    gives. *)
Lemma end_to_end_ideal_target_is_not_50560 :
  In (EvLog INFO
        "Werkelijke entry_price: %.2f, geschatte take-profit: %.0f, ideale take-profit: %.0f"
        [AVal (PyInt 50010); AVal (PyInt 50500); AVal (PyInt 50510)])
     (trace (snd (main scenario))) /\
  one_percent_above (PyInt 50010) <> Ok 50560.
Proof.
  split.
  - vm_compute. tauto.
  - vm_compute. discriminate.
Qed.

(** * The further properties at work *)

Import Hosts.

(** 5 USD at -50000: the result, -10000, is not above zero. *)
Lemma usd_to_sats_sign_witness :
  (PrimFloat.ltb 0 (-50000) = true -> 0 <= -10000) /\
  (PrimFloat.ltb (-50000) 0 = true -> -10000 <= 0).
Proof.
  apply (usd_to_sats_sign (PyInt 5) (Py.NInt 5) 5%float (-50000)%float
           offline offline (-10000)).
  - reflexivity.
  - reflexivity.
  - reflexivity.
  - vm_compute. reflexivity.
Defined.

(** The price of the end-to-end run is a finite float above zero. *)
Lemma first_order_needs_finite_price_witness :
  exists m e, Prim2SF 50000 = S754_finite false m e.
Proof.
  apply (first_order_needs_finite_price scenario (at_first_order scenario)
           50000%float 10000).
  apply scripted_reaches_first_order.
Defined.

(** A NaN price is returned by [get_ticker], and [main] stops at the margin
    check. *)
Lemma nan_price_passes_get_ticker_witness :
  get_ticker nan_price =
    (Ok (Some nan), after_call EvGetTicker futures_get_ticker nan_price) /\
  main nan_price =
    (Ok tt,
     extend (after_call EvGetTicker futures_get_ticker nan_price)
       [EvLog ERROR "Fout in usd_to_sats: %s" [AExn ValueError];
        EvLog ERROR "Ongeldige margin berekend. Script wordt beëindigd." []]).
Proof.
  pose proof (nan_price_passes_get_ticker true nan_price) as T. cbv zeta in T.
  apply (T (PyDict [("lastPrice", PyFloat nan)])
           (PyDict [("lastPrice", PyFloat nan)])
           (after_call EvGetTicker futures_get_ticker nan_price)
           (PyFloat nan) nan); reflexivity.
Defined.

(** Without entry price the direct policy logs 50500 twice. *)
Lemma direct_without_entry_price_witness :
  second_order_direct 50000 10000 (at_second_order no_entry_price) =
    (Ok (Some (PyDict [("id", PyStr "t-2")])),
     extend
       (snd (place_market_buy_order (PyInt 10000) (PyInt 1) (PyInt 50500)
               (extend (at_second_order no_entry_price)
                  [EvLog INFO
                     "Take-profit direct ingesteld op %.0f (1%% boven geschatte marktprijs %.2f)"
                     [AVal (PyInt 50500); AVal (PyFloat 50000)]])))
       [EvLog INFO
          "Werkelijke entry_price: %.2f, geschatte take-profit: %.0f, ideale take-profit: %.0f"
          [AVal (PyFloat 50000); AVal (PyInt 50500); AVal (PyInt 50500)]]).
Proof.
  apply (direct_without_entry_price 50000%float 10000 50500
           (at_second_order no_entry_price)).
  - vm_compute. reflexivity.
  - vm_compute. reflexivity.
  - reflexivity.
Defined.

(** An entry price that comes back as the string ["50010"] makes [main]
    raise under both policies, right after the second order. *)
Lemma entry_price_not_a_number_escapes_witness :
  main_with true string_entry_price =
    (Raise TypeError,
     snd (place_market_buy_order (PyInt 10000) (PyInt 1) (PyInt 50500)
            (extend (at_second_order string_entry_price)
               [EvLog INFO
                  "Take-profit direct ingesteld op %.0f (1%% boven geschatte marktprijs %.2f)"
                  [AVal (PyInt 50500); AVal (PyFloat 50000)]]))) /\
  calls (trace (snd (main_with true string_entry_price))) =
    firstn 4 (direct_outline 10000 50500 0 0).
Proof.
  split.
  - refine (proj1 (entry_price_not_a_number_escapes
                     string_entry_price (at_second_order string_entry_price) _
                     50000%float 10000
                     (PyDict [("id", PyStr "t-2"); ("entry_price", PyStr "50010")])
                     (PyStr "50010") _ _) 50500 _ _ _).
    + apply scripted_reaches_second_order.
    + reflexivity.
    + vm_compute. reflexivity.
    + vm_compute. reflexivity.
    + reflexivity.
  - vm_compute. reflexivity.
Defined.

(** The key comes from the file, the secret, empty in the file, and the
    passphrase, absent from it, from the environment; with an empty
    environment the startup exits. *)
Lemma startup_credentials_witness :
  @startup _ scripted_client (scripted_host (Ok partial_config) full_env []) =
    @initialise _ scripted_client (scripted_host (Ok partial_config) full_env [])
      (options_of (PyStr "k-1") (PyStr "s-env") (PyStr "p-env")) /\
  @startup _ scripted_client (scripted_host (Ok partial_config) [] []) =
    ([Boot (EvLog ERROR
              "API-sleutels ontbreken! Controleer configuration.yml of .env." [])],
     Exit 1).
Proof.
  split.
  - refine (proj1 (@startup_credentials _ scripted_client
                     (scripted_host (Ok partial_config) full_env [])
                     [("key", PyStr "k-1"); ("secret", PyStr EmptyString)]
                     (PyStr "k-1") (PyStr "s-env") (PyStr "p-env") _ _ _ _) _ _ _);
      reflexivity.
  - refine (proj2 (@startup_credentials _ scripted_client
                     (scripted_host (Ok partial_config) [] [])
                     [("key", PyStr "k-1"); ("secret", PyStr EmptyString)]
                     (PyStr "k-1") PyNone PyNone _ _ _ _) _);
      try reflexivity.
    right. left. reflexivity.
Defined.

(** An empty configuration file loads as [None]. *)
Lemma startup_config_not_a_record_witness :
  @startup _ scripted_client (scripted_host (Ok PyNone) full_env script_replies) =
    ([], Uncaught AttributeError).
Proof.
  apply (@startup_config_not_a_record _ scripted_client
           (scripted_host (Ok PyNone) full_env script_replies) PyNone).
  - reflexivity.
  - discriminate.
Defined.

(** The ready host built its client from the three values of the file. *)
Lemma startup_ready_witness :
  exists config ln_key ln_secret ln_passphrase lnm0 test_response,
    @load_configuration _ ready_host = Ok config /\
    @credential _ ready_host config "key" "LN_KEY" = Ok ln_key /\
    @credential _ ready_host config "secret" "LN_SECRET" = Ok ln_secret /\
    @credential _ ready_host config "passphrase" "LN_PASSPHRASE" = Ok ln_passphrase /\
    Py.truthy ln_key = true /\ Py.truthy ln_secret = true /\
    Py.truthy ln_passphrase = true /\
    @new_client _ ready_host (options_of ln_key ln_secret ln_passphrase) = Ok lnm0 /\
    futures_get_ticker lnm0 = (Ok test_response, tl script_replies) /\
    fst (@startup _ scripted_client ready_host) =
      [BootClient (options_of ln_key ln_secret ln_passphrase);
       Boot EvGetTicker;
       Boot (EvLog INFO "Verbinding met LN Markets gelukt. Ticker: %s"
               [AVal test_response])].
Proof.
  apply (@startup_ready _ scripted_client ready_host
           (fst (@startup _ scripted_client ready_host)) (tl script_replies)).
  reflexivity.
Defined.

(** A venue that answers the startup and then nothing: [main] stops at the
    ticker, and the script still exits with status 0. *)
Lemma script_exit_status_witness :
  (0 = 1 /\
   @startup _ scripted_client short_host =
     (fst (@script _ scripted_client short_host table_builtins), Exit 1) /\
   existsb is_order (fst (@script _ scripted_client short_host table_builtins)) = false) \/
  (0 = 0 /\
   exists sevs lnm w,
     @startup _ scripted_client short_host = (sevs, Ready lnm) /\
     main (World lnm []) = (Ok tt, w) /\
     fst (@script _ scripted_client short_host table_builtins) =
       sevs ++ map Boot (trace w)).
Proof.
  apply (@script_exit_status _ scripted_client short_host table_builtins).
  vm_compute. reflexivity.
Defined.

(** The whole script on the ready host: its orders come after a startup
    that succeeded, and the ticker is called twice. *)
Lemma script_orders_need_startup_witness :
  (exists sevs lnm, @startup _ scripted_client ready_host = (sevs, Ready lnm)) /\
  List.length
    (filter is_ticker_call (fst (@script _ scripted_client ready_host table_builtins)))
    = 2%nat.
Proof.
  destruct (@script_orders_need_startup _ scripted_client ready_host table_builtins
              (fst (@script _ scripted_client ready_host table_builtins))
              (snd (@script _ scripted_client ready_host table_builtins)))
    as [T1 T2].
  - vm_compute. reflexivity.
  - split.
    + apply T1. vm_compute. reflexivity.
    + apply (T2 (fst (@startup _ scripted_client ready_host)) (tl script_replies)).
      reflexivity.
Defined.

(** An unreachable venue: [get_ticker] gives [None] and an error record. *)
Lemma failure_is_logged_witness :
  exists evs,
    trace (snd (get_ticker offline)) = trace offline ++ evs /\
    existsb is_error evs = true.
Proof.
  apply (proj1 (failure_is_logged offline) None (snd (get_ticker offline))).
  reflexivity.
Defined.

(** The end-to-end run places its limit order at 49900 with 50399. *)
Lemma limit_order_prices_witness :
  exists n margin tp lp ltp,
    calls (trace (snd (main_with true scenario))) =
      calls (trace scenario) ++ firstn n (direct_outline margin tp lp ltp) /\
    ((List.length (direct_outline margin tp lp ltp) <= n)%nat ->
       exists price w1,
         get_ticker scenario = (Ok (Some price), w1) /\
         Py.round (price - 100)%float = Ok lp /\
         one_percent_above (PyInt lp) = Ok ltp /\
         last (direct_outline margin tp lp ltp) EvGetTicker =
           EvNewTrade
             (PyDict [("type", PyStr "l"); ("side", PyStr "b");
                      ("margin", PyInt margin); ("leverage", PyInt 1);
                      ("price", PyInt lp); ("takeprofit", PyInt ltp)])).
Proof.
  destruct (limit_order_prices true scenario)
    as (n & margin & tp & update & lp & ltp & Hc & Hl & _).
  exists n, margin, tp, lp, ltp. split; [exact Hc | exact Hl].
Defined.
